(** * LLM Reasoning Router: complexity analyzer, routing, quality checker,
      escalation controller and cost accounting

    A shallow embedding of the Python sources under [src/src] together with
    the properties stated about them.

    Conventions of the embedding.
    - Python [str] values are Rocq [string]s; a character is read as the
      Unicode code point of the same number (the Latin-1 range 0..255), and
      [str.lower], [str.strip], [str.split] and the classes of [re] behave on
      that range exactly as CPython does.
    - Python [int] is [Z].  Python [float] is modelled by exact rationals
      [Q]: the rounding of binary64 arithmetic is not part of the model.
      [int(x)] is truncation towards zero.
    - Regular expressions are values of the type [Re.regex], a fragment that
      covers every construct the pattern tables of the sources use; matching
      is the backtracking search of [re] (ordered alternation, greedy and lazy
      repetition of a character class, look-ahead, anchors). *)

From Stdlib Require Import ZArith QArith Qround Qpower.
From Stdlib Require Import List String Ascii Bool Lia.
From Stdlib Require Import DecimalString.
Import ListNotations.

Set Implicit Arguments.

(* ================================================================== *)
(** * Python strings *)

Module PyStr.

Local Open Scope N_scope.

Definition ord (c : ascii) : N := N_of_ascii c.
Definition chr (n : N) : ascii := ascii_of_N n.

Definition between (lo hi n : N) : bool := (lo <=? n) && (n <=? hi).

(** Characters changed by [str.lower]: A-Z and the upper-case letters of the
    Latin-1 supplement (U+00C0..U+00DE without the multiplication sign). *)
Definition isupper (c : ascii) : bool :=
  let n := ord c in
  between 65 90 n || (between 192 222 n && negb (n =? 215)).

Definition lower_char (c : ascii) : ascii :=
  if isupper c then chr (ord c + 32) else c.

Fixpoint lower (s : string) : string :=
  match s with
  | EmptyString => EmptyString
  | String c r => String (lower_char c) (lower r)
  end.

(** [str.isspace] on one character; also the class [\s] of [re]. *)
Definition isspace (c : ascii) : bool :=
  let n := ord c in
  between 9 13 n || between 28 32 n || (n =? 133) || (n =? 160).

(** The class [\d] of [re]. *)
Definition isdigit (c : ascii) : bool := between 48 57 (ord c).

Definition isalnum (c : ascii) : bool :=
  let n := ord c in
  between 48 57 n || between 65 90 n || between 97 122 n
  || (n =? 170) || between 178 179 n || (n =? 181) || between 185 186 n
  || between 188 190 n || between 192 214 n || between 216 246 n
  || between 248 255 n.

(** The class [\w] of [re]. *)
Definition isword (c : ascii) : bool := isalnum c || (ord c =? 95).

Definition is_empty (s : string) : bool :=
  match s with EmptyString => true | String _ _ => false end.

Fixpoint lstrip (s : string) : string :=
  match s with
  | EmptyString => EmptyString
  | String c r => if isspace c then lstrip r else s
  end.

Fixpoint rstrip (s : string) : string :=
  match s with
  | EmptyString => EmptyString
  | String c r =>
      let r' := rstrip r in
      if is_empty r' && isspace c then EmptyString else String c r'
  end.

(** [s.strip()] *)
Definition strip (s : string) : string := rstrip (lstrip s).

(** [len(s)] *)
Definition len (s : string) : Z := Z.of_nat (String.length s).

(** [s[:n]] for a natural number [n] *)
Fixpoint take (n : nat) (s : string) : string :=
  match n, s with
  | S k, String c r => String c (take k r)
  | _, _ => EmptyString
  end.

(** [s[n:]] for a natural number [n] *)
Fixpoint drop (n : nat) (s : string) : string :=
  match n, s with
  | S k, String _ r => drop k r
  | _, _ => s
  end.

(** [s[-n:]] for a positive [n] *)
Definition last_n (n : nat) (s : string) : string :=
  drop (String.length s - n) s.

(** [needle in hay] *)
Fixpoint contains (needle hay : string) : bool :=
  String.prefix needle hay
  || match hay with
     | EmptyString => false
     | String _ r => contains needle r
     end.

(** [sep.join(l)] *)
Fixpoint join (sep : string) (l : list string) : string :=
  match l with
  | [] => EmptyString
  | [x] => x
  | x :: r => x ++ sep ++ join sep r
  end.

(** One pass from the right: the word in progress at the front of [s] and
    the complete words after it. *)
Fixpoint split_go (s : string) : string * list string :=
  match s with
  | EmptyString => (EmptyString, [])
  | String c r =>
      let '(w, ws) := split_go r in
      if isspace c
      then (EmptyString, if is_empty w then ws else w :: ws)
      else (String c w, ws)
  end.

(** [s.split()]: the maximal runs of non-blank characters. *)
Definition split (s : string) : list string :=
  let '(w, ws) := split_go s in
  if is_empty w then ws else w :: ws.

(** [re.split] on a pattern [[...]+] given by its class [sep]: the pieces
    between maximal runs of separators, empty pieces at the ends included. *)
Fixpoint split_runs_go (sep : ascii -> bool) (s : string)
  : string * list string :=
  match s with
  | EmptyString => (EmptyString, [])
  | String c r =>
      let '(w, ws) := split_runs_go sep r in
      if sep c then
        match r with
        | String c' _ => if sep c' then (w, ws) else (EmptyString, w :: ws)
        | EmptyString => (EmptyString, w :: ws)
        end
      else (String c w, ws)
  end.

Definition split_runs (sep : ascii -> bool) (s : string) : list string :=
  let '(w, ws) := split_runs_go sep s in w :: ws.

(** [str(n)] for an integer *)
Definition of_Z (z : Z) : string := NilZero.string_of_int (Z.to_int z).

End PyStr.

(* ================================================================== *)
(** * Python floats as rationals *)

Module PyNum.

Local Open Scope Q_scope.

Definition ltb (a b : Q) : bool := negb (Qle_bool b a).

(** [min(a, b)] and [max(a, b)] as the builtins choose: the first argument
    unless the second is strictly better. *)
Definition min (a b : Q) : Q := if ltb b a then b else a.
Definition max (a b : Q) : Q := if ltb a b then b else a.

(** [int(x)]: truncation towards zero. *)
Definition int (x : Q) : Z := Z.quot (Qnum x) (Zpos (Qden x)).

(** [a / b] on integers (true division). *)
Definition div (a b : Z) : Q := inject_Z a / inject_Z b.

(** Nearest integer, ties to the even one. *)
Definition round_half_even (x : Q) : Z :=
  let f := Qfloor x in
  let d := x - inject_Z f in
  if ltb d (1 # 2) then f
  else if ltb (1 # 2) d then (f + 1)%Z
  else if Z.even f then f else (f + 1)%Z.

(** [round(x, 2)] *)
Definition round2 (x : Q) : Q := inject_Z (round_half_even (x * 100)) / 100.

(** [sum(l)] *)
Definition sum (l : list Q) : Q := fold_left Qplus l 0.

End PyNum.

(* ================================================================== *)
(** * The fragment of Python's [re] used by the pattern tables *)

Module Re.

Import PyStr.

Definition cls := ascii -> bool.

Inductive regex : Type :=
| Eps : regex                       (* the empty pattern *)
| Chr : cls -> regex                (* one character of a class *)
| Seq : regex -> regex -> regex     (* concatenation *)
| Alt : regex -> regex -> regex     (* [a|b], tried in this order *)
| Star : cls -> regex               (* [[c]*], greedy *)
| LazyStar : cls -> regex           (* [[c]*?] *)
| UpTo : nat -> cls -> regex        (* [[c]{0,n}], greedy *)
| NotAhead : regex -> regex         (* [(?!r)] *)
| Bol : regex                       (* [^] under [re.MULTILINE] *)
| Eos : regex                       (* [$] without [re.MULTILINE] *)
| WordB : regex                     (* [\b] *)
| Fail : regex.                     (* a character no modelled text has *)

(** A continuation receives the character before the current position and
    the rest of the text, and answers with the rest after the whole match. *)
Definition cont := option ascii -> string -> option string.

Fixpoint star (c : cls) (prev : option ascii) (s : string) (k : cont)
  : option string :=
  match s with
  | String a r =>
      if c a then
        match star c (Some a) r k with
        | Some e => Some e
        | None => k prev s
        end
      else k prev s
  | EmptyString => k prev s
  end.

Fixpoint lazy_star (c : cls) (prev : option ascii) (s : string) (k : cont)
  : option string :=
  match k prev s with
  | Some e => Some e
  | None =>
      match s with
      | String a r => if c a then lazy_star c (Some a) r k else None
      | EmptyString => None
      end
  end.

Fixpoint upto (n : nat) (c : cls) (prev : option ascii) (s : string)
  (k : cont) : option string :=
  match n, s with
  | S m, String a r =>
      if c a then
        match upto m c (Some a) r k with
        | Some e => Some e
        | None => k prev s
        end
      else k prev s
  | _, _ => k prev s
  end.

Definition newline : ascii := chr 10.

Definition is_newline (a : ascii) : bool := Ascii.eqb a newline.

Definition word_before (prev : option ascii) : bool :=
  match prev with Some a => isword a | None => false end.

Definition word_after (s : string) : bool :=
  match s with String a _ => isword a | EmptyString => false end.

Fixpoint run (r : regex) (prev : option ascii) (s : string) (k : cont)
  {struct r} : option string :=
  match r with
  | Eps => k prev s
  | Chr c =>
      match s with
      | String a t => if c a then k (Some a) t else None
      | EmptyString => None
      end
  | Seq a b => run a prev s (fun p t => run b p t k)
  | Alt a b =>
      match run a prev s k with
      | Some e => Some e
      | None => run b prev s k
      end
  | Star c => star c prev s k
  | LazyStar c => lazy_star c prev s k
  | UpTo n c => upto n c prev s k
  | NotAhead a =>
      match run a prev s (fun _ t => Some t) with
      | Some _ => None
      | None => k prev s
      end
  | Bol =>
      match prev with
      | None => k prev s
      | Some a => if is_newline a then k prev s else None
      end
  | Eos =>
      match s with
      | EmptyString => k prev s
      | String a EmptyString => if is_newline a then k prev s else None
      | String _ (String _ _) => None
      end
  | WordB => if xorb (word_before prev) (word_after s) then k prev s else None
  | Fail => None
  end.

(** A match anchored at the current position: the text after it. *)
Definition match_here (r : regex) (prev : option ascii) (s : string)
  : option string :=
  run r prev s (fun _ t => Some t).

(** The text of a match that starts at [s] and leaves [rest]. *)
Definition matched (s rest : string) : string :=
  take (String.length s - String.length rest) s.

(** A match object: [start()] and [group()]. *)
Record Match := { start : Z; group : string }.

(** [re.search]: the leftmost match. *)
Fixpoint search_from (r : regex) (prev : option ascii) (s : string) (i : Z)
  : option Match :=
  match match_here r prev s with
  | Some rest => Some {| start := i; group := matched s rest |}
  | None =>
      match s with
      | String a t => search_from r (Some a) t (i + 1)
      | EmptyString => None
      end
  end.

Definition search (r : regex) (s : string) : option Match :=
  search_from r None s 0.

(** [re.finditer]: the matches from left to right, none overlapping.  [skip]
    counts the characters of the last match still to be passed.  (After an
    empty match the scan moves on by one character; no pattern of the tables
    matches the empty string.) *)
Fixpoint finditer_from (r : regex) (prev : option ascii) (s : string)
  (i : Z) (skip : nat) : list Match :=
  match skip with
  | S n =>
      match s with
      | String a t => finditer_from r (Some a) t (i + 1) n
      | EmptyString => []
      end
  | O =>
      match match_here r prev s with
      | Some rest =>
          let g := matched s rest in
          {| start := i; group := g |}
          :: match s with
             | String a t =>
                 finditer_from r (Some a) t (i + 1) (String.length g - 1)
             | EmptyString => []
             end
      | None =>
          match s with
          | String a t => finditer_from r (Some a) t (i + 1) 0
          | EmptyString => []
          end
      end
  end.

Definition finditer (r : regex) (s : string) : list Match :=
  finditer_from r None s 0 0.

(** ** Writing patterns *)

Definition seq (l : list regex) : regex := fold_right Seq Eps l.
Definition alts (l : list regex) : regex := fold_right Alt Fail l.
Definition opt (r : regex) : regex := Alt r Eps.
Definition plus (c : cls) : regex := Seq (Chr c) (Star c).

Definition only (a : ascii) : cls := fun x => Ascii.eqb x a.
(** a character under [re.IGNORECASE] *)
Definition only_ci (a : ascii) : cls :=
  fun x => Ascii.eqb (lower_char x) (lower_char a).
Definition any : cls := fun _ => true.
(** [\s], [\d] and [\w] *)
Definition space : cls := isspace.
Definition digit : cls := isdigit.
Definition word : cls := isword.
(** [.] without [re.DOTALL] *)
Definition dot : cls := fun x => negb (is_newline x).

Fixpoint one_of (set : string) : cls :=
  fun x =>
    match set with
    | EmptyString => false
    | String a r => Ascii.eqb x a || one_of r x
    end.
Definition none_of (set : string) : cls := fun x => negb (one_of set x).
Definition either (c d : cls) : cls := fun x => c x || d x.

(** a literal, and a literal under [re.IGNORECASE] *)
Fixpoint lit (s : string) : regex :=
  match s with
  | EmptyString => Eps
  | String a r => Seq (Chr (only a)) (lit r)
  end.

Fixpoint lit_ci (s : string) : regex :=
  match s with
  | EmptyString => Eps
  | String a r => Seq (Chr (only_ci a)) (lit_ci r)
  end.

End Re.

(* ================================================================== *)
(** * Response quality: [src/quality] *)

Module Quality.

Import PyStr Re.
Local Open Scope string_scope.
Local Open Scope Q_scope.

(** ** [quality/schemas.py] *)

Inductive QualityIssueType : Set :=
| UNCERTAINTY | INCOMPLETE | FAILED_REASONING | TOO_SHORT | REPETITION
| REFUSAL.

Definition issue_type_eqb (a b : QualityIssueType) : bool :=
  match a, b with
  | UNCERTAINTY, UNCERTAINTY | INCOMPLETE, INCOMPLETE
  | FAILED_REASONING, FAILED_REASONING | TOO_SHORT, TOO_SHORT
  | REPETITION, REPETITION | REFUSAL, REFUSAL => true
  | _, _ => false
  end.

Record QualityIssue := {
  issue_type : QualityIssueType;
  description : string;
  severity : Q;
  evidence : option string
}.

Record QualityAssessment := {
  quality_score : Z;
  issues : list QualityIssue;
  should_escalate : bool;
  escalation_reason : option string;
  confidence : Q
}.

(** ** [quality/detectors.py] *)

Definition UNCERTAINTY_PATTERNS : list regex := [
  seq [lit "i"; opt (lit "'"); lit "m not ";
       opt (alts [lit "entirely "; lit "completely "; lit "fully "]);
       lit "sure"];
  seq [lit "i"; opt (lit "'"); lit "m not certain"];
  seq [lit "i"; opt (lit "'"); lit "m uncertain"];
  lit "might be";
  lit "may be";
  lit "possibly";
  lit "perhaps";
  seq [lit "i think"; NotAhead (lit " that")];
  seq [lit "i believe"; NotAhead (lit " that")];
  lit "it seems like";
  seq [lit "it appears "; alts [lit "to be "; lit "that "]];
  lit "could be";
  lit "probably";
  lit "not 100% sure";
  lit "hard to say";
  lit "difficult to determine";
  seq [lit "i don"; opt (lit "'"); lit "t "; opt (lit "really "); lit "know"];
  seq [alts [lit "this"; lit "that"]; lit " is "; opt (lit "just ");
       opt (alts [lit "a "; lit "my "]); lit "guess"];
  lit "if i had to guess";
  lit "take this with a grain of salt"
].

(** The patterns are searched under [re.IGNORECASE].  The second one is
    written in the source with the characters U+00E2, U+20AC, U+00A6; the
    middle one lies outside the modelled range. *)
Definition INCOMPLETE_PATTERNS : list regex := [
  seq [lit "..."; Star space; Eos];
  seq [Chr (only_ci (chr 226)); Fail; Chr (only_ci (chr 166)); Star space;
       Eos];
  seq [alts [lit_ci "etc"; lit_ci "and so on"; lit_ci "and more";
             lit_ci "and others"];
       Star space; opt (lit "."); Star space; Eos];
  seq [lit ":"; Star space; Eos];
  seq [plus digit; lit "."; Star space; Eos];
  seq [alts [lit_ci "First"; lit "1."]; Star (none_of "."); Eos];
  lit_ci "to be continued";
  lit_ci "i'll continue";
  seq [lit_ci "let me know if you"; UpTo 30 dot; Eos]
].

Definition FAILED_REASONING_PATTERNS : list regex := [
  seq [lit "i cannot ";
       alts [lit "help"; lit "assist"; lit "provide"; lit "answer"]];
  lit "i am unable to";
  seq [lit "i"; opt (lit "'"); lit "m unable to"];
  seq [lit "i don"; opt (lit "'"); lit "t have ";
       opt (alts [lit "the "; lit "enough "]);
       alts [lit "ability"; lit "capability"; lit "information";
             lit "access"]];
  seq [alts [lit "this"; lit "that"]; lit " is ";
       alts [lit "beyond"; lit "outside"]; lit " ";
       alts [lit "my"; lit "the"]; lit " ";
       alts [lit "capabilities"; lit "scope"; lit "knowledge"]];
  seq [lit "i apologize"; UpTo 50 dot; lit "cannot"];
  seq [lit "i"; opt (lit "'"); lit "m sorry"; UpTo 30 dot;
       alts [lit "cannot"; lit "can't"; lit "unable"]];
  seq [lit "unfortunately"; UpTo 30 dot;
       alts [lit "cannot"; lit "can't"; lit "unable"]];
  seq [lit "i"; opt (lit "'"); lit "m not able to"]
].

Definition REFUSAL_PATTERNS : list regex := [
  seq [lit "i ";
       alts [lit "cannot"; lit "can't"; lit "won't"; lit "will not"];
       lit " "; alts [lit "help"; lit "assist"]; lit " with ";
       alts [lit "that"; lit "this"]];
  seq [alts [lit "this"; lit "that"]; lit " ";
       alts [lit "request"; lit "question"]; lit " ";
       alts [lit "is"; lit "seems"]; lit " ";
       alts [lit "inappropriate"; lit "harmful"]];
  seq [lit "i"; opt (lit "'"); lit "m not ";
       alts [lit "going to"; lit "able to"]; lit " ";
       alts [lit "help"; lit "assist"]; lit " with"];
  seq [alts [lit "that's"; lit "this is"]; lit " not something i can"];
  lit "i have to decline";
  lit "i must refuse"
].

Definition detect_uncertainty (text : string) : list QualityIssue :=
  let text_lower := lower text in
  let matches_found :=
    flat_map (fun pattern => map group (finditer pattern text_lower))
             UNCERTAINTY_PATTERNS in
  match matches_found with
  | [] => []
  | first :: _ =>
      let n := Z.of_nat (List.length matches_found) in
      let severity := PyNum.min 0.8 (0.2 * inject_Z n) in
      [ {| issue_type := UNCERTAINTY;
           description := "Found " ++ of_Z n ++ " uncertainty phrase(s)";
           severity := severity;
           evidence := Some (take 50 first) |} ]
  end.

Fixpoint incomplete_loop (patterns : list regex) (text : string)
  : list QualityIssue :=
  match patterns with
  | [] => []
  | pattern :: more =>
      match search pattern text with
      | Some _ =>
          let evidence :=
            if (100 <? len text)%Z then strip (last_n 100 text)
            else strip text in
          [ {| issue_type := INCOMPLETE;
               description := "Response appears to be incomplete";
               severity := 0.7;
               evidence := Some evidence |} ]
      | None => incomplete_loop more text
      end
  end.

Definition detect_incomplete (text : string) : list QualityIssue :=
  incomplete_loop INCOMPLETE_PATTERNS text.

(** The loop shared in shape by [detect_failed_reasoning] and
    [detect_refusal]: the first pattern that matches gives the one issue. *)
Fixpoint first_match_loop (patterns : list regex) (text_lower : string)
  (mk : string -> QualityIssue) : list QualityIssue :=
  match patterns with
  | [] => []
  | pattern :: more =>
      match search pattern text_lower with
      | Some m => [ mk (take 50 (group m)) ]
      | None => first_match_loop more text_lower mk
      end
  end.

Definition detect_failed_reasoning (text : string) : list QualityIssue :=
  first_match_loop FAILED_REASONING_PATTERNS (lower text)
    (fun ev =>
       {| issue_type := FAILED_REASONING;
          description := "Response indicates inability to complete task";
          severity := 0.9;
          evidence := Some ev |}).

Definition detect_refusal (text : string) : list QualityIssue :=
  first_match_loop REFUSAL_PATTERNS (lower text)
    (fun ev =>
       {| issue_type := REFUSAL;
          description := "Model refused to answer the request";
          severity := 1.0;
          evidence := Some ev |}).

Definition detect_too_short (text : string) (min_length : Z)
  (prompt_complexity : Z) : list QualityIssue :=
  let text_stripped := strip text in
  let expected_min := (min_length + prompt_complexity * 2)%Z in
  if (len text_stripped <? expected_min)%Z then
    let severity :=
      PyNum.max 0.3 (1.0 - PyNum.div (len text_stripped) expected_min) in
    [ {| issue_type := TOO_SHORT;
         description :=
           "Response is only " ++ of_Z (len text_stripped)
           ++ " characters (expected >" ++ of_Z expected_min ++ ")";
         severity := PyNum.min 0.7 severity;
         evidence :=
           Some (if is_empty text_stripped then "(empty)"
                 else take 100 text_stripped) |} ]
  else [].

(** [for i in range(n)] over the word list from position [i] on: the first
    three-word phrase that occurs again in the words after it. *)
Fixpoint repeated_phrase (n : nat) (words : list string) : option string :=
  match n with
  | O => None
  | S m =>
      let phrase := join " " (firstn 3 words) in
      let rest := join " " (skipn 3 words) in
      if contains phrase rest then Some phrase
      else repeated_phrase m (List.tl words)
  end.

Definition detect_repetition (text : string) : list QualityIssue :=
  let sentences := split_runs (one_of ".!?") text in
  let sentences :=
    map (fun s => lower (strip s))
        (filter (fun s => negb (is_empty (strip s))
                          && (10 <? len (strip s))%Z) sentences) in
  if (List.length sentences <? 3)%nat then []
  else
    let unique_sentences := nodup string_dec sentences in
    let repetition_ratio :=
      1 - PyNum.div (Z.of_nat (List.length unique_sentences))
                    (Z.of_nat (List.length sentences)) in
    let issues :=
      if PyNum.ltb 0.3 repetition_ratio then
        [ {| issue_type := REPETITION;
             description :=
               "High repetition ratio: "
               ++ of_Z (PyNum.round_half_even (repetition_ratio * 100))
               ++ "%";
             severity := PyNum.min 0.8 repetition_ratio;
             evidence := None |} ]
      else [] in
    let words := split (lower text) in
    if (10 <? List.length words)%nat then
      match repeated_phrase (List.length words - 6) words with
      | Some phrase =>
          if existsb (fun i => issue_type_eqb (issue_type i) REPETITION)
                     issues
          then issues
          else issues
               ++ [ {| issue_type := REPETITION;
                       description := "Contains repeated phrases";
                       severity := 0.5;
                       evidence := Some phrase |} ]
      | None => issues
      end
    else issues.

(** ** [quality/service.py] *)

(** The two attributes of a [QualityChecker] that [check] reads. *)
Record QualityChecker := {
  min_response_length : Z;
  quality_threshold : Z
}.

(** [QualityChecker.__init__]: [quality_threshold or settings_threshold]. *)
Definition new_checker (settings_quality_threshold : Z)
  (min_response_length : Z) (quality_threshold : option Z)
  : QualityChecker :=
  {| min_response_length := min_response_length;
     quality_threshold :=
       match quality_threshold with
       | Some t => if (t =? 0)%Z then settings_quality_threshold else t
       | None => settings_quality_threshold
       end |}.

Definition _calculate_score (issues : list QualityIssue) : Z :=
  match issues with
  | [] => 100%Z
  | _ =>
      let total_penalty := PyNum.sum (map (fun i => severity i * 25) issues) in
      Z.max 0 (PyNum.int (100 - total_penalty))
  end.

Definition _calculate_confidence (issues : list QualityIssue)
  (response_text : string) : Q :=
  let length_factor := PyNum.min 1.0 (PyNum.div (len response_text) 500) in
  let issue_clarity :=
    match issues with
    | [] => 0.7
    | _ => PyNum.sum (map severity issues)
           / inject_Z (Z.of_nat (List.length issues))
    end in
  let confidence := length_factor * 0.4 + issue_clarity * 0.6 in
  PyNum.round2 (PyNum.min 1.0 confidence).

(** [max(issues, key=lambda i: i.severity)] on a list with head [i]: the
    first issue of greatest severity. *)
Fixpoint max_severity (best : QualityIssue) (more : list QualityIssue)
  : QualityIssue :=
  match more with
  | [] => best
  | i :: r =>
      max_severity (if PyNum.ltb (severity best) (severity i) then i else best)
                   r
  end.

Definition run_detectors (self : QualityChecker) (response_text : string)
  (prompt_complexity : Z) : list QualityIssue :=
  detect_uncertainty response_text
  ++ detect_incomplete response_text
  ++ detect_failed_reasoning response_text
  ++ detect_refusal response_text
  ++ detect_too_short response_text (min_response_length self)
       prompt_complexity
  ++ detect_repetition response_text.

Definition check (self : QualityChecker) (response_text : string)
  (prompt_complexity : Z) : QualityAssessment :=
  if is_empty response_text || is_empty (strip response_text) then
    {| quality_score := 0;
       issues := [ {| issue_type := TOO_SHORT;
                      description := "Response is empty";
                      severity := 1.0;
                      evidence := Some "(empty response)" |} ];
       should_escalate := true;
       escalation_reason := Some "Empty response received";
       confidence := 1.0 |}
  else
    let all_issues := run_detectors self response_text prompt_complexity in
    let quality_score := _calculate_score all_issues in
    let should_escalate := (quality_score <? quality_threshold self)%Z in
    let escalation_reason :=
      match should_escalate, all_issues with
      | true, i :: r =>
          let main_issue := max_severity i r in
          Some ("Quality score " ++ of_Z quality_score
                ++ " below threshold (" ++ of_Z (quality_threshold self)
                ++ "). " ++ "Main issue: " ++ description main_issue)
      | true, [] =>
          Some ("Quality score " ++ of_Z quality_score
                ++ " below threshold (" ++ of_Z (quality_threshold self)
                ++ ")")
      | false, _ => None
      end in
    let confidence := _calculate_confidence all_issues response_text in
    {| quality_score := quality_score;
       issues := all_issues;
       should_escalate := should_escalate;
       escalation_reason := escalation_reason;
       confidence := confidence |}.

End Quality.

(* ================================================================== *)
(** * Prompt complexity: [src/analyzer] *)

Module Analyzer.

Import PyStr Re.
Local Open Scope string_scope.
Local Open Scope Q_scope.

(** ** [analyzer/schemas.py] *)

Inductive ComplexityLevel : Set := LOW | MEDIUM | HIGH.

Inductive SignalType : Set :=
| REASONING_KEYWORD | CODE_BLOCK | MATH_EXPRESSION | MULTIPART_QUESTION
| LENGTH.

Definition signal_type_eqb (a b : SignalType) : bool :=
  match a, b with
  | REASONING_KEYWORD, REASONING_KEYWORD | CODE_BLOCK, CODE_BLOCK
  | MATH_EXPRESSION, MATH_EXPRESSION
  | MULTIPART_QUESTION, MULTIPART_QUESTION | LENGTH, LENGTH => true
  | _, _ => false
  end.

Record DetectedSignal := {
  signal_type : SignalType;
  value : string;
  weight : Q;
  position : option Z
}.

Record ComplexityAnalysis := {
  complexity_score : Z;
  confidence : Q;
  level : ComplexityLevel;
  detected_signals : list DetectedSignal;
  prompt_length : Z;
  reasoning : string
}.

(** ** [analyzer/constants.py] *)

Inductive KeywordLevel : Set := high | medium | low.

Definition REASONING_KEYWORDS : list (KeywordLevel * list string) := [
  (high,
   [ "analyze"; "analyse"; "compare"; "contrast"; "evaluate"; "assess";
     "design"; "architect"; "debug"; "troubleshoot"; "optimize"; "refactor";
     "prove"; "derive"; "step by step"; "step-by-step"; "explain why";
     "reasoning"; "trade-off"; "tradeoff"; "pros and cons";
     "advantages and disadvantages"; "critically"; "in-depth";
     "comprehensive" ]);
  (medium,
   [ "explain"; "describe"; "summarize"; "how does"; "how do"; "what if";
     "implement"; "create"; "build"; "develop"; "solve"; "calculate";
     "compute"; "determine"; "figure out"; "work through"; "walk through";
     "help me understand"; "elaborate"; "clarify" ]);
  (low,
   [ "what is"; "what are"; "define"; "list"; "name"; "when"; "where";
     "who"; "translate"; "convert"; "format"; "give me"; "tell me";
     "show me" ])
].

Definition KEYWORD_WEIGHTS (l : KeywordLevel) : Q :=
  match l with high => 0.9 | medium => 0.6 | low => 0.3 end.

(** Searched under [re.IGNORECASE | re.MULTILINE]. *)
Definition CODE_PATTERNS : list regex := [
  seq [lit "```"; LazyStar any; lit "```"];
  seq [lit "`"; plus (none_of "`"); lit "`"];
  seq [lit_ci "def"; plus space; plus word; Star space; lit "("];
  seq [lit_ci "function"; plus space; plus word; Star space; lit "("];
  seq [lit_ci "class"; plus space; plus word;
       Chr (either space (one_of ":{"))];
  seq [lit_ci "import"; plus space; plus (either word (one_of "."))];
  seq [lit_ci "from"; plus space; plus (either word (one_of "."));
       plus space; lit_ci "import"];
  seq [lit_ci "const"; plus space; plus word; Star space; lit "="];
  seq [lit_ci "let"; plus space; plus word; Star space; lit "="];
  seq [lit_ci "var"; plus space; plus word; Star space; lit "="];
  seq [lit_ci "public"; plus space;
       opt (seq [lit_ci "static"; plus space]);
       alts [lit_ci "void"; lit_ci "int"; lit_ci "string"; lit_ci "bool"]];
  seq [lit_ci "async"; plus space; alts [lit_ci "def"; lit_ci "function"]];
  seq [lit "=>"; Star space; lit "{"];
  seq [lit_ci "SELECT"; plus space; plus dot; plus space; lit_ci "FROM"];
  seq [lit_ci "CREATE"; plus space; lit_ci "TABLE"]
].

(** The class of mathematical symbols of the source, on the modelled range:
    plus-minus (U+00B1), multiplication (U+00D7) and division (U+00F7). *)
Definition math_symbol : cls :=
  fun x => (ord x =? 177)%N || (ord x =? 215)%N || (ord x =? 247)%N.

(** Searched under [re.IGNORECASE]. *)
Definition MATH_PATTERNS : list regex := [
  seq [lit "$$"; LazyStar any; lit "$$"];
  seq [lit "$"; plus (none_of "$"); lit "$"];
  lit_ci "\frac{";
  lit_ci "\sum";
  lit_ci "\int";
  seq [plus digit; Star space; Chr (one_of "+-*/^"); Star space; plus digit];
  seq [plus digit; Star space; Chr (one_of "=<>"); Star space; plus digit];
  Chr math_symbol;
  seq [WordB;
       alts [lit_ci "integral"; lit_ci "derivative"; lit_ci "matrix";
             lit_ci "vector"; lit_ci "equation"; lit_ci "formula"];
       WordB];
  seq [WordB;
       alts [lit_ci "polynomial"; lit_ci "factorial"; lit_ci "logarithm";
             lit_ci "exponential"; lit_ci "trigonometric"];
       WordB];
  seq [WordB;
       alts [lit_ci "probability"; lit_ci "statistics"; lit_ci "regression";
             lit_ci "correlation"];
       WordB]
].

(** [[a-z]] under [re.IGNORECASE] *)
Definition letter : cls := fun x => between 97 122 (ord (lower_char x)).

(** Searched under [re.IGNORECASE | re.MULTILINE].  The bullet U+2022 of the
    third class lies outside the modelled range. *)
Definition MULTIPART_PATTERNS : list regex := [
  seq [Bol; Star space; plus digit; Chr (one_of ".)"); plus space];
  seq [Bol; Star space; Chr letter; Chr (one_of ".)"); plus space];
  seq [Bol; Star space; Chr (one_of "-*"); plus space];
  seq [WordB;
       alts [lit_ci "first"; lit_ci "firstly"; lit_ci "second";
             lit_ci "secondly"; lit_ci "third"; lit_ci "thirdly";
             lit_ci "finally"];
       WordB];
  seq [WordB;
       alts [lit_ci "additionally"; lit_ci "moreover"; lit_ci "furthermore";
             lit_ci "also"];
       WordB];
  seq [WordB;
       alts [lit_ci "and also"; lit_ci "as well as"; lit_ci "in addition";
             lit_ci "on top of that"];
       WordB];
  seq [lit "?"; Star space; Chr (only newline); Star dot; lit "?"];
  seq [lit "?"; plus space;
       alts [lit_ci "And"; lit_ci "Also"; lit_ci "What"; lit_ci "How";
             lit_ci "Why"; lit_ci "Can"]]
].

Record SignalWeights := {
  w_keyword : Q; w_code : Q; w_math : Q; w_multipart : Q; w_length : Q
}.

Definition SIGNAL_WEIGHTS : SignalWeights :=
  {| w_keyword := 0.35; w_code := 0.25; w_math := 0.20;
     w_multipart := 0.10; w_length := 0.10 |}.

Definition very_short : Z := 50.
Definition short : Z := 100.
Definition medium_length : Z := 500.
Definition long : Z := 1000.
Definition very_long : Z := 2000.

(** ** [analyzer/signals.py] *)

Definition detect_reasoning_keywords (text : string) : list DetectedSignal :=
  let text_lower := lower text in
  flat_map
    (fun '(level, keywords) =>
       let weight := KEYWORD_WEIGHTS level in
       flat_map
         (fun keyword =>
            map (fun m =>
                   {| signal_type := REASONING_KEYWORD;
                      value := keyword;
                      weight := weight;
                      position := Some (start m) |})
                (finditer (lit_ci keyword) text_lower))
         keywords)
    REASONING_KEYWORDS.

(** [matched_text[:n] + "..." if len(matched_text) > n else matched_text] *)
Definition display (n : nat) (matched_text : string) : string :=
  if (Z.of_nat n <? len matched_text)%Z then take n matched_text ++ "..."
  else matched_text.

Definition detect_code_blocks (text : string) : list DetectedSignal :=
  flat_map
    (fun pattern =>
       map (fun m =>
              {| signal_type := CODE_BLOCK;
                 value := display 50 (group m);
                 weight := 0.7;
                 position := Some (start m) |})
           (finditer pattern text))
    CODE_PATTERNS.

Definition detect_math_expressions (text : string) : list DetectedSignal :=
  flat_map
    (fun pattern =>
       map (fun m =>
              {| signal_type := MATH_EXPRESSION;
                 value := display 30 (group m);
                 weight := 0.8;
                 position := Some (start m) |})
           (finditer pattern text))
    MATH_PATTERNS.

Definition detect_multipart_questions (text : string)
  : list DetectedSignal :=
  flat_map
    (fun pattern =>
       map (fun m =>
              {| signal_type := MULTIPART_QUESTION;
                 value := display 30 (strip (group m));
                 weight := 0.5;
                 position := Some (start m) |})
           (finditer pattern text))
    MULTIPART_PATTERNS.

Definition calculate_length_signal (text : string) : DetectedSignal :=
  let length := len text in
  let weight :=
    if (length <? very_short)%Z then 0.1
    else if (length <? short)%Z then 0.2
    else if (length <? medium_length)%Z then 0.4
    else if (length <? long)%Z then 0.6
    else if (length <? very_long)%Z then 0.8
    else PyNum.min 0.9 (0.8 + PyNum.div (length - very_long) 10000) in
  {| signal_type := LENGTH;
     value := of_Z length ++ " characters";
     weight := weight;
     position := None |}.

(** The dictionary [seen] of [deduplicate_signals], in insertion order. *)
Definition Key : Type := SignalType * string.

Definition key_of (signal : DetectedSignal) : Key :=
  (signal_type signal, lower (value signal)).

Definition key_eqb (a b : Key) : bool :=
  signal_type_eqb (fst a) (fst b) && String.eqb (snd a) (snd b).

(** [if key not in seen or signal.weight > seen[key].weight:
       seen[key] = signal] *)
Fixpoint seen_update (seen : list (Key * DetectedSignal)) (key : Key)
  (signal : DetectedSignal) : list (Key * DetectedSignal) :=
  match seen with
  | [] => [(key, signal)]
  | (k, old) :: r =>
      if key_eqb k key then
        if PyNum.ltb (weight old) (weight signal) then (k, signal) :: r
        else (k, old) :: r
      else (k, old) :: seen_update r key signal
  end.

Definition deduplicate_signals (signals : list DetectedSignal)
  : list DetectedSignal :=
  map snd
      (fold_left (fun seen signal => seen_update seen (key_of signal) signal)
                 signals []).

(** ** [analyzer/service.py] *)

Record PromptAnalyzer := { weights : SignalWeights }.

Definition default_analyzer : PromptAnalyzer :=
  {| weights := SIGNAL_WEIGHTS |}.

(** [sorted(ws, reverse=True)] *)
Fixpoint insert_desc (x : Q) (l : list Q) : list Q :=
  match l with
  | [] => [x]
  | y :: r => if PyNum.ltb x y then y :: insert_desc x r else x :: y :: r
  end.

Definition sorted_desc (l : list Q) : list Q := fold_right insert_desc [] l.

(** [for i, w in enumerate(ws): total += w * 0.7**i], entered at index [i]
    with the running [total]. *)
Fixpoint decay_loop (i : nat) (ws : list Q) (total : Q) : Q :=
  match ws with
  | [] => total
  | w :: r => decay_loop (S i) r (total + w * 0.7 ^ Z.of_nat i)
  end.

Definition aggregate_signals (signals : list DetectedSignal) : Q :=
  match signals with
  | [] => 0.0
  | _ =>
      let ws := sorted_desc (map weight signals) in
      PyNum.min 1.0 (decay_loop 0 (firstn 5 ws) 0.0)
  end.

Definition _calculate_score (self : PromptAnalyzer)
  (keyword_signals code_signals math_signals multipart_signals
     : list DetectedSignal)
  (length_signal : DetectedSignal) : Z :=
  let keyword_score :=
    aggregate_signals keyword_signals * w_keyword (weights self) in
  let code_score := aggregate_signals code_signals * w_code (weights self) in
  let math_score := aggregate_signals math_signals * w_math (weights self) in
  let multipart_score :=
    aggregate_signals multipart_signals * w_multipart (weights self) in
  let length_score := weight length_signal * w_length (weights self) in
  let total :=
    keyword_score + code_score + math_score + multipart_score
    + length_score in
  PyNum.int (PyNum.min 100 (total * 100)).

Definition _calculate_confidence (signals : list DetectedSignal) (score : Z)
  : Q :=
  match signals with
  | [] => 0.5
  | _ =>
      let avg_weight :=
        PyNum.sum (map weight signals)
        / inject_Z (Z.of_nat (List.length signals)) in
      let signal_count := Z.of_nat (List.length signals) in
      let count_factor := PyNum.min 1.0 (PyNum.div signal_count 5) in
      let extremity := PyNum.div (Z.abs (score - 50)) 50 in
      let confidence :=
        avg_weight * 0.4 + count_factor * 0.3 + extremity * 0.3 in
      PyNum.round2 confidence
  end.

Definition _score_to_level (score : Z) : ComplexityLevel :=
  if (score <? 30)%Z then LOW
  else if (score <? 70)%Z then MEDIUM
  else HIGH.

Definition _generate_reasoning
  (keyword_signals code_signals math_signals multipart_signals
     : list DetectedSignal)
  (length_signal : DetectedSignal) (score : Z) : string :=
  let reasons : list string :=
    ((match keyword_signals with
     | [] => []
     | _ => [ ("Contains reasoning keywords: "
               ++ join ", " (map value (firstn 3 keyword_signals)))%string ]
     end)
    ++ (match code_signals with
        | [] => []
        | _ => [ ("Contains "
                  ++ of_Z (Z.of_nat (List.length code_signals))
                  ++ " code block(s)")%string ]
        end)
    ++ (match math_signals with
        | [] => []
        | _ => [ "Contains mathematical expressions" ]
        end)
    ++ (match multipart_signals with
        | [] => []
        | _ => [ "Contains multi-part question structure" ]
        end)
    ++ [ ("Prompt length: " ++ value length_signal)%string ])%list in
  "Score " ++ of_Z score ++ "/100. " ++ join "; " reasons.

(** The five detector functions [analyze] calls, as one value, so that what
    [analyze] does with them can be stated for any choice of them. *)
Record Detectors := {
  keywords_of : string -> list DetectedSignal;
  code_of : string -> list DetectedSignal;
  math_of : string -> list DetectedSignal;
  multipart_of : string -> list DetectedSignal;
  length_of : string -> DetectedSignal
}.

Definition signals_module : Detectors :=
  {| keywords_of := detect_reasoning_keywords;
     code_of := detect_code_blocks;
     math_of := detect_math_expressions;
     multipart_of := detect_multipart_questions;
     length_of := calculate_length_signal |}.

Definition analyze_with (d : Detectors) (self : PromptAnalyzer)
  (prompt : string) : ComplexityAnalysis :=
  if is_empty prompt || is_empty (strip prompt) then
    {| complexity_score := 0;
       confidence := 1.0;
       level := LOW;
       detected_signals := [];
       prompt_length := 0;
       reasoning := "Empty prompt" |}
  else
    let keyword_signals := keywords_of d prompt in
    let code_signals := code_of d prompt in
    let math_signals := math_of d prompt in
    let multipart_signals := multipart_of d prompt in
    let length_signal := length_of d prompt in
    let keyword_signals := deduplicate_signals keyword_signals in
    let code_signals := deduplicate_signals code_signals in
    let math_signals := deduplicate_signals math_signals in
    let multipart_signals := deduplicate_signals multipart_signals in
    let all_signals :=
      (keyword_signals ++ code_signals ++ math_signals ++ multipart_signals
       ++ [length_signal])%list in
    let score :=
      _calculate_score self keyword_signals code_signals math_signals
        multipart_signals length_signal in
    let confidence := _calculate_confidence all_signals score in
    let level := _score_to_level score in
    let reasoning :=
      _generate_reasoning keyword_signals code_signals math_signals
        multipart_signals length_signal score in
    {| complexity_score := score;
       confidence := confidence;
       level := level;
       detected_signals := all_signals;
       prompt_length := len prompt;
       reasoning := reasoning |}.

(** [PromptAnalyzer.analyze] *)
Definition analyze (self : PromptAnalyzer) (prompt : string)
  : ComplexityAnalysis :=
  analyze_with signals_module self prompt.

End Analyzer.

(* ================================================================== *)
(** * Settings: [src/config.py] *)

Module Config.

Local Open Scope string_scope.
Local Open Scope Q_scope.

(** The model, threshold and cost fields of [Settings]. *)
Record Settings := {
  fast_model : string;
  complex_model : string;
  complexity_threshold_low : Z;
  complexity_threshold_high : Z;
  quality_threshold : Z;
  max_escalation_depth : Z;
  cost_flash_input : Q;
  cost_flash_output : Q;
  cost_pro_input : Q;
  cost_pro_output : Q
}.

(** The field defaults. *)
Definition defaults : Settings :=
  {| fast_model := "gemini-2.0-flash";
     complex_model := "gemini-2.0-flash-thinking-exp";
     complexity_threshold_low := 30;
     complexity_threshold_high := 70;
     quality_threshold := 60;
     max_escalation_depth := 2;
     cost_flash_input := 0.075;
     cost_flash_output := 0.30;
     cost_pro_input := 1.25;
     cost_pro_output := 5.00 |}.

End Config.

(* ================================================================== *)
(** * Back-end values: [src/llm/schemas.py], [src/llm/client.py] *)

Module LLM.

Import PyStr.
Local Open Scope string_scope.
Local Open Scope Q_scope.

Inductive Role : Set := system | user | assistant.

Record Message := { role : Role; content : string }.

Record TokenUsage := {
  prompt_tokens : Z;
  completion_tokens : Z;
  total_tokens : Z
}.

(** [created_at] is a point in time, kept as a number. *)
Record ChatResponse := {
  id : string;
  response_content : string;
  model : string;
  usage : TokenUsage;
  finish_reason : string;
  created_at : Z;
  latency_ms : Q
}.

(** [GeminiClient.calculate_cost] *)
Definition calculate_cost (settings : Config.Settings) (model : string)
  (prompt_tokens completion_tokens : Z) : Q :=
  let '(input_rate, output_rate) :=
    if contains "flash" (lower model)
       && negb (contains "thinking" (lower model))
    then (Config.cost_flash_input settings, Config.cost_flash_output settings)
    else (Config.cost_pro_input settings, Config.cost_pro_output settings) in
  let input_cost := PyNum.div prompt_tokens 1000000 * input_rate in
  let output_cost := PyNum.div completion_tokens 1000000 * output_rate in
  input_cost + output_cost.

End LLM.

(* ================================================================== *)
(** * Routing: [src/router] *)

Module Router.

Import PyStr.
Local Open Scope string_scope.
Local Open Scope Z_scope.

Inductive ModelTier : Set := FAST | COMPLEX.

Record RoutingDecision := {
  selected_model : string;
  tier : ModelTier;
  complexity_score : Z;
  confidence : Q;
  reasoning : string;
  requires_quality_check : bool;
  timestamp : Z
}.

Record ThresholdRoutingStrategy := {
  low_threshold : Z;
  high_threshold : Z
}.

(** [ThresholdRoutingStrategy.__init__] with its defaults *)
Definition default_threshold_strategy : ThresholdRoutingStrategy :=
  {| low_threshold := 30; high_threshold := 70 |}.

(** [ThresholdRoutingStrategy.decide]; [now] is the reading of the clock. *)
Definition decide (self : ThresholdRoutingStrategy)
  (analysis : Analyzer.ComplexityAnalysis) (fast_model complex_model : string)
  (now : Z) : RoutingDecision :=
  let score := Analyzer.complexity_score analysis in
  if score >=? high_threshold self then
    {| selected_model := complex_model;
       tier := COMPLEX;
       complexity_score := score;
       confidence := Analyzer.confidence analysis;
       reasoning :=
         "High complexity (" ++ of_Z score ++ ") exceeds threshold ("
         ++ of_Z (high_threshold self) ++ ")";
       requires_quality_check := false;
       timestamp := now |}
  else if score <? low_threshold self then
    {| selected_model := fast_model;
       tier := FAST;
       complexity_score := score;
       confidence := Analyzer.confidence analysis;
       reasoning :=
         "Low complexity (" ++ of_Z score ++ ") below threshold ("
         ++ of_Z (low_threshold self) ++ ")";
       requires_quality_check := false;
       timestamp := now |}
  else
    {| selected_model := fast_model;
       tier := FAST;
       complexity_score := score;
       confidence := Analyzer.confidence analysis;
       reasoning :=
         "Medium complexity (" ++ of_Z score
         ++ ") - using fast model with quality check";
       requires_quality_check := true;
       timestamp := now |}.

End Router.

(* ================================================================== *)
(** * Cost accounting of the metrics record: [src/metrics/service.py] *)

Module Metrics.

Import PyStr.
Local Open Scope string_scope.
Local Open Scope Q_scope.

(** The tier test of [MetricsService.log_request] (its [initial_tier]). *)
Definition initial_tier (selected_model : string) : Router.ModelTier :=
  if contains "flash" (lower selected_model)
     && negb (contains "thinking" (lower selected_model))
  then Router.FAST else Router.COMPLEX.

(** [MetricsService._calculate_cost] *)
Definition _calculate_cost (response : LLM.ChatResponse) (model : string)
  : Q :=
  let is_flash :=
    contains "flash" (lower model) && negb (contains "pro" (lower model)) in
  let '(input_rate, output_rate) :=
    if is_flash then (0.075, 0.30) else (1.25, 5.00) in
  let input_cost :=
    PyNum.div (LLM.prompt_tokens (LLM.usage response)) 1000000 * input_rate in
  let output_cost :=
    PyNum.div (LLM.completion_tokens (LLM.usage response)) 1000000
    * output_rate in
  input_cost + output_cost.

End Metrics.

(* ================================================================== *)
(** * Escalation: [src/escalation] *)

Module Escalation.

Import PyStr.
Local Open Scope string_scope.
Local Open Scope Q_scope.

(** ** [escalation/schemas.py] *)

Record EscalationStep := {
  model_used : string;
  response_preview : string;
  quality_score : Z;
  escalated : bool;
  latency_ms : Q;
  timestamp : Z
}.

Record EscalationChain := {
  request_id : string;
  original_prompt_preview : string;
  steps : list EscalationStep;
  final_model : string;
  final_response : string;
  total_attempts : Z;
  total_latency_ms : Q;
  escalation_prevented_loop : bool
}.

(** What a call can raise: an error of the back-end (of any type [E]), the
    refusal of a schema constraint by the named field, a failed [assert]. *)
Inductive Raised (E : Type) : Type :=
| BackendError : E -> Raised E
| ValidationError : string -> Raised E
| AssertionError : Raised E.

Arguments BackendError {E} _.
Arguments ValidationError {E} _.
Arguments AssertionError {E}.

(** The constraints of [EscalationStep]: [quality_score] in 0..100 and
    [latency_ms >= 0]. *)
Definition new_step {E} (s : EscalationStep) : Raised E + EscalationStep :=
  if negb ((0 <=? quality_score s)%Z && (quality_score s <=? 100)%Z)
  then inl (ValidationError "quality_score")
  else if PyNum.ltb (latency_ms s) 0 then inl (ValidationError "latency_ms")
  else inr s.

(** The constraints of [EscalationChain]: [total_attempts >= 1] and
    [total_latency_ms >= 0]. *)
Definition new_chain {E} (c : EscalationChain) : Raised E + EscalationChain :=
  if (total_attempts c <? 1)%Z then inl (ValidationError "total_attempts")
  else if PyNum.ltb (total_latency_ms c) 0
  then inl (ValidationError "total_latency_ms")
  else inr c.

(** ** [escalation/service.py] *)

Record EscalationHandler := {
  settings : Config.Settings;
  quality_checker : Quality.QualityChecker;
  max_depth : Z
}.

(** [EscalationHandler.__init__] *)
Definition new_handler (settings : Config.Settings)
  (quality_checker : Quality.QualityChecker) : EscalationHandler :=
  {| settings := settings;
     quality_checker := quality_checker;
     max_depth := Config.max_escalation_depth settings |}.

(** The local variables of [handle_with_escalation] that the loop updates. *)
Record Locals := {
  l_steps : list EscalationStep;
  l_responses : list string;
  l_models_used : list string;
  l_total_latency_ms : Q;
  l_current_model : string;
  l_loop_prevented : bool;
  l_final_response : option LLM.ChatResponse
}.

(** [range(n)] *)
Definition range (n : Z) : list Z := map Z.of_nat (List.seq 0 (Z.to_nat n)).

Section Handler.

(** The world outside the handler: the back-end capability, the clock and
    the source of identifiers, each reading and changing a state [World]. *)
Variable World : Type.
Variable LLMError : Type.
Variable generate :
  list LLM.Message -> string -> Q -> option Z -> World
  -> (LLMError + LLM.ChatResponse) * World.
Variable now : World -> Z * World.
Variable uuid4_hex : World -> string * World.

(** Computations that read and change the world and may raise. *)
Definition M (A : Type) : Type := World -> (Raised LLMError + A) * World.

Definition ret {A} (a : A) : M A := fun w => (inr a, w).

Definition bind {A B} (c : M A) (k : A -> M B) : M B :=
  fun w =>
    match c w with
    | (inl e, w') => (inl e, w')
    | (inr a, w') => k a w'
    end.

Definition raise {A} (e : Raised LLMError) : M A := fun w => (inl e, w).

Definition checked {A} (r : Raised LLMError + A) : M A := fun w => (r, w).

Definition call_generate (messages : list LLM.Message) (model : string)
  (temperature : Q) (max_tokens : option Z) : M LLM.ChatResponse :=
  fun w =>
    match generate messages model temperature max_tokens w with
    | (inl e, w') => (inl (BackendError e), w')
    | (inr r, w') => (inr r, w')
    end.

Definition call_now : M Z := fun w => let '(t, w') := now w in (inr t, w').

Definition call_uuid4_hex : M string :=
  fun w => let '(h, w') := uuid4_hex w in (inr h, w').

Notation "x <- c ;; k" := (bind c (fun x => k))
  (at level 61, c at next level, right associativity).

(** [s[:200] + "..." if len(s) > 200 else s] *)
Definition preview (s : string) : string :=
  if (200 <? len s)%Z then take 200 s ++ "..." else s.

(** The [for attempt in range(self.max_depth + 1)] loop, over the attempts
    still to come; a [break] returns the locals as they are. *)
Fixpoint attempts_loop (self : EscalationHandler)
  (messages : list LLM.Message) (complexity_score : Z) (temperature : Q)
  (max_tokens : option Z) (attempts : list Z) (l : Locals) {struct attempts}
  : M Locals :=
  match attempts with
  | [] => ret l
  | attempt :: more =>
      let current_model := l_current_model l in
      response <-
        call_generate messages current_model temperature max_tokens ;;
      let responses :=
        (l_responses l ++ [LLM.response_content response])%list in
      let models_used := (l_models_used l ++ [current_model])%list in
      let total_latency_ms := l_total_latency_ms l + LLM.latency_ms response in
      let final_response := Some response in
      let quality :=
        Quality.check (quality_checker self) (LLM.response_content response)
          complexity_score in
      let should_escalate :=
        Quality.should_escalate quality
        && (attempt <? max_depth self)%Z
        && negb (String.eqb current_model
                   (Config.complex_model (settings self))) in
      t <- call_now ;;
      step <-
        checked
          (new_step
             {| model_used := current_model;
                response_preview := preview (LLM.response_content response);
                quality_score := Quality.quality_score quality;
                escalated := should_escalate;
                latency_ms := LLM.latency_ms response;
                timestamp := t |}) ;;
      let steps := (l_steps l ++ [step])%list in
      let l' loop_prevented model :=
        {| l_steps := steps;
           l_responses := responses;
           l_models_used := models_used;
           l_total_latency_ms := total_latency_ms;
           l_current_model := model;
           l_loop_prevented := loop_prevented;
           l_final_response := final_response |} in
      if negb (Quality.should_escalate quality) then
        ret (l' (l_loop_prevented l) current_model)
      else if (attempt >=? max_depth self)%Z then
        ret (l' true current_model)
      else if String.eqb current_model (Config.complex_model (settings self))
      then ret (l' (l_loop_prevented l) current_model)
      else
        attempts_loop self messages complexity_score temperature max_tokens
          more
          (l' (l_loop_prevented l) (Config.complex_model (settings self)))
  end.

Definition handle_with_escalation (self : EscalationHandler)
  (messages : list LLM.Message) (initial_model : string)
  (complexity_score : Z) (temperature : Q) (max_tokens : option Z)
  : M (LLM.ChatResponse * EscalationChain) :=
  hex <- call_uuid4_hex ;;
  let request_id := "req-" ++ take 8 hex in
  let prompt := List.last (map LLM.content messages) "" in
  let prompt_preview := preview prompt in
  l <-
    attempts_loop self messages complexity_score temperature max_tokens
      (range (max_depth self + 1))
      {| l_steps := [];
         l_responses := [];
         l_models_used := [];
         l_total_latency_ms := 0.0;
         l_current_model := initial_model;
         l_loop_prevented := false;
         l_final_response := None |} ;;
  chain <-
    checked
      (new_chain
         {| request_id := request_id;
            original_prompt_preview := prompt_preview;
            steps := l_steps l;
            final_model := l_current_model l;
            final_response :=
              match l_final_response l with
              | Some r => LLM.response_content r
              | None => ""
              end;
            total_attempts := Z.of_nat (List.length (l_steps l));
            total_latency_ms := l_total_latency_ms l;
            escalation_prevented_loop := l_loop_prevented l |}) ;;
  match l_final_response l with
  | Some final_response => ret (final_response, chain)
  | None => raise AssertionError
  end.

(** [handle_direct] *)
Definition handle_direct (messages : list LLM.Message) (model : string)
  (temperature : Q) (max_tokens : option Z) : M LLM.ChatResponse :=
  call_generate messages model temperature max_tokens.

End Handler.

End Escalation.

(* ================================================================== *)
(** * The other routing strategies and the engine:
      [src/router/strategies.py], [src/router/service.py] *)

Module PyFmt.

Import PyStr.
Local Open Scope string_scope.

(** The digits of [n] on at least two places. *)
Definition two_digits (n : Z) : string :=
  if (n <? 10)%Z then "0" ++ of_Z n else of_Z n.

(** [f"{x:.2f}"]: [x] rounded to two decimals (ties to even, as the exact
    value of a rational asks), with the sign of [x]. *)
Definition fixed2 (x : Q) : string :=
  let n := Z.abs (PyNum.round_half_even (x * 100)) in
  (if PyNum.ltb x 0 then "-" else "")
  ++ of_Z (n / 100) ++ "." ++ two_digits (n mod 100).

End PyFmt.

Module Strategies.

Import PyStr.
Local Open Scope string_scope.
Local Open Scope Z_scope.

Record ConfidenceAwareRoutingStrategy := {
  low_threshold : Z;
  high_threshold : Z;
  confidence_threshold : Q;
  fallback : Router.ThresholdRoutingStrategy
}.

(** [ConfidenceAwareRoutingStrategy.__init__] *)
Definition new_confidence_aware (low_threshold high_threshold : Z)
  (confidence_threshold : Q) : ConfidenceAwareRoutingStrategy :=
  {| low_threshold := low_threshold;
     high_threshold := high_threshold;
     confidence_threshold := confidence_threshold;
     fallback := {| Router.low_threshold := low_threshold;
                    Router.high_threshold := high_threshold |} |}.

(** The defaults of the constructor: 30, 70 and 0.6. *)
Definition default_confidence_aware : ConfidenceAwareRoutingStrategy :=
  new_confidence_aware 30 70 0.6.

(** [ConfidenceAwareRoutingStrategy.decide] *)
Definition decide_confidence_aware (self : ConfidenceAwareRoutingStrategy)
  (analysis : Analyzer.ComplexityAnalysis) (fast_model complex_model : string)
  (now : Z) : Router.RoutingDecision :=
  if PyNum.ltb (Analyzer.confidence analysis) (confidence_threshold self)
     && ((low_threshold self <=? Analyzer.complexity_score analysis)
         && (Analyzer.complexity_score analysis <? high_threshold self))
  then
    {| Router.selected_model := complex_model;
       Router.tier := Router.COMPLEX;
       Router.complexity_score := Analyzer.complexity_score analysis;
       Router.confidence := Analyzer.confidence analysis;
       Router.reasoning :=
         "Low confidence (" ++ PyFmt.fixed2 (Analyzer.confidence analysis)
         ++ ") with borderline " ++ "score ("
         ++ of_Z (Analyzer.complexity_score analysis)
         ++ ") - defaulting to complex model";
       Router.requires_quality_check := false;
       Router.timestamp := now |}
  else Router.decide (fallback self) analysis fast_model complex_model now.

(** [AlwaysFastStrategy.decide] *)
Definition decide_always_fast (analysis : Analyzer.ComplexityAnalysis)
  (fast_model complex_model : string) (now : Z) : Router.RoutingDecision :=
  {| Router.selected_model := fast_model;
     Router.tier := Router.FAST;
     Router.complexity_score := Analyzer.complexity_score analysis;
     Router.confidence := Analyzer.confidence analysis;
     Router.reasoning :=
       "Strategy: always use fast model (with quality check)";
     Router.requires_quality_check := true;
     Router.timestamp := now |}.

(** [AlwaysComplexStrategy.decide] *)
Definition decide_always_complex (analysis : Analyzer.ComplexityAnalysis)
  (fast_model complex_model : string) (now : Z) : Router.RoutingDecision :=
  {| Router.selected_model := complex_model;
     Router.tier := Router.COMPLEX;
     Router.complexity_score := Analyzer.complexity_score analysis;
     Router.confidence := Analyzer.confidence analysis;
     Router.reasoning := "Strategy: always use complex model";
     Router.requires_quality_check := false;
     Router.timestamp := now |}.

(** The classes that implement [RoutingStrategy]. *)
Inductive RoutingStrategy : Type :=
| Threshold : Router.ThresholdRoutingStrategy -> RoutingStrategy
| ConfidenceAware : ConfidenceAwareRoutingStrategy -> RoutingStrategy
| AlwaysFast : RoutingStrategy
| AlwaysComplex : RoutingStrategy.

(** [strategy.decide(analysis, fast_model, complex_model)] *)
Definition decide (strategy : RoutingStrategy)
  (analysis : Analyzer.ComplexityAnalysis) (fast_model complex_model : string)
  (now : Z) : Router.RoutingDecision :=
  match strategy with
  | Threshold s => Router.decide s analysis fast_model complex_model now
  | ConfidenceAware s =>
      decide_confidence_aware s analysis fast_model complex_model now
  | AlwaysFast => decide_always_fast analysis fast_model complex_model now
  | AlwaysComplex =>
      decide_always_complex analysis fast_model complex_model now
  end.

End Strategies.

Module Engine.

Record RoutingEngine := {
  settings : Config.Settings;
  analyzer : Analyzer.PromptAnalyzer;
  strategy : Strategies.RoutingStrategy
}.

(** [RoutingEngine.__init__] *)
Definition new_engine (settings : Config.Settings)
  (analyzer : option Analyzer.PromptAnalyzer)
  (strategy : option Strategies.RoutingStrategy) : RoutingEngine :=
  {| settings := settings;
     analyzer :=
       match analyzer with
       | Some a => a
       | None => Analyzer.default_analyzer
       end;
     strategy :=
       match strategy with
       | Some s => s
       | None =>
           Strategies.Threshold
             {| Router.low_threshold :=
                  Config.complexity_threshold_low settings;
                Router.high_threshold :=
                  Config.complexity_threshold_high settings |}
       end |}.

(** [RoutingEngine.analyze] *)
Definition analyze (self : RoutingEngine) (prompt : string)
  : Analyzer.ComplexityAnalysis :=
  Analyzer.analyze (analyzer self) prompt.

(** [RoutingEngine.route]; [now] is the reading of the clock. *)
Definition route (self : RoutingEngine) (prompt : string) (now : Z)
  : Router.RoutingDecision :=
  let analysis := Analyzer.analyze (analyzer self) prompt in
  Strategies.decide (strategy self) analysis
    (Config.fast_model (settings self))
    (Config.complex_model (settings self)) now.

(** [RoutingEngine.route_with_analysis] *)
Definition route_with_analysis (self : RoutingEngine) (prompt : string)
  (now : Z) : Analyzer.ComplexityAnalysis * Router.RoutingDecision :=
  let analysis := Analyzer.analyze (analyzer self) prompt in
  let decision :=
    Strategies.decide (strategy self) analysis
      (Config.fast_model (settings self))
      (Config.complex_model (settings self)) now in
  (analysis, decision).

(** [RoutingEngine.set_strategy] *)
Definition set_strategy (self : RoutingEngine)
  (strategy : Strategies.RoutingStrategy) : RoutingEngine :=
  {| settings := settings self;
     analyzer := analyzer self;
     strategy := strategy |}.

End Engine.

(* ================================================================== *)
(** * Combining the responses of a chain:
      [src/escalation/strategies.py], [EscalationHandler.combine_responses] *)

Module Combination.

Import PyStr.
Local Open Scope string_scope.

(** [CombinedResponse] of [escalation/schemas.py] *)
Record CombinedResponse := {
  primary_response : string;
  supporting_context : option string;
  models_used : list string;
  combination_strategy : string
}.

(** Indexing an empty list. *)
Inductive Raised : Set := IndexError.

(** [l[-1]] *)
Definition last_item {A : Type} (l : list A) : Raised + A :=
  match rev l with
  | [] => inl IndexError
  | x :: _ => inr x
  end.

(** [l[0]] *)
Definition first_item {A : Type} (l : list A) : Raised + A :=
  match l with
  | [] => inl IndexError
  | x :: _ => inr x
  end.

Definition nl : string := String (chr 10) EmptyString.

(** [UseLatestStrategy.combine] *)
Definition use_latest (responses models : list string)
  : Raised + CombinedResponse :=
  match last_item responses with
  | inl e => inl e
  | inr latest =>
      inr {| primary_response := latest;
             supporting_context := None;
             models_used := models;
             combination_strategy := "use_latest" |}
  end.

(** [resp[:500] + "..." if len(resp) > 500 else resp] *)
Definition preview500 (resp : string) : string :=
  if (500 <? len resp)%Z then take 500 resp ++ "..." else resp.

(** The loop over [enumerate(zip(responses[:-1], models[:-1]))], entered at
    index [i]. *)
Fixpoint context_parts (i : Z) (pairs : list (string * string))
  : list string :=
  match pairs with
  | [] => []
  | (resp, model) :: more =>
      ("[Attempt " ++ of_Z (i + 1) ++ " from " ++ model ++ "]:" ++ nl
       ++ preview500 resp)
      :: context_parts (i + 1) more
  end.

(** [MergeWithContextStrategy.combine] *)
Definition merge_with_context (responses models : list string)
  : Raised + CombinedResponse :=
  if (List.length responses =? 1)%nat then
    match first_item responses with
    | inl e => inl e
    | inr only =>
        inr {| primary_response := only;
               supporting_context := None;
               models_used := models;
               combination_strategy := "single_response" |}
    end
  else
    let parts :=
      context_parts 0
        (List.combine (removelast responses) (removelast models)) in
    match last_item responses with
    | inl e => inl e
    | inr latest =>
        inr {| primary_response := latest;
               supporting_context := Some (join (nl ++ nl) parts);
               models_used := models;
               combination_strategy := "merge_with_context" |}
    end.

(** [UseBestQualityStrategy.combine] *)
Definition use_best_quality (responses models : list string)
  : Raised + CombinedResponse :=
  match last_item responses with
  | inl e => inl e
  | inr latest =>
      inr {| primary_response := latest;
             supporting_context := None;
             models_used := models;
             combination_strategy := "use_best_quality" |}
  end.

(** The classes that implement [CombinationStrategy]. *)
Inductive CombinationStrategy : Set :=
| UseLatest | MergeWithContext | UseBestQuality.

Definition combine (strategy : CombinationStrategy)
  (responses models : list string) : Raised + CombinedResponse :=
  match strategy with
  | UseLatest => use_latest responses models
  | MergeWithContext => merge_with_context responses models
  | UseBestQuality => use_best_quality responses models
  end.

(** [combination_strategy or UseLatestStrategy()] of
    [EscalationHandler.__init__] *)
Definition handler_strategy (combination_strategy : option CombinationStrategy)
  : CombinationStrategy :=
  match combination_strategy with
  | Some s => s
  | None => UseLatest
  end.

(** [EscalationHandler.combine_responses], for a handler whose
    [combination_strategy] attribute is [strategy]. *)
Definition combine_responses (strategy : CombinationStrategy)
  (chain : Escalation.EscalationChain) : Raised + CombinedResponse :=
  let responses :=
    map Escalation.response_preview (Escalation.steps chain) in
  let models := map Escalation.model_used (Escalation.steps chain) in
  combine strategy responses models.

End Combination.

(* ================================================================== *)
(** * The metrics record: [MetricsService.log_request],
      [src/metrics/models.py] *)

Module MetricsLog.

Import PyStr.
Local Open Scope string_scope.

(** The columns of [RequestLog] that [log_request] sets. *)
Record RequestLog := {
  request_id : string;
  created_at : Z;
  completed_at : Z;
  prompt_preview : string;
  prompt_length : Z;
  complexity_score : Z;
  complexity_confidence : Q;
  detected_signals : list string;
  initial_model : string;
  initial_tier : Router.ModelTier;
  final_model : string;
  routing_reasoning : string;
  quality_score : option Z;
  was_escalated : bool;
  escalation_depth : Z;
  escalation_reason : option string;
  latency_ms : Q;
  total_latency_ms : Q;
  prompt_tokens : Z;
  completion_tokens : Z;
  total_tokens : Z;
  estimated_cost : Q;
  response_preview : option string;
  finish_reason : string;
  error_occurred : bool;
  error_message : option string
}.

(** [s.signal_type.value] *)
Definition signal_type_value (t : Analyzer.SignalType) : string :=
  match t with
  | Analyzer.REASONING_KEYWORD => "reasoning_keyword"
  | Analyzer.CODE_BLOCK => "code_block"
  | Analyzer.MATH_EXPRESSION => "math_expression"
  | Analyzer.MULTIPART_QUESTION => "multipart_question"
  | Analyzer.LENGTH => "length"
  end.

(** The record [log_request] hands to the repository.  [uuid_hex] is
    [uuid.uuid4().hex], [created] and [completed] are the two readings of the
    clock, [error] is [str(error)] of the error, if one was passed. *)
Definition log_request (uuid_hex : string) (created completed : Z)
  (prompt : string) (analysis : Analyzer.ComplexityAnalysis)
  (routing : Router.RoutingDecision) (response : LLM.ChatResponse)
  (quality : option Quality.QualityAssessment)
  (escalation : option Escalation.EscalationChain) (error : option string)
  : RequestLog :=
  let request_id := "req-" ++ take 12 uuid_hex in
  let was_escalated :=
    match escalation with
    | Some chain => (1 <? Escalation.total_attempts chain)%Z
    | None => false
    end in
  let escalation_depth :=
    match escalation with
    | Some chain => (Escalation.total_attempts chain - 1)%Z
    | None => 0%Z
    end in
  let final_model :=
    match escalation with
    | Some chain => Escalation.final_model chain
    | None => Router.selected_model routing
    end in
  let total_latency :=
    match escalation with
    | Some chain => Escalation.total_latency_ms chain
    | None => LLM.latency_ms response
    end in
  let initial_tier := Metrics.initial_tier (Router.selected_model routing) in
  {| request_id := request_id;
     created_at := created;
     completed_at := completed;
     prompt_preview := take 500 prompt;
     prompt_length := len prompt;
     complexity_score := Analyzer.complexity_score analysis;
     complexity_confidence := Analyzer.confidence analysis;
     detected_signals :=
       map (fun s => signal_type_value (Analyzer.signal_type s))
           (Analyzer.detected_signals analysis);
     initial_model := Router.selected_model routing;
     initial_tier := initial_tier;
     final_model := final_model;
     routing_reasoning := Router.reasoning routing;
     quality_score :=
       match quality with
       | Some q => Some (Quality.quality_score q)
       | None => None
       end;
     was_escalated := was_escalated;
     escalation_depth := escalation_depth;
     escalation_reason :=
       match quality with
       | Some q =>
           if Quality.should_escalate q then Quality.escalation_reason q
           else None
       | None => None
       end;
     latency_ms := LLM.latency_ms response;
     total_latency_ms := total_latency;
     prompt_tokens := LLM.prompt_tokens (LLM.usage response);
     completion_tokens := LLM.completion_tokens (LLM.usage response);
     total_tokens := LLM.total_tokens (LLM.usage response);
     estimated_cost := Metrics._calculate_cost response final_model;
     response_preview :=
       if is_empty (LLM.response_content response) then None
       else Some (take 500 (LLM.response_content response));
     finish_reason := LLM.finish_reason response;
     error_occurred :=
       match error with Some _ => true | None => false end;
     error_message := error |}.

End MetricsLog.

(* ================================================================== *)
(** * Preparing a request and classifying a failure:
      [GeminiClient.generate] of [src/llm/client.py] *)

Module Client.

Import PyStr.
Local Open Scope string_scope.

(** The loop of [generate] over the messages: the content of the system
    message seen last, and the other messages in their order. *)
Fixpoint split_system (messages : list LLM.Message)
  (system_msg : option string) (conversation_messages : list LLM.Message)
  : option string * list LLM.Message :=
  match messages with
  | [] => (system_msg, conversation_messages)
  | msg :: more =>
      match LLM.role msg with
      | LLM.system =>
          split_system more (Some (LLM.content msg)) conversation_messages
      | _ =>
          split_system more system_msg (conversation_messages ++ [msg])
      end
  end.

(** [system_instruction or system_msg] *)
Definition final_system (system_instruction system_msg : option string)
  : option string :=
  match system_instruction with
  | Some s => if is_empty s then system_msg else Some s
  | None => system_msg
  end.

(** [types.Content(role=role, parts=[types.Part(text=...)])] *)
Record Content := { content_role : string; parts : list string }.

(** [_build_contents] *)
Fixpoint _build_contents (messages : list LLM.Message) : list Content :=
  match messages with
  | [] => []
  | msg :: more =>
      match LLM.role msg with
      | LLM.user =>
          {| content_role := "user"; parts := [LLM.content msg] |}
          :: _build_contents more
      | LLM.assistant =>
          {| content_role := "model"; parts := [LLM.content msg] |}
          :: _build_contents more
      | LLM.system => _build_contents more
      end
  end.

(** What [generate] hands to the API: [contents] and the
    [system_instruction] of the configuration. *)
Definition prepare (messages : list LLM.Message)
  (system_instruction : option string) : list Content * option string :=
  let '(system_msg, conversation_messages) :=
    split_system messages None [] in
  (_build_contents conversation_messages,
   final_system system_instruction system_msg).

(** The exceptions of [src/llm/exceptions.py] that [generate] raises, each
    with the arguments of its constructor. *)
Inductive LLMException : Type :=
| LLMTimeoutError (model : string) (timeout_seconds : Q)
| LLMRateLimitError (model : string)
| LLMContentFilterError (model : string) (reason : string)
| LLMAuthenticationError (message : string)
| LLMError (message : string) (model : string).

(** The [except Exception as e] block of [generate]; [e] is [str(e)]. *)
Definition map_error (llm_timeout : Q) (model : string) (e : string)
  : LLMException :=
  let error_msg := lower e in
  if contains "timeout" error_msg then LLMTimeoutError model llm_timeout
  else if contains "rate limit" error_msg || contains "quota" error_msg
  then LLMRateLimitError model
  else if contains "safety" error_msg || contains "blocked" error_msg
  then LLMContentFilterError model e
  else if contains "api key" error_msg || contains "authentication" error_msg
  then LLMAuthenticationError e
  else LLMError ("Gemini API error: " ++ e) model.

End Client.

(* ================================================================== *)
(** * The database URL validator: [Settings.ensure_async_driver] of
      [src/config.py] *)

Module ConfigValidators.

Import PyStr.
Local Open Scope string_scope.

(** [s.replace(old, new, 1)] for a non-empty [old] *)
Fixpoint replace_first (old new s : string) : string :=
  if String.prefix old s then new ++ drop (String.length old) s
  else
    match s with
    | EmptyString => EmptyString
    | String c r => String c (replace_first old new r)
    end.

(** [s.split(sep, 1)] for a one-character [sep] that occurs in [s]: the text
    before and after its first occurrence; [None] if it does not occur. *)
Fixpoint split_once (sep : ascii) (s : string) : option (string * string) :=
  match s with
  | EmptyString => None
  | String c r =>
      if Ascii.eqb c sep then Some (EmptyString, r)
      else
        match split_once sep r with
        | Some (a, b) => Some (String c a, b)
        | None => None
        end
  end.

(** [s.split(sep)] for a one-character [sep]: the first piece and the
    others. *)
Fixpoint split_char_go (sep : ascii) (s : string) : string * list string :=
  match s with
  | EmptyString => (EmptyString, [])
  | String c r =>
      let '(w, ws) := split_char_go sep r in
      if Ascii.eqb c sep then (EmptyString, w :: ws) else (String c w, ws)
  end.

Definition split_char (sep : ascii) (s : string) : list string :=
  let '(w, ws) := split_char_go sep s in w :: ws.

Definition question_mark : ascii := "?"%char.
Definition ampersand : ascii := "&"%char.

(** [ensure_async_driver] *)
Definition ensure_async_driver (v : string) : string :=
  let v :=
    if String.prefix "postgresql://" v
    then replace_first "postgresql://" "postgresql+asyncpg://" v
    else if String.prefix "postgres://" v
    then replace_first "postgres://" "postgresql+asyncpg://" v
    else v in
  match split_once question_mark v with
  | Some (base, params) =>
      let param_list := split_char ampersand params in
      let filtered_params :=
        filter (fun p => negb (String.prefix "sslmode=" p)
                         && negb (String.prefix "channel_binding=" p))
               param_list in
      let filtered_params := (filtered_params ++ ["ssl=require"])%list in
      base ++ "?" ++ join "&" filtered_params
  | None => v ++ "?ssl=require"
  end.

End ConfigValidators.

(* ================================================================== *)
(** * The chat completion endpoint: [create_chat_completion] of
      [src/api/v1/chat.py], with the schemas of [src/api/schemas.py] *)

Module ChatApi.

Import PyStr.
Local Open Scope string_scope.

Record ChatMessage := { role : LLM.Role; content : string }.

Record ChatCompletionRequest := {
  model : option string;
  messages : list ChatMessage;
  temperature : Q;
  max_tokens : option Z;
  stream : bool;
  force_model : option string;
  skip_quality_check : bool;
  include_analysis : bool
}.

Record ChatChoice := {
  index : Z;
  message : ChatMessage;
  finish_reason : string
}.

Record Usage := {
  prompt_tokens : Z;
  completion_tokens : Z;
  total_tokens : Z
}.

Record RoutingInfo := {
  complexity_score : Z;
  complexity_level : string;
  initial_model : string;
  final_model : string;
  was_escalated : bool;
  quality_score : option Z;
  routing_reasoning : string
}.

Record ChatCompletionResponse := {
  id : string;
  object : string;
  created : Z;
  response_model : string;
  choices : list ChatChoice;
  usage : Usage;
  routing_info : option RoutingInfo
}.

Record HTTPException := { status_code : Z; detail : string }.

(** [analysis.level.value] *)
Definition level_value (l : Analyzer.ComplexityLevel) : string :=
  match l with
  | Analyzer.LOW => "low"
  | Analyzer.MEDIUM => "medium"
  | Analyzer.HIGH => "high"
  end.

Definition is_user (m : LLM.Message) : bool :=
  match LLM.role m with LLM.user => true | _ => false end.

(** [next((m.content for m in reversed(messages) if m.role == "user"), "")] *)
Definition user_prompt (messages : list LLM.Message) : string :=
  match find is_user (rev messages) with
  | Some m => LLM.content m
  | None => EmptyString
  end.

(** The choice of the model: [force_model], else [model], else the routed
    one; an empty name counts as none. *)
Definition model_to_use (request : ChatCompletionRequest)
  (routing_decision : Router.RoutingDecision) : string :=
  match force_model request with
  | Some forced =>
      if negb (is_empty forced) then forced
      else
        match model request with
        | Some m =>
            if negb (is_empty m) then m
            else Router.selected_model routing_decision
        | None => Router.selected_model routing_decision
        end
  | None =>
      match model request with
      | Some m =>
          if negb (is_empty m) then m
          else Router.selected_model routing_decision
      | None => Router.selected_model routing_decision
      end
  end.

(** What the [try] block can raise: the [HTTPException] it raises itself,
    or what the escalation handler raised. *)
Inductive Caught (E : Type) : Type :=
| Http : HTTPException -> Caught E
| Handler : Escalation.Raised E -> Caught E.

Arguments Http {E} _.
Arguments Handler {E} _.

(** What one of the two branches of the endpoint leaves behind: the
    response, [quality_assessment], [escalation_chain], [final_model],
    [was_escalated] and [quality_score]. *)
Record Outcome := {
  o_response : LLM.ChatResponse;
  o_quality_assessment : option Quality.QualityAssessment;
  o_escalation_chain : option Escalation.EscalationChain;
  o_final_model : string;
  o_was_escalated : bool;
  o_quality_score : option Z
}.

Section Endpoint.

(** The world of the endpoint: the back-end, the clock, the source of
    identifiers and the repository that stores the metrics record (a
    failure of which the endpoint swallows). *)
Variable World : Type.
Variable LLMError : Type.
Variable generate :
  list LLM.Message -> string -> Q -> option Z -> World
  -> (LLMError + LLM.ChatResponse) * World.
Variable now : World -> Z * World.
Variable uuid4_hex : World -> string * World.
Variable create_request_log : MetricsLog.RequestLog -> World -> World.

(** [e.message] of a back-end error, and [str(e)] of anything else that
    reaches [except Exception]. *)
Variable error_message : LLMError -> string.
Variable str_exception : Caught LLMError -> string.

(** The [if routing_decision.requires_quality_check and not
    request.skip_quality_check] statement. *)
Definition respond (request : ChatCompletionRequest)
  (quality_checker : Quality.QualityChecker)
  (escalation_handler : Escalation.EscalationHandler)
  (messages : list LLM.Message) (analysis : Analyzer.ComplexityAnalysis)
  (routing_decision : Router.RoutingDecision) (model_to_use : string)
  (w : World) : (Escalation.Raised LLMError + Outcome) * World :=
  if Router.requires_quality_check routing_decision
     && negb (skip_quality_check request)
  then
    match
      Escalation.handle_with_escalation generate now uuid4_hex
        escalation_handler messages model_to_use
        (Analyzer.complexity_score analysis) (temperature request)
        (max_tokens request) w
    with
    | (inl e, w') => (inl e, w')
    | (inr (response, escalation_chain), w') =>
        (inr {| o_response := response;
                o_quality_assessment := None;
                o_escalation_chain := Some escalation_chain;
                o_final_model := Escalation.final_model escalation_chain;
                o_was_escalated :=
                  (1 <? Escalation.total_attempts escalation_chain)%Z;
                o_quality_score :=
                  match rev (Escalation.steps escalation_chain) with
                  | last_step :: _ =>
                      Some (Escalation.quality_score last_step)
                  | [] => None
                  end |},
         w')
    end
  else
    match
      Escalation.handle_direct generate messages model_to_use
        (temperature request) (max_tokens request) w
    with
    | (inl e, w') => (inl e, w')
    | (inr response, w') =>
        let quality_assessment :=
          Quality.check quality_checker (LLM.response_content response)
            (Analyzer.complexity_score analysis) in
        (inr {| o_response := response;
                o_quality_assessment := Some quality_assessment;
                o_escalation_chain := None;
                o_final_model := model_to_use;
                o_was_escalated := false;
                o_quality_score :=
                  Some (Quality.quality_score quality_assessment) |},
         w')
    end.

(** The body of the [try] block. *)
Definition try_block (request : ChatCompletionRequest)
  (routing_engine : Engine.RoutingEngine)
  (quality_checker : Quality.QualityChecker)
  (escalation_handler : Escalation.EscalationHandler) (w : World)
  : (Caught LLMError + ChatCompletionResponse) * World :=
  let messages :=
    map (fun m => {| LLM.role := role m; LLM.content := content m |})
        (messages request) in
  let user_prompt := user_prompt messages in
  if is_empty user_prompt then
    (inl (Http {| status_code := 400;
                  detail := "No user message found in request" |}),
     w)
  else
    let '(t, w) := now w in
    let '(analysis, routing_decision) :=
      Engine.route_with_analysis routing_engine user_prompt t in
    let model_to_use := model_to_use request routing_decision in
    match
      respond request quality_checker escalation_handler messages analysis
        routing_decision model_to_use w
    with
    | (inl e, w) => (inl (Handler e), w)
    | (inr o, w) =>
        (* metrics_service.log_request, any failure of it swallowed *)
        let '(hex, w) := uuid4_hex w in
        let '(t1, w) := now w in
        let '(t2, w) := now w in
        let w :=
          create_request_log
            (MetricsLog.log_request hex t1 t2 user_prompt analysis
               routing_decision (o_response o) (o_quality_assessment o)
               (o_escalation_chain o) None)
            w in
        let '(created, w) := now w in
        let response := o_response o in
        (inr {| id := LLM.id response;
                object := "chat.completion";
                created := created;
                response_model := o_final_model o;
                choices :=
                  [ {| index := 0;
                       message :=
                         {| role := LLM.assistant;
                            content := LLM.response_content response |};
                       finish_reason := LLM.finish_reason response |} ];
                usage :=
                  {| prompt_tokens := LLM.prompt_tokens (LLM.usage response);
                     completion_tokens :=
                       LLM.completion_tokens (LLM.usage response);
                     total_tokens :=
                       LLM.total_tokens (LLM.usage response) |};
                routing_info :=
                  if include_analysis request then
                    Some {| complexity_score :=
                              Analyzer.complexity_score analysis;
                            complexity_level :=
                              level_value (Analyzer.level analysis);
                            initial_model :=
                              Router.selected_model routing_decision;
                            final_model := o_final_model o;
                            was_escalated := o_was_escalated o;
                            quality_score := o_quality_score o;
                            routing_reasoning :=
                              Router.reasoning routing_decision |}
                  else None |},
         w)
    end.

(** [create_chat_completion]: the [try] block under its two [except]
    clauses, [except LLMError] and then [except Exception]. *)
Definition create_chat_completion (request : ChatCompletionRequest)
  (routing_engine : Engine.RoutingEngine)
  (quality_checker : Quality.QualityChecker)
  (escalation_handler : Escalation.EscalationHandler) (w : World)
  : (HTTPException + ChatCompletionResponse) * World :=
  match
    try_block request routing_engine quality_checker escalation_handler w
  with
  | (inr response, w') => (inr response, w')
  | (inl (Handler (Escalation.BackendError e)), w') =>
      (inl {| status_code := 502;
              detail := "LLM error: " ++ error_message e |},
       w')
  | (inl e, w') =>
      (inl {| status_code := 500;
              detail := "Internal error: " ++ str_exception e |},
       w')
  end.

End Endpoint.

End ChatApi.

(* ================================================================== *)
(** * Vocabulary of the further properties *)

Module Props.

Local Open Scope Q_scope.

(** Every severity lies between 0 and 1, as the schema of [QualityIssue]
    demands. *)
Definition severities_bounded (l : list Quality.QualityIssue) : Prop :=
  Forall (fun i => 0 <= Quality.severity i <= 1) l.

(** The order in which [check] runs the detectors. *)
Definition detector_order : list Quality.QualityIssueType :=
  [ Quality.UNCERTAINTY; Quality.INCOMPLETE; Quality.FAILED_REASONING;
    Quality.REFUSAL; Quality.TOO_SHORT; Quality.REPETITION ].

(** At most one issue, and of type [t]. *)
Definition at_most_one (t : Quality.QualityIssueType)
  (l : list Quality.QualityIssue) : Prop :=
  l = [] \/ exists i, l = [i] /\ Quality.issue_type i = t.

(** The types of the issues of a detector of the type [t]. *)
Definition present (t : Quality.QualityIssueType)
  (l : list Quality.QualityIssue) : list Quality.QualityIssueType :=
  match l with [] => [] | _ => [t] end.

(** Every weight lies between 0 and 1, as the schema of [DetectedSignal]
    demands. *)
Definition weights_bounded (l : list Analyzer.DetectedSignal) : Prop :=
  Forall (fun s => 0 <= Analyzer.weight s <= 1) l.

(** The step that the loop of [handle_with_escalation] records for the
    response [response] of [model] at the attempt [attempt], at time [t]. *)
Definition recorded (self : Escalation.EscalationHandler)
  (complexity_score : Z) (attempt : Z) (model : string)
  (response : LLM.ChatResponse) (t : Z) : Escalation.EscalationStep :=
  let quality :=
    Quality.check (Escalation.quality_checker self)
      (LLM.response_content response) complexity_score in
  {| Escalation.model_used := model;
     Escalation.response_preview :=
       Escalation.preview (LLM.response_content response);
     Escalation.quality_score := Quality.quality_score quality;
     Escalation.escalated :=
       Quality.should_escalate quality
       && (attempt <? Escalation.max_depth self)%Z
       && negb (String.eqb model
                  (Config.complex_model (Escalation.settings self)));
     Escalation.latency_ms := LLM.latency_ms response;
     Escalation.timestamp := t |}.

(** The locals after the iteration that recorded [step] for [response] and
    goes on, or ends, with [model]. *)
Definition after (l : Escalation.Locals) (step : Escalation.EscalationStep)
  (response : LLM.ChatResponse) (loop_prevented : bool) (model : string)
  : Escalation.Locals :=
  {| Escalation.l_steps := Escalation.l_steps l ++ [step];
     Escalation.l_responses :=
       Escalation.l_responses l ++ [LLM.response_content response];
     Escalation.l_models_used :=
       Escalation.l_models_used l ++ [Escalation.l_current_model l];
     Escalation.l_total_latency_ms :=
       Escalation.l_total_latency_ms l + LLM.latency_ms response;
     Escalation.l_current_model := model;
     Escalation.l_loop_prevented := loop_prevented;
     Escalation.l_final_response := Some response |}.

(** The type of the back-end capability. *)
Definition Backend (World LLMError : Type) : Type :=
  list LLM.Message -> string -> Q -> option Z -> World
  -> (LLMError + LLM.ChatResponse) * World.

Definition is_system (m : LLM.Message) : bool :=
  match LLM.role m with LLM.system => true | _ => false end.

(** A message of the conversation in the format of the API. *)
Definition to_content (m : LLM.Message) : Client.Content :=
  {| Client.content_role :=
       match LLM.role m with
       | LLM.assistant => "model"%string
       | _ => "user"%string
       end;
     Client.parts := [LLM.content m] |}.

(** No piece contains the separator. *)
Definition free_of (sep : ascii) (s : string) : Prop :=
  forall c, In c (list_ascii_of_string s) -> c <> sep.

End Props.

(* ================================================================== *)
(** * Vocabulary of the stated properties *)

Module Spec.

Import PyStr.
Local Open Scope string_scope.
Local Open Scope Q_scope.

(** A text that is empty or consists only of whitespace. *)
Fixpoint blank (s : string) : bool :=
  match s with
  | EmptyString => true
  | String c r => isspace c && blank r
  end.

(** The quality score as the specification words it:
    [max(0, 100 - sum of severity * 25)], truncated to an integer. *)
Definition spec_score (issues : list Quality.QualityIssue) : Z :=
  PyNum.int
    (PyNum.max 0
       (100 - PyNum.sum (map (fun i => Quality.severity i * 25) issues))).

(** The cost formula as the specification words it: flash rates exactly
    when the lower-cased model name contains "flash" and not "thinking". *)
Definition spec_cost (model : string) (prompt_tokens completion_tokens : Z)
  : Q :=
  let '(input_rate, output_rate) :=
    if contains "flash" (lower model)
       && negb (contains "thinking" (lower model))
    then (0.075, 0.30) else (1.25, 5.00) in
  inject_Z prompt_tokens * input_rate / 1000000
  + inject_Z completion_tokens * output_rate / 1000000.

(** [s] inserted into [p] before position [i]. *)
Definition insert_at (i : nat) (s p : string) : string :=
  take i p ++ s ++ drop i p.

(** A text on which one of the four pattern detectors finds a signal. *)
Definition detector_positive (s : string) : bool :=
  match (Analyzer.detect_reasoning_keywords s
         ++ Analyzer.detect_code_blocks s
         ++ Analyzer.detect_math_expressions s
         ++ Analyzer.detect_multipart_questions s)%list with
  | [] => false
  | _ :: _ => true
  end.

(** Every signal of [l] is found again in [l']: same type and value (as
    deduplication compares them), with at least its weight. *)
Definition covered (l l' : list Analyzer.DetectedSignal) : bool :=
  forallb
    (fun s =>
       existsb
         (fun s' =>
            Analyzer.key_eqb (Analyzer.key_of s') (Analyzer.key_of s)
            && Qle_bool (Analyzer.weight s) (Analyzer.weight s'))
         l')
    l.

(** Every signal of [d] has a signal of its key in [d'] that weighs at least
    as much. *)
Definition dominated (d d' : list Analyzer.DetectedSignal) : Prop :=
  forall s, In s d ->
            exists s', In s' d' /\ Analyzer.key_of s' = Analyzer.key_of s
                       /\ Analyzer.weight s <= Analyzer.weight s'.

(** No category weight of the analyzer is negative. *)
Definition nonneg_weights (w : Analyzer.SignalWeights) : Prop :=
  0 <= Analyzer.w_keyword w /\ 0 <= Analyzer.w_code w
  /\ 0 <= Analyzer.w_math w /\ 0 <= Analyzer.w_multipart w
  /\ 0 <= Analyzer.w_length w.

(** The number of elements of [l] that are at least [x]. *)
Definition count_ge (x : Q) (l : list Q) : nat :=
  List.length (filter (fun y => Qle_bool x y) l).

(** [l] is no longer than [l'] and lies below it position by position. *)
Inductive le_list : list Q -> list Q -> Prop :=
| le_list_nil (l' : list Q) : le_list [] l'
| le_list_cons (x y : Q) (l l' : list Q) :
    x <= y -> le_list l l' -> le_list (x :: l) (y :: l').

(** Sorted from the greatest to the least. *)
Inductive descending : list Q -> Prop :=
| descending_nil : descending []
| descending_cons (x : Q) (l : list Q) :
    Forall (fun y => y <= x) l -> descending l -> descending (x :: l).

(** No issue has a negative severity. *)
Definition severities_nonneg (l : list Quality.QualityIssue) : Prop :=
  Forall (fun i => 0 <= Quality.severity i) l.

(** The steps one run of the loop appends: every step but the last is
    marked escalated, the last one is not, and the last one used the model
    the loop ends with. *)
Inductive run_shape : list Escalation.EscalationStep -> string -> Prop :=
| shape_last (s : Escalation.EscalationStep) :
    Escalation.escalated s = false -> run_shape [s] (Escalation.model_used s)
| shape_more (s : Escalation.EscalationStep)
    (rest : list Escalation.EscalationStep) (m : string) :
    Escalation.escalated s = true -> run_shape rest m ->
    run_shape (s :: rest) m.

(** The dictionary against the signals processed so far. *)
Definition seen_ok (seen : list (Analyzer.Key * Analyzer.DetectedSignal))
  (processed : list Analyzer.DetectedSignal) : Prop :=
  (forall e, In e seen ->
             fst e = Analyzer.key_of (snd e) /\ In (snd e) processed)
  /\ NoDup (map fst seen)
  /\ (forall s, In s processed ->
        exists e, In e seen /\ fst e = Analyzer.key_of s
                  /\ Analyzer.weight s <= Analyzer.weight (snd e)).

End Spec.

(* ================================================================== *)
(** * A small back-end to run the controller on *)

Module Demo.

Local Open Scope string_scope.
Local Open Scope Q_scope.

(** The world is the number of calls made so far. *)
Definition World : Type := nat.

Definition good_answer : string :=
  "Paris is the capital of France. It has been the seat of government "
  ++ "since the tenth century, and it is the largest city of the country "
  ++ "by population, with about two million inhabitants in the city proper.".

(** The fast model declines; any other model answers well. *)
Definition generate (messages : list LLM.Message) (model : string)
  (temperature : Q) (max_tokens : option Z) (w : World)
  : (unit + LLM.ChatResponse) * World :=
  let content :=
    if String.eqb model (Config.fast_model Config.defaults)
    then "I'm not sure. I cannot help with that..." else good_answer in
  (inr {| LLM.id := "chatcmpl-" ++ PyStr.of_Z (Z.of_nat w);
          LLM.response_content := content;
          LLM.model := model;
          LLM.usage := {| LLM.prompt_tokens := 10;
                          LLM.completion_tokens := 8;
                          LLM.total_tokens := 18 |};
          LLM.finish_reason := "stop";
          LLM.created_at := Z.of_nat w;
          LLM.latency_ms := 450.5 |},
   S w).

Definition now (w : World) : Z * World := (Z.of_nat w, S w).

Definition uuid4_hex (w : World) : string * World :=
  ("0f8fad5bd9cb469fa16570867728950e", S w).

Definition handler : Escalation.EscalationHandler :=
  Escalation.new_handler Config.defaults
    (Quality.new_checker (Config.quality_threshold Config.defaults) 50 None).

Definition messages : list LLM.Message :=
  [ {| LLM.role := LLM.user;
       LLM.content := "What is the capital of France?" |} ].

(** One request that starts on the fast model. *)
Definition run
  : (Escalation.Raised unit + LLM.ChatResponse * Escalation.EscalationChain)
    * World :=
  Escalation.handle_with_escalation generate now uuid4_hex handler messages
    (Config.fast_model Config.defaults) 55 0.7 None 0%nat.

(** A response that used a million tokens each way. *)
Definition million_tokens_response : LLM.ChatResponse :=
  {| LLM.id := "chatcmpl-1";
     LLM.response_content := "ok";
     LLM.model := "gemini-2.0-flash-thinking-exp";
     LLM.usage := {| LLM.prompt_tokens := 1000000;
                     LLM.completion_tokens := 1000000;
                     LLM.total_tokens := 2000000 |};
     LLM.finish_reason := "stop";
     LLM.created_at := 0;
     LLM.latency_ms := 450 |}.

End Demo.

(* ================================================================== *)
(** * Properties of the routing strategy *)

Section ThresholdRouting.

Import Router.
Local Open Scope Z_scope.

Variable self : ThresholdRoutingStrategy.
Variable analysis : Analyzer.ComplexityAnalysis.
Variables fast_model complex_model : string.
Variable now : Z.

Let score := Analyzer.complexity_score analysis.
Let d := decide self analysis fast_model complex_model now.

Lemma decide_high :
  high_threshold self <= score ->
  selected_model d = complex_model /\ tier d = COMPLEX
  /\ requires_quality_check d = false.
Proof.
  intros H. subst d score. unfold decide.
  destruct (Z.geb_spec (Analyzer.complexity_score analysis)
              (high_threshold self)) as [_ | Hlt]; [ | lia ].
  cbn. auto.
Qed.

Lemma decide_low :
  score < high_threshold self -> score < low_threshold self ->
  selected_model d = fast_model /\ tier d = FAST
  /\ requires_quality_check d = false.
Proof.
  intros Hh Hl. subst d score. unfold decide.
  destruct (Z.geb_spec (Analyzer.complexity_score analysis)
              (high_threshold self)) as [Hge | _]; [ lia | ].
  destruct (Z.ltb_spec (Analyzer.complexity_score analysis)
              (low_threshold self)) as [_ | Hge]; [ | lia ].
  cbn. auto.
Qed.

Lemma decide_between :
  low_threshold self <= score -> score < high_threshold self ->
  selected_model d = fast_model /\ tier d = FAST
  /\ requires_quality_check d = true.
Proof.
  intros Hl Hh. subst d score. unfold decide.
  destruct (Z.geb_spec (Analyzer.complexity_score analysis)
              (high_threshold self)) as [Hge | _]; [ lia | ].
  destruct (Z.ltb_spec (Analyzer.complexity_score analysis)
              (low_threshold self)) as [Hlt | _]; [ lia | ].
  cbn. auto.
Qed.

End ThresholdRouting.

(** C6. The Threshold strategy with parameters [low] and [high] decides by
    the cases of the claim, read in their order: a score of at least [high]
    takes the complex model without quality check; below that, a score under
    [low] takes the fast model without quality check, and any other score the
    fast model with quality check.  A score equal to [high] goes complex;
    for [low < high] a score equal to [low] goes fast with check.  When
    [low <= high] the second case needs no reference to [high]. *)
Theorem threshold_strategy_cases :
  forall (self : Router.ThresholdRoutingStrategy)
         (analysis : Analyzer.ComplexityAnalysis)
         (fast_model complex_model : string) (now : Z),
    let score := Analyzer.complexity_score analysis in
    let low := Router.low_threshold self in
    let high := Router.high_threshold self in
    let d := Router.decide self analysis fast_model complex_model now in
    ((high <= score)%Z ->
       Router.selected_model d = complex_model
       /\ Router.requires_quality_check d = false)
    /\ ((score < high)%Z -> (score < low)%Z ->
          Router.selected_model d = fast_model
          /\ Router.requires_quality_check d = false)
    /\ ((score < high)%Z -> (low <= score)%Z ->
          Router.selected_model d = fast_model
          /\ Router.requires_quality_check d = true)
    /\ ((low <= high)%Z -> (score < low)%Z ->
          Router.selected_model d = fast_model
          /\ Router.requires_quality_check d = false)
    /\ (score = high ->
          Router.selected_model d = complex_model
          /\ Router.requires_quality_check d = false)
    /\ ((low < high)%Z -> score = low ->
          Router.selected_model d = fast_model
          /\ Router.requires_quality_check d = true).
Proof.
  intros self analysis fast_model complex_model now score low high d.
  pose proof (@decide_high self analysis fast_model complex_model now) as Hh.
  pose proof (@decide_low self analysis fast_model complex_model now) as Hl.
  pose proof (@decide_between self analysis fast_model complex_model now)
    as Hb.
  fold score low high d in Hh, Hl, Hb.
  repeat split; intros;
    first [ apply Hh; subst score low high; lia
          | apply Hl; subst score low high; lia
          | apply Hb; subst score low high; lia ].
Qed.

(* ================================================================== *)
(** * Facts about the number operations *)

Section PyNumFacts.

Local Open Scope Q_scope.

Lemma ltb_true (x y : Q) : PyNum.ltb x y = true <-> x < y.
Proof.
  unfold PyNum.ltb. rewrite negb_true_iff.
  split.
  - intros H. apply Qnot_le_lt. intros Hle.
    apply Qle_bool_iff in Hle. congruence.
  - intros H. destruct (Qle_bool y x) eqn:E; [ | reflexivity ].
    apply Qle_bool_iff in E. exfalso. exact (Qlt_not_le _ _ H E).
Qed.

Lemma ltb_false (x y : Q) : PyNum.ltb x y = false <-> y <= x.
Proof.
  unfold PyNum.ltb. rewrite negb_false_iff. apply Qle_bool_iff.
Qed.

Lemma min_le_compat (c x y : Q) :
  x <= y -> PyNum.min c x <= PyNum.min c y.
Proof.
  intros H. unfold PyNum.min.
  destruct (PyNum.ltb x c) eqn:Ex, (PyNum.ltb y c) eqn:Ey.
  - exact H.
  - apply ltb_true in Ex. apply Qlt_le_weak. exact Ex.
  - apply ltb_false in Ex. apply ltb_true in Ey.
    apply Qle_trans with x; [ exact Ex | exact H ].
  - apply Qle_refl.
Qed.

Lemma plus_nonneg (a b : Q) : 0 <= a -> 0 <= b -> 0 <= a + b.
Proof.
  intros Ha Hb. rewrite <- (Qplus_0_r 0). now apply Qplus_le_compat.
Qed.

(** Truncation towards zero is monotone. *)
Lemma int_le (x y : Q) : x <= y -> (PyNum.int x <= PyNum.int y)%Z.
Proof.
  unfold Qle, PyNum.int. destruct x as [nx dx], y as [ny dy]. cbn.
  intros H.
  rewrite <- (Z.quot_mul_cancel_r nx (Z.pos dx) (Z.pos dy)) by discriminate.
  rewrite <- (Z.quot_mul_cancel_r ny (Z.pos dy) (Z.pos dx)) by discriminate.
  rewrite (Z.mul_comm (Z.pos dy) (Z.pos dx)).
  apply Z.quot_le_mono; lia.
Qed.

Lemma int_nonneg (x : Q) : 0 <= x -> (0 <= PyNum.int x)%Z.
Proof. intros H. apply int_le in H. exact H. Qed.

(** Truncation commutes with clamping at zero. *)
Lemma int_max_zero (x : Q) : PyNum.int (PyNum.max 0 x) = Z.max 0 (PyNum.int x).
Proof.
  unfold PyNum.max, PyNum.ltb, Qle_bool, PyNum.int.
  destruct x as [n d]. cbn [Qnum Qden].
  rewrite Z.mul_1_r. cbn [Z.mul].
  destruct (Z.leb_spec n 0) as [Hn | Hn]; cbn [negb Qnum Qden].
  - rewrite Z.quot_0_l by discriminate.
    assert (H : (Z.quot n (Z.pos d) <= 0)%Z).
    { replace n with (- (- n))%Z by lia.
      rewrite Z.quot_opp_l by discriminate.
      assert (0 <= Z.quot (- n) (Z.pos d))%Z by (apply Z.quot_pos; lia).
      lia. }
    lia.
  - assert (0 <= Z.quot n (Z.pos d))%Z by (apply Z.quot_pos; lia).
    lia.
Qed.

Lemma min_nonneg (a b : Q) : 0 <= a -> 0 <= b -> 0 <= PyNum.min a b.
Proof. intros Ha Hb. unfold PyNum.min. now destruct (PyNum.ltb b a). Qed.

Lemma max_lower (a b : Q) : a <= PyNum.max a b.
Proof.
  unfold PyNum.max. destruct (PyNum.ltb a b) eqn:E; [ | apply Qle_refl ].
  unfold PyNum.ltb in E. apply negb_true_iff in E.
  destruct (Qlt_le_dec a b) as [H | H]; [ now apply Qlt_le_weak | ].
  apply Qle_bool_iff in H. congruence.
Qed.

End PyNumFacts.

(* ================================================================== *)
(** * Properties of the quality checker *)

Section BlankText.

Import PyStr.

Lemma lstrip_blank (s : string) : Spec.blank s = true -> lstrip s = EmptyString.
Proof.
  induction s as [ | c r IH ]; cbn; [ reflexivity | ].
  intros H. apply andb_prop in H as [Hc Hr]. rewrite Hc. auto.
Qed.

Lemma strip_blank (s : string) : Spec.blank s = true -> strip s = EmptyString.
Proof.
  intros H. unfold strip. rewrite (lstrip_blank s H). reflexivity.
Qed.

Lemma lstrip_not_blank (s : string) :
  Spec.blank s = false ->
  exists c r, lstrip s = String c r /\ isspace c = false.
Proof.
  induction s as [ | c r IH ]; cbn; [ discriminate | ].
  destruct (isspace c) eqn:Hc; cbn.
  - exact IH.
  - intros _. exists c, r. rewrite Hc. auto.
Qed.

Lemma strip_not_blank (s : string) :
  Spec.blank s = false -> is_empty (strip s) = false.
Proof.
  intros H. destruct (lstrip_not_blank s H) as (c & r & Hl & Hc).
  unfold strip. rewrite Hl. cbn. rewrite Hc, andb_false_r. reflexivity.
Qed.

Lemma not_blank_not_empty (s : string) :
  Spec.blank s = false -> is_empty s = false.
Proof. destruct s; [ discriminate | reflexivity ]. Qed.

End BlankText.

Section TruncatedScore.

Local Open Scope Q_scope.


Lemma calculate_score_formula (issues : list Quality.QualityIssue) :
  Quality._calculate_score issues = Spec.spec_score issues.
Proof.
  unfold Spec.spec_score. rewrite int_max_zero.
  destruct issues as [ | i r ]; [ reflexivity | ].
  reflexivity.
Qed.

End TruncatedScore.

(** C3 (as amended). For every response text with at least one
    non-whitespace character and every complexity, [check] returns an
    assessment whose score is [max(0, 100 - sum of severity * 25)] truncated
    to an integer, whose [should_escalate] is [score < quality_threshold],
    and whose score is 100 when no issue was found. *)
Theorem check_score_formula :
  forall (self : Quality.QualityChecker) (r : string) (c : Z),
    Spec.blank r = false ->
    let a := Quality.check self r c in
    Quality.quality_score a = Spec.spec_score (Quality.issues a)
    /\ Quality.should_escalate a
       = (Quality.quality_score a <? Quality.quality_threshold self)%Z
    /\ (Quality.issues a = [] -> Quality.quality_score a = 100%Z).
Proof.
  intros self r c Hr a. subst a. unfold Quality.check.
  rewrite (not_blank_not_empty r Hr), (strip_not_blank r Hr).
  cbn [orb Quality.quality_score Quality.issues Quality.should_escalate].
  split; [ apply calculate_score_formula | ].
  split; [ reflexivity | ].
  intros ->. reflexivity.
Qed.

(** The amended C3 at the text [ok], complexity 0, threshold 60. *)
Lemma check_score_formula_witness :
  let a := Quality.check (Quality.new_checker 60 50 None) "ok" 0 in
  Spec.blank "ok" = false
  /\ Quality.quality_score a = Spec.spec_score (Quality.issues a)
  /\ Quality.should_escalate a = (Quality.quality_score a <? 60)%Z
  /\ (Quality.issues a = [] -> Quality.quality_score a = 100%Z).
Proof.
  split; [ reflexivity | ].
  apply (check_score_formula (Quality.new_checker 60 50 None) "ok" 0).
  reflexivity.
Defined.

(** C3 as stated fails: the one-blank text is not empty, yet [check] takes
    the empty-response shortcut and returns score 0 with one issue of
    severity 1, for which the formula gives 75. *)
Lemma check_score_formula_fails_on_blank_text :
  ~ (forall (self : Quality.QualityChecker) (r : string) (c : Z),
       r <> EmptyString ->
       let a := Quality.check self r c in
       Quality.quality_score a = Spec.spec_score (Quality.issues a)
       /\ Quality.should_escalate a
          = (Quality.quality_score a <? Quality.quality_threshold self)%Z
       /\ (Quality.issues a = [] -> Quality.quality_score a = 100%Z)).
Proof.
  intros H.
  specialize (H (Quality.new_checker 60 50 None) " "%string 50%Z).
  destruct H as [H _]; [ discriminate | ].
  vm_compute in H. discriminate.
Qed.

(** C10. [check] attaches an escalation reason exactly when it recommends
    escalation: on the empty-response shortcut both hold, and otherwise the
    reason is built in both branches of [should_escalate] being true (with
    and without issues) and left [None] when it is false. *)
Theorem reason_iff_should_escalate :
  forall (self : Quality.QualityChecker) (r : string) (c : Z),
    let a := Quality.check self r c in
    Quality.escalation_reason a <> None <-> Quality.should_escalate a = true.
Proof.
  intros self r c a. subst a. unfold Quality.check.
  destruct (PyStr.is_empty r || PyStr.is_empty (PyStr.strip r));
    cbn [Quality.escalation_reason Quality.should_escalate].
  - split; [ reflexivity | discriminate ].
  - destruct (Quality._calculate_score (Quality.run_detectors self r c)
              <? Quality.quality_threshold self)%Z.
    + destruct (Quality.run_detectors self r c);
        (split; [ reflexivity | discriminate ]).
    + split; [ intros H; now elim H | discriminate ].
Qed.

(** C5 (as amended). The response
    [I'm not sure, but maybe it's 42. Possibly. Hard to say.] checked at
    complexity 50 with the default threshold 60 has exactly one uncertainty
    issue (three phrases, severity 0.6) and one too-short issue (55 of 150
    characters), a quality score of 69, and is not escalated. *)
Theorem check_unsure_response :
  let a :=
    Quality.check (Quality.new_checker 60 50 None)
      "I'm not sure, but maybe it's 42. Possibly. Hard to say." 50 in
  map Quality.issue_type (Quality.issues a)
  = [Quality.UNCERTAINTY; Quality.TOO_SHORT]
  /\ map Quality.description (Quality.issues a)
     = ["Found 3 uncertainty phrase(s)"%string;
        "Response is only 55 characters (expected >150)"%string]
  /\ Quality.quality_score a = 69%Z
  /\ Quality.should_escalate a = false.
Proof. vm_compute. repeat split. Qed.

(** C5 as stated fails: at that input there is an uncertainty issue, but
    [should_escalate] is false (score 69 against threshold 60). *)
Lemma check_unsure_response_not_escalated :
  ~ (let a :=
       Quality.check (Quality.new_checker 60 50 None)
         "I'm not sure, but maybe it's 42. Possibly. Hard to say." 50 in
     (exists i, In i (Quality.issues a)
                /\ Quality.issue_type i = Quality.UNCERTAINTY)
     /\ Quality.should_escalate a = true).
Proof.
  intros [_ H]. vm_compute in H. discriminate.
Qed.

(* ================================================================== *)
(** * Properties of the cost accounting *)

Section Cost.

Local Open Scope Q_scope.
Local Open Scope string_scope.


(** Where the two guards on the model name agree, the cost of the metrics
    record is the cost of the specification. *)
Lemma metrics_cost_when_guards_agree (response : LLM.ChatResponse)
  (model : string) :
  PyStr.contains "pro" (PyStr.lower model)
  = PyStr.contains "thinking" (PyStr.lower model) ->
  Metrics._calculate_cost response model
  == Spec.spec_cost model (LLM.prompt_tokens (LLM.usage response))
       (LLM.completion_tokens (LLM.usage response)).
Proof.
  intros H. unfold Metrics._calculate_cost, Spec.spec_cost. rewrite H.
  destruct (PyStr.contains "flash" (PyStr.lower model)
            && negb (PyStr.contains "thinking" (PyStr.lower model)));
    unfold PyNum.div; field.
Qed.

(** C4 at the default complex model [gemini-2.0-flash-thinking-exp] and a
    million tokens each way: [MetricsService._calculate_cost] charges the
    flash rates (0.075 + 0.30 = 0.375), since the name contains "flash" and
    not "pro"; the formula of the claim and [GeminiClient.calculate_cost]
    with the default rates, which test for "thinking", charge 1.25 + 5.00
    = 6.25. *)
Theorem metrics_cost_of_flash_thinking_model :
  Metrics._calculate_cost Demo.million_tokens_response
    "gemini-2.0-flash-thinking-exp" == 0.375
  /\ Spec.spec_cost "gemini-2.0-flash-thinking-exp" 1000000 1000000 == 6.25
  /\ LLM.calculate_cost Config.defaults "gemini-2.0-flash-thinking-exp"
       1000000 1000000 == 6.25
  /\ Metrics.initial_tier "gemini-2.0-flash-thinking-exp" = Router.COMPLEX.
Proof. repeat split; vm_compute; reflexivity. Qed.

End Cost.

(* ================================================================== *)
(** * Properties of the complexity analyzer *)

(** C8. For a prompt that is empty or consists only of whitespace, [analyze]
    returns score 0, confidence 1, level low, no signals and the reasoning
    [Empty prompt]; the result is the same whatever the five detector
    functions are, so none of them is consulted. *)
Theorem analyze_blank_prompt :
  forall (d : Analyzer.Detectors) (self : Analyzer.PromptAnalyzer)
         (prompt : string),
    Spec.blank prompt = true ->
    let a := Analyzer.analyze_with d self prompt in
    Analyzer.complexity_score a = 0%Z
    /\ Analyzer.confidence a == 1
    /\ Analyzer.level a = Analyzer.LOW
    /\ Analyzer.detected_signals a = []
    /\ Analyzer.reasoning a = "Empty prompt"%string
    /\ Analyzer.analyze self prompt = a.
Proof.
  intros d self prompt H a. subst a.
  unfold Analyzer.analyze, Analyzer.analyze_with.
  rewrite (strip_blank prompt H), orb_true_r.
  cbn. repeat split; reflexivity.
Qed.

(** C8 at a prompt of a blank, a tab and a line feed. *)
Lemma analyze_blank_prompt_witness :
  let prompt := String " " (String (PyStr.chr 9) (String (PyStr.chr 10) "")) in
  Spec.blank prompt = true
  /\ Analyzer.complexity_score
       (Analyzer.analyze Analyzer.default_analyzer prompt) = 0%Z.
Proof.
  split; [ reflexivity | ].
  apply (analyze_blank_prompt Analyzer.signals_module
           Analyzer.default_analyzer
           (String " " (String (PyStr.chr 9) (String (PyStr.chr 10) "")))).
  reflexivity.
Defined.

(* ================================================================== *)
(** * Properties of the escalation controller *)

Section EscalationLoop.

Import Escalation Spec.
Local Open Scope Q_scope.

Variable World : Type.
Variable LLMError : Type.
Variable generate :
  list LLM.Message -> string -> Q -> option Z -> World
  -> (LLMError + LLM.ChatResponse) * World.
Variable now : World -> Z * World.
Variable uuid4_hex : World -> string * World.

Variable self : EscalationHandler.
Variable messages : list LLM.Message.
Variable complexity_score : Z.
Variable temperature : Q.
Variable max_tokens : option Z.


Lemma run_shape_last (new : list EscalationStep) (m : string) :
  run_shape new m ->
  exists front s, new = front ++ [s] /\ escalated s = false
                  /\ model_used s = m
                  /\ Forall (fun x => escalated x = true) front.
Proof.
  induction 1 as [ s Hs | s rest m Hs _ (front & t & -> & Ht & Hm & Hf) ].
  - exists [], s. auto.
  - exists (s :: front), t. auto.
Qed.

Lemma new_step_inv (s t : EscalationStep) :
  @new_step LLMError s = inr t -> t = s.
Proof.
  unfold new_step.
  destruct (negb _); [ discriminate | ].
  destruct (PyNum.ltb _ _); [ discriminate | ].
  congruence.
Qed.

(** What the loop has done when it ends without raising, run over attempts
    the last of which is at least [max_depth] (as in [range(max_depth + 1)]). *)
Lemma attempts_loop_spec (attempts : list Z) :
  forall (l l' : Locals) (w w' : World),
    attempts_loop generate now self messages complexity_score temperature
      max_tokens attempts l w = (inr l', w') ->
    attempts <> [] ->
    (max_depth self <= List.last attempts 0)%Z ->
    exists new,
      l_steps l' = l_steps l ++ new
      /\ (List.length new <= List.length attempts)%nat
      /\ run_shape new (l_current_model l')
      /\ l_total_latency_ms l'
         = fold_left Qplus (map latency_ms new) (l_total_latency_ms l)
      /\ l_final_response l' <> None.
Proof.
  induction attempts as [ | attempt more IH ]; intros l l' w w' Hrun Hne Hlast;
    [ congruence | clear Hne ].
  cbn [attempts_loop] in Hrun. unfold bind at 1 in Hrun.
  unfold call_generate in Hrun.
  destruct (generate messages (l_current_model l) temperature max_tokens w)
    as [[e | response] w1]; [ discriminate | ].
  unfold bind at 1 in Hrun. unfold call_now at 1 in Hrun.
  destruct (now w1) as [t w2].
  unfold bind at 1 in Hrun. unfold checked at 1 in Hrun.
  set (quality := Quality.check (quality_checker self)
                    (LLM.response_content response) complexity_score) in *.
  match type of Hrun with
  | context [new_step ?s] =>
      destruct (@new_step LLMError s) as [e | step] eqn:Hstep;
        [ discriminate | apply new_step_inv in Hstep; subst step ]
  end.
  destruct (Quality.should_escalate quality) eqn:Hq; cbn [negb andb] in Hrun.
  - destruct (Z.geb_spec attempt (max_depth self)) as [Hge | Hlt].
    + (* maximum depth reached *)
      unfold ret in Hrun. injection Hrun as <- <-.
      eexists [_]. cbn. repeat split; try lia; try discriminate.
      apply shape_last. cbn.
      destruct (Z.ltb_spec attempt (max_depth self)); [ lia | reflexivity ].
    + destruct (String.eqb (l_current_model l)
                  (Config.complex_model (settings self))) eqn:Hm.
      * (* already at the complex model *)
        unfold ret in Hrun. injection Hrun as <- <-.
        eexists [_]. cbn. repeat split; try lia; try discriminate.
        apply shape_last. cbn. apply andb_false_r.
      * (* escalate and go on *)
        destruct more as [ | a more' ].
        { cbn in Hlast. lia. }
        apply IH in Hrun; [ | discriminate | exact Hlast ].
        destruct Hrun as (new & Hs & Hlen & Hshape & Hlat & Hfin).
        cbn [l_steps l_total_latency_ms] in Hs, Hlat.
        eexists (_ :: new). rewrite Hs, <- app_assoc. cbn [app].
        repeat split; [ cbn in *; lia | | exact Hlat | exact Hfin ].
        apply shape_more; [ | exact Hshape ]. cbn.
        destruct (Z.ltb_spec attempt (max_depth self)); [ | lia ].
        reflexivity.
  - (* quality is acceptable *)
    unfold ret in Hrun. injection Hrun as <- <-.
    eexists [_]. cbn. repeat split; try lia; try discriminate.
    apply shape_last. reflexivity.
Qed.

End EscalationLoop.

Section EscalationChainProperties.

Import Escalation Spec.
Local Open Scope Q_scope.

Variable World : Type.
Variable LLMError : Type.
Variable generate :
  list LLM.Message -> string -> Q -> option Z -> World
  -> (LLMError + LLM.ChatResponse) * World.
Variable now : World -> Z * World.
Variable uuid4_hex : World -> string * World.

Lemma range_length (n : Z) : List.length (range n) = Z.to_nat n.
Proof. unfold range. now rewrite length_map, length_seq. Qed.

Lemma range_last (n : Z) : (0 < n)%Z -> List.last (range n) 0%Z = (n - 1)%Z.
Proof.
  intros Hn. unfold range.
  replace (Z.to_nat n) with (S (Z.to_nat (n - 1))) by lia.
  rewrite seq_S, map_app. cbn [map]. rewrite last_last. lia.
Qed.

Lemma range_nil (n : Z) : range n = [] -> (n <= 0)%Z.
Proof.
  intros H. apply (f_equal (@List.length Z)) in H.
  rewrite range_length in H. cbn in H. lia.
Qed.

Lemma new_chain_inv (c d : EscalationChain) :
  @new_chain LLMError c = inr d -> d = c /\ (1 <= total_attempts c)%Z.
Proof.
  unfold new_chain.
  destruct (Z.ltb_spec (total_attempts c) 1); [ discriminate | ].
  destruct (PyNum.ltb _ _); [ discriminate | ].
  intros [= <-]. split; [ reflexivity | assumption ].
Qed.

Lemma fold_left_Qplus_init (l : list Q) (a b : Q) :
  a == b -> fold_left Qplus l a == fold_left Qplus l b.
Proof.
  revert a b. induction l as [ | x l IH ]; intros a b H; cbn; [ exact H | ].
  apply IH. now rewrite H.
Qed.

(** What a chain looks like when [handle_with_escalation] returns one. *)
Lemma handle_with_escalation_spec
  (self : EscalationHandler) (messages : list LLM.Message)
  (initial_model : string) (complexity_score : Z) (temperature : Q)
  (max_tokens : option Z) (w w' : World) (response : LLM.ChatResponse)
  (chain : EscalationChain) :
  handle_with_escalation generate now uuid4_hex self messages initial_model
    complexity_score temperature max_tokens w = (inr (response, chain), w') ->
  (0 <= max_depth self)%Z
  /\ (1 <= List.length (steps chain) <= Z.to_nat (max_depth self + 1))%nat
  /\ total_attempts chain = Z.of_nat (List.length (steps chain))
  /\ run_shape (steps chain) (final_model chain)
  /\ total_latency_ms chain
     = fold_left Qplus (map latency_ms (steps chain)) 0.0.
Proof.
  unfold handle_with_escalation. intros Hrun.
  unfold bind at 1 in Hrun. unfold call_uuid4_hex in Hrun.
  destruct (uuid4_hex w) as [hex w1].
  unfold bind at 1 in Hrun.
  match type of Hrun with
  | context [attempts_loop _ _ _ _ _ _ _ ?a ?l ?w] =>
      destruct (attempts_loop generate now self messages complexity_score
                  temperature max_tokens a l w)
        as [[e | l'] w2] eqn:Hloop; [ discriminate | ]
  end.
  unfold bind at 1 in Hrun. unfold checked in Hrun.
  match type of Hrun with
  | context [new_chain ?c] =>
      destruct (@new_chain LLMError c) as [e | chain'] eqn:Hchain;
        [ discriminate | apply new_chain_inv in Hchain as [-> Hone] ]
  end.
  destruct (l_final_response l') as [final | ]; [ | discriminate ].
  unfold ret in Hrun. injection Hrun as _ <- _.
  cbn [total_attempts steps final_model total_latency_ms] in *.
  destruct (range (max_depth self + 1)) as [ | a more ] eqn:Hrange.
  - (* no attempt at all: the chain would have been refused *)
    cbn in Hloop. unfold ret in Hloop. injection Hloop as <- _.
    cbn in Hone. lia.
  - assert (Hpos : (0 < max_depth self + 1)%Z).
    { destruct (Z.ltb_spec 0 (max_depth self + 1)) as [ | Hle ];
        [ assumption | ].
      pose proof (range_length (max_depth self + 1)) as Hlen.
      rewrite Hrange in Hlen. cbn in Hlen. lia. }
    apply attempts_loop_spec in Hloop;
      [ | discriminate | rewrite <- Hrange, range_last by exact Hpos; lia ].
    destruct Hloop as (new & Hs & Hlen & Hshape & Hlat & _).
    cbn [l_steps l_total_latency_ms app] in Hs, Hlat.
    rewrite <- Hrange, range_length in Hlen.
    rewrite Hs. repeat split; try assumption; try lia.
    destruct Hshape; cbn; lia.
Qed.

End EscalationChainProperties.

(** C1. When [handle_with_escalation] returns normally, the chain has at
    least one step and at most [max_depth + 1] steps, and [total_attempts]
    is the number of steps. *)
Theorem escalation_chain_length :
  forall (World LLMError : Type)
         (generate : list LLM.Message -> string -> Q -> option Z -> World
                     -> (LLMError + LLM.ChatResponse) * World)
         (now : World -> Z * World) (uuid4_hex : World -> string * World)
         (self : Escalation.EscalationHandler) (messages : list LLM.Message)
         (initial_model : string) (complexity_score : Z) (temperature : Q)
         (max_tokens : option Z) (w w' : World)
         (response : LLM.ChatResponse) (chain : Escalation.EscalationChain),
    Escalation.handle_with_escalation generate now uuid4_hex self messages
      initial_model complexity_score temperature max_tokens w
    = (inr (response, chain), w') ->
    (1 <= Z.of_nat (List.length (Escalation.steps chain))
     <= Escalation.max_depth self + 1)%Z
    /\ Escalation.total_attempts chain
       = Z.of_nat (List.length (Escalation.steps chain)).
Proof.
  intros World LLMError generate now uuid4_hex self messages initial_model
    complexity_score temperature max_tokens w w' response chain Hrun.
  apply handle_with_escalation_spec in Hrun
    as (Hdepth & Hlen & Htotal & _ & _).
  split; [ lia | exact Htotal ].
Qed.

(** C1 on the demonstration back-end: the run returns a chain, whose two
    steps lie within the depth 2 of the default settings. *)
Lemma escalation_chain_length_witness :
  exists response chain w',
    Demo.run = (inr (response, chain), w')
    /\ (1 <= Z.of_nat (List.length (Escalation.steps chain)) <= 3)%Z
    /\ Escalation.total_attempts chain = 2%Z.
Proof.
  destruct Demo.run as [[e | [response chain]] w'] eqn:Hrun;
    [ vm_compute in Hrun; discriminate | ].
  exists response, chain, w'. split; [ reflexivity | ].
  pose proof (escalation_chain_length _ _ _ _ _ _ _ _ _ _ Hrun) as [Hlen Htot].
  split; [ exact Hlen | ].
  vm_compute in Hrun. injection Hrun as _ <- _. reflexivity.
Defined.

(** C2. In a returned chain, [final_model] is the model of the last step
    and [total_latency_ms] is the sum of the latencies of the steps. *)
Theorem escalation_chain_consistent :
  forall (World LLMError : Type)
         (generate : list LLM.Message -> string -> Q -> option Z -> World
                     -> (LLMError + LLM.ChatResponse) * World)
         (now : World -> Z * World) (uuid4_hex : World -> string * World)
         (self : Escalation.EscalationHandler) (messages : list LLM.Message)
         (initial_model : string) (complexity_score : Z) (temperature : Q)
         (max_tokens : option Z) (w w' : World)
         (response : LLM.ChatResponse) (chain : Escalation.EscalationChain),
    Escalation.handle_with_escalation generate now uuid4_hex self messages
      initial_model complexity_score temperature max_tokens w
    = (inr (response, chain), w') ->
    (exists front last_step,
        Escalation.steps chain = front ++ [last_step]
        /\ Escalation.final_model chain = Escalation.model_used last_step)
    /\ Escalation.total_latency_ms chain
       == PyNum.sum (map Escalation.latency_ms (Escalation.steps chain)).
Proof.
  intros World LLMError generate now uuid4_hex self messages initial_model
    complexity_score temperature max_tokens w w' response chain Hrun.
  apply handle_with_escalation_spec in Hrun as (_ & _ & _ & Hshape & Hlat).
  split.
  - apply run_shape_last in Hshape as (front & s & Hs & _ & Hm & _).
    exists front, s. split; [ exact Hs | now symmetry ].
  - rewrite Hlat. unfold PyNum.sum. apply fold_left_Qplus_init. reflexivity.
Qed.

(** C2 on the demonstration back-end. *)
Lemma escalation_chain_consistent_witness :
  exists response chain w',
    Demo.run = (inr (response, chain), w')
    /\ Escalation.total_latency_ms chain
       == PyNum.sum (map Escalation.latency_ms (Escalation.steps chain)).
Proof.
  destruct Demo.run as [[e | [response chain]] w'] eqn:Hrun;
    [ vm_compute in Hrun; discriminate | ].
  exists response, chain, w'. split; [ reflexivity | ].
  apply (escalation_chain_consistent _ _ _ _ _ _ _ _ _ _ Hrun).
Defined.

(** C9. In a returned chain the last step is not marked escalated, and a
    step that is marked escalated is followed by a further step. *)
Theorem escalated_step_has_successor :
  forall (World LLMError : Type)
         (generate : list LLM.Message -> string -> Q -> option Z -> World
                     -> (LLMError + LLM.ChatResponse) * World)
         (now : World -> Z * World) (uuid4_hex : World -> string * World)
         (self : Escalation.EscalationHandler) (messages : list LLM.Message)
         (initial_model : string) (complexity_score : Z) (temperature : Q)
         (max_tokens : option Z) (w w' : World)
         (response : LLM.ChatResponse) (chain : Escalation.EscalationChain),
    Escalation.handle_with_escalation generate now uuid4_hex self messages
      initial_model complexity_score temperature max_tokens w
    = (inr (response, chain), w') ->
    (exists front last_step,
        Escalation.steps chain = front ++ [last_step]
        /\ Escalation.escalated last_step = false)
    /\ (forall (i : nat) (s : Escalation.EscalationStep),
          nth_error (Escalation.steps chain) i = Some s ->
          Escalation.escalated s = true ->
          exists next, nth_error (Escalation.steps chain) (S i) = Some next).
Proof.
  intros World LLMError generate now uuid4_hex self messages initial_model
    complexity_score temperature max_tokens w w' response chain Hrun.
  apply handle_with_escalation_spec in Hrun as (_ & _ & _ & Hshape & _).
  split.
  - apply run_shape_last in Hshape as (front & s & Hs & He & _ & _).
    exists front, s. auto.
  - induction Hshape as [ s Hs | s rest m Hs Hrest IH ]; intros i x Hi Hx.
    + destruct i as [ | i ]; cbn in Hi.
      * injection Hi as <-. congruence.
      * destruct i; discriminate.
    + destruct i as [ | i ]; cbn in Hi |- *.
      * destruct Hrest; eexists; reflexivity.
      * eapply IH; eassumption.
Qed.

(** C9 on the demonstration back-end. *)
Lemma escalated_step_has_successor_witness :
  exists response chain w',
    Demo.run = (inr (response, chain), w')
    /\ exists front last_step,
         Escalation.steps chain = front ++ [last_step]
         /\ Escalation.escalated last_step = false.
Proof.
  destruct Demo.run as [[e | [response chain]] w'] eqn:Hrun;
    [ vm_compute in Hrun; discriminate | ].
  exists response, chain, w'. split; [ reflexivity | ].
  apply (escalated_step_has_successor _ _ _ _ _ _ _ _ _ _ Hrun).
Defined.

(** ** The handler returns when the back-end answers *)

Section ScoreRange.

Import Quality Spec.
Local Open Scope Q_scope.




Lemma detect_uncertainty_nonneg (text : string) :
  severities_nonneg (detect_uncertainty text).
Proof.
  unfold detect_uncertainty.
  destruct (flat_map _ UNCERTAINTY_PATTERNS) as [ | first more ];
    constructor; [ | constructor ].
  cbn [severity]. apply min_nonneg; [ discriminate | ].
  apply Qmult_le_0_compat; [ discriminate | ].
  change 0 with (inject_Z 0). rewrite <- Zle_Qle. lia.
Qed.

Lemma incomplete_loop_nonneg (patterns : list Re.regex) (text : string) :
  severities_nonneg (incomplete_loop patterns text).
Proof.
  induction patterns as [ | p r IH ]; cbn; [ constructor | ].
  destruct (Re.search p text); [ | exact IH ].
  repeat constructor. discriminate.
Qed.

Lemma first_match_loop_nonneg (patterns : list Re.regex) (text : string)
  (mk : string -> QualityIssue) :
  (forall ev, 0 <= severity (mk ev)) ->
  severities_nonneg (first_match_loop patterns text mk).
Proof.
  intros Hmk. induction patterns as [ | p r IH ]; cbn; [ constructor | ].
  destruct (Re.search p text); [ | exact IH ].
  repeat constructor. apply Hmk.
Qed.

Lemma detect_too_short_nonneg (text : string) (min_length complexity : Z) :
  severities_nonneg (detect_too_short text min_length complexity).
Proof.
  unfold detect_too_short.
  destruct (_ <? _)%Z; [ | constructor ].
  repeat constructor. cbn [severity].
  apply min_nonneg; [ discriminate | ].
  eapply Qle_trans; [ | apply max_lower ]. discriminate.
Qed.

Lemma detect_repetition_nonneg (text : string) :
  severities_nonneg (detect_repetition text).
Proof.
  unfold detect_repetition.
  destruct (_ <? 3)%nat; [ constructor | ].
  set (ratio := 1 - PyNum.div _ _).
  assert (Hissues :
            severities_nonneg
              (if PyNum.ltb 0.3 ratio
               then [ {| issue_type := REPETITION;
                         description :=
                           ("High repetition ratio: "
                            ++ PyStr.of_Z (PyNum.round_half_even (ratio * 100))
                            ++ "%")%string;
                         severity := PyNum.min 0.8 ratio;
                         evidence := None |} ]
               else [])).
  { destruct (PyNum.ltb 0.3 ratio) eqn:E; [ | constructor ].
    repeat constructor. cbn [severity].
    apply min_nonneg; [ discriminate | ].
    apply ltb_true in E. apply Qlt_le_weak.
    eapply Qle_lt_trans; [ | exact E ]. discriminate. }
  destruct (10 <? _)%nat; [ | exact Hissues ].
  destruct (repeated_phrase _ _); [ | exact Hissues ].
  destruct (existsb _ _); [ exact Hissues | ].
  apply Forall_app. split; [ exact Hissues | ].
  repeat constructor. discriminate.
Qed.

Lemma run_detectors_nonneg (self : QualityChecker) (text : string)
  (complexity : Z) : severities_nonneg (run_detectors self text complexity).
Proof.
  unfold run_detectors, severities_nonneg.
  rewrite !Forall_app. repeat split.
  - apply detect_uncertainty_nonneg.
  - apply incomplete_loop_nonneg.
  - apply first_match_loop_nonneg. intros ev. discriminate.
  - apply first_match_loop_nonneg. intros ev. discriminate.
  - apply detect_too_short_nonneg.
  - apply detect_repetition_nonneg.
Qed.

Lemma penalty_nonneg (l : list Q) (a : Q) :
  Forall (fun x => 0 <= x) l -> 0 <= a -> 0 <= fold_left Qplus l a.
Proof.
  intros H. revert a. induction H as [ | x r Hx Hr IH ]; intros a Ha; cbn.
  - exact Ha.
  - apply IH. now apply plus_nonneg.
Qed.

Lemma calculate_score_range (l : list QualityIssue) :
  severities_nonneg l -> (0 <= _calculate_score l <= 100)%Z.
Proof.
  intros H. unfold _calculate_score. destruct l as [ | i r ]; [ lia | ].
  split; [ apply Z.le_max_l | ].
  apply Z.max_lub; [ lia | ].
  change 100%Z with (PyNum.int 100). apply int_le.
  set (penalty := PyNum.sum _).
  assert (Hp : 0 <= penalty).
  { apply penalty_nonneg; [ | apply Qle_refl ].
    apply Forall_map. eapply Forall_impl; [ | exact H ].
    intros x Hx. cbn in Hx.
    apply Qmult_le_0_compat; [ exact Hx | discriminate ]. }
  rewrite <- (Qplus_0_r 100) at 2. unfold Qminus.
  apply Qplus_le_compat; [ apply Qle_refl | ].
  apply (Qopp_le_compat 0 penalty) in Hp. exact Hp.
Qed.

(** The score of an assessment is a score: between 0 and 100. *)
Lemma check_score_range (self : QualityChecker) (text : string)
  (complexity : Z) :
  (0 <= quality_score (check self text complexity) <= 100)%Z.
Proof.
  unfold check.
  destruct (PyStr.is_empty text || PyStr.is_empty (PyStr.strip text));
    cbn [quality_score]; [ lia | ].
  apply calculate_score_range, run_detectors_nonneg.
Qed.

End ScoreRange.

Section EscalationReturns.

Import Escalation.
Local Open Scope Q_scope.

Variable World : Type.
Variable LLMError : Type.
Variable generate :
  list LLM.Message -> string -> Q -> option Z -> World
  -> (LLMError + LLM.ChatResponse) * World.
Variable now : World -> Z * World.
Variable uuid4_hex : World -> string * World.

(** The back-end answers every call, with a latency that is not negative
    (as the schema of [ChatResponse] demands). *)
Hypothesis generate_answers :
  forall messages model temperature max_tokens w,
  exists r w1,
    generate messages model temperature max_tokens w = (inr r, w1)
    /\ 0 <= LLM.latency_ms r.

Variable self : EscalationHandler.
Variable messages : list LLM.Message.
Variable complexity_score : Z.
Variable temperature : Q.
Variable max_tokens : option Z.

Lemma new_step_accepts (s : EscalationStep) :
  (0 <= quality_score s <= 100)%Z -> 0 <= latency_ms s ->
  @new_step LLMError s = inr s.
Proof.
  intros [H0 H100] Hl. unfold new_step.
  destruct (Z.leb_spec 0 (quality_score s)); [ | lia ].
  destruct (Z.leb_spec (quality_score s) 100); [ | lia ].
  cbn. apply ltb_false in Hl. now rewrite Hl.
Qed.

Lemma attempts_loop_returns (attempts : list Z) :
  forall (l : Locals) (w : World),
    0 <= l_total_latency_ms l ->
    exists l' w',
      attempts_loop generate now self messages complexity_score temperature
        max_tokens attempts l w = (inr l', w')
      /\ 0 <= l_total_latency_ms l'
      /\ (attempts <> [] ->
          l_steps l' <> [] /\ l_final_response l' <> None).
Proof.
  induction attempts as [ | attempt more IH ]; intros l w Hl.
  - exists l, w. cbn. unfold ret. repeat split; [ exact Hl | | ]; congruence.
  - cbn [attempts_loop]. unfold bind at 1. unfold call_generate.
    destruct (generate_answers messages (l_current_model l) temperature
                max_tokens w) as (r & w1 & -> & Hr).
    unfold bind at 1. unfold call_now at 1. destruct (now w1) as [t w2].
    unfold bind at 1. unfold checked at 1.
    rewrite new_step_accepts;
      [ | cbn [quality_score]; apply check_score_range | exact Hr ].
    assert (Hsum : 0 <= l_total_latency_ms l + LLM.latency_ms r)
      by now apply plus_nonneg.
    assert (Hcons : forall (x : EscalationStep) (xs : list EscalationStep),
               (xs ++ [x])%list <> []).
    { intros x [ | y ys ]; discriminate. }
    destruct (Quality.should_escalate _); cbn [negb].
    + destruct (attempt >=? max_depth self)%Z.
      * eexists _, _. unfold ret. split; [ reflexivity | ].
        cbn. repeat split; auto; discriminate.
      * destruct (String.eqb _ _).
        -- eexists _, _. unfold ret. split; [ reflexivity | ].
           cbn. repeat split; auto; discriminate.
        -- match goal with
           | |- context [attempts_loop _ _ _ _ _ _ _ more ?l1 ?w1] =>
               destruct (IH l1 w1 Hsum) as (l' & w' & Hrun & Hl' & Hne)
           end.
           exists l', w'. split; [ exact Hrun | split; [ exact Hl' | ] ].
           intros _. destruct more as [ | a more' ].
           ++ cbn in Hrun. unfold ret in Hrun. injection Hrun as <- _.
              cbn. split; [ apply Hcons | discriminate ].
           ++ apply Hne. discriminate.
    + eexists _, _. unfold ret. split; [ reflexivity | ].
      cbn. repeat split; auto; discriminate.
Qed.

(** With such a back-end and a depth that is not negative, the handler
    returns a response and a chain. *)
Lemma handle_with_escalation_returns (initial_model : string) (w : World) :
  (0 <= max_depth self)%Z ->
  exists response chain w',
    handle_with_escalation generate now uuid4_hex self messages initial_model
      complexity_score temperature max_tokens w
    = (inr (response, chain), w').
Proof.
  intros Hdepth. unfold handle_with_escalation.
  unfold bind at 1. unfold call_uuid4_hex. destruct (uuid4_hex w) as [hex w1].
  unfold bind at 1.
  match goal with
  | |- context [attempts_loop _ _ _ _ _ _ _ ?a ?l ?w0] =>
      destruct (attempts_loop_returns a l w0) as (l' & w' & -> & Hl' & Hne);
        [ cbn; discriminate | ]
  end.
  destruct Hne as [Hsteps Hfinal].
  { intros H. apply range_nil in H. lia. }
  unfold bind at 1. unfold checked. unfold new_chain.
  cbn [total_attempts total_latency_ms].
  destruct (l_steps l') as [ | s steps' ] eqn:Es; [ congruence | ].
  cbn [List.length].
  destruct (Z.ltb_spec (Z.of_nat (S (List.length steps'))) 1); [ lia | ].
  apply ltb_false in Hl'. rewrite Hl'.
  destruct (l_final_response l') as [final | ]; [ | congruence ].
  unfold ret. eexists _, _, _. reflexivity.
Qed.

End EscalationReturns.

(* ================================================================== *)
(** * The score is monotone in the detected signals *)

Section SortedWeights.

Import Analyzer Spec.
Local Open Scope Q_scope.




Lemma insert_desc_forall (P : Q -> Prop) (x : Q) (l : list Q) :
  P x -> Forall P l -> Forall P (insert_desc x l).
Proof.
  intros Hx. induction 1 as [ | y r Hy Hr IH ]; cbn.
  - auto.
  - destruct (PyNum.ltb x y); auto.
Qed.

Lemma insert_desc_descending (x : Q) (l : list Q) :
  descending l -> descending (insert_desc x l).
Proof.
  induction 1 as [ | y r Hy Hr IH ]; cbn.
  - constructor; [ constructor | constructor ].
  - destruct (PyNum.ltb x y) eqn:E.
    + apply ltb_true in E. constructor; [ | exact IH ].
      apply insert_desc_forall; [ apply Qlt_le_weak, E | exact Hy ].
    + apply ltb_false in E. constructor; [ | constructor; assumption ].
      constructor; [ exact E | ].
      eapply Forall_impl; [ | exact Hy ].
      intros z Hz. cbn in Hz. apply Qle_trans with y; assumption.
Qed.

Lemma sorted_desc_descending (l : list Q) : descending (sorted_desc l).
Proof.
  induction l as [ | x l IH ]; cbn.
  - constructor.
  - apply insert_desc_descending, IH.
Qed.

Lemma sorted_desc_forall (P : Q -> Prop) (l : list Q) :
  Forall P l -> Forall P (sorted_desc l).
Proof.
  induction 1; cbn; [ constructor | now apply insert_desc_forall ].
Qed.

Lemma count_ge_cons (x y : Q) (l : list Q) :
  count_ge x (y :: l)
  = ((if Qle_bool x y then 1 else 0) + count_ge x l)%nat.
Proof. unfold count_ge. cbn. destruct (Qle_bool x y); reflexivity. Qed.

Lemma count_ge_insert (x y : Q) (l : list Q) :
  count_ge x (insert_desc y l) = count_ge x (y :: l).
Proof.
  induction l as [ | z r IH ]; cbn [insert_desc]; [ reflexivity | ].
  destruct (PyNum.ltb y z); [ | reflexivity ].
  rewrite !count_ge_cons in *. rewrite IH. lia.
Qed.

Lemma count_ge_sorted (x : Q) (l : list Q) :
  count_ge x (sorted_desc l) = count_ge x l.
Proof.
  induction l as [ | y r IH ]; cbn [sorted_desc fold_right]; [ reflexivity | ].
  fold (sorted_desc r). rewrite count_ge_insert, !count_ge_cons, IH.
  reflexivity.
Qed.

Lemma count_ge_zero (x : Q) (l : list Q) :
  Forall (fun y => y < x) l -> count_ge x l = 0%nat.
Proof.
  induction 1 as [ | y r Hy Hr IH ]; [ reflexivity | ].
  rewrite count_ge_cons, IH.
  destruct (Qle_bool x y) eqn:E; [ | reflexivity ].
  apply Qle_bool_iff in E. exfalso. exact (Qlt_not_le _ _ Hy E).
Qed.

Lemma count_ge_positive (x : Q) (l : list Q) :
  (0 < count_ge x l)%nat -> exists y, In y l /\ x <= y.
Proof.
  induction l as [ | y r IH ]; [ cbn; lia | ].
  rewrite count_ge_cons.
  destruct (Qle_bool x y) eqn:E.
  - intros _. exists y. split; [ now left | now apply Qle_bool_iff ].
  - intros H. destruct (IH H) as (z & Hz & Hxz). exists z.
    split; [ now right | exact Hxz ].
Qed.

(** Two descending lists, the first with no more elements above any bound
    than the second: the first lies below the second position by position. *)
Lemma descending_le_list (s : list Q) :
  forall s', descending s -> descending s' ->
             (forall x, (count_ge x s <= count_ge x s')%nat) ->
             le_list s s'.
Proof.
  induction s as [ | a r IH ]; intros s' Hs Hs' Hcount;
    [ constructor | ].
  inversion Hs as [ | a' r' Ha Hr ]; subst.
  assert (Hpos : (0 < count_ge a s')%nat).
  { specialize (Hcount a). rewrite count_ge_cons in Hcount.
    assert (E : Qle_bool a a = true) by (apply Qle_bool_iff, Qle_refl).
    rewrite E in Hcount. lia. }
  destruct s' as [ | b r' ]; [ cbn in Hpos; lia | ].
  inversion Hs' as [ | b' r'' Hb Hr' ]; subst.
  assert (Hab : a <= b).
  { destruct (count_ge_positive _ _ Hpos) as (y & [-> | Hy] & Hay);
      [ exact Hay | ].
    apply Qle_trans with y; [ exact Hay | ].
    rewrite Forall_forall in Hb. now apply Hb. }
  constructor; [ exact Hab | ].
  apply IH; [ assumption | assumption | ].
  intros x. specialize (Hcount x). rewrite !count_ge_cons in Hcount.
  destruct (Qle_bool x a) eqn:Exa.
  - assert (Exb : Qle_bool x b = true).
    { apply Qle_bool_iff. apply Qle_bool_iff in Exa.
      apply Qle_trans with a; assumption. }
    rewrite Exb in Hcount. lia.
  - rewrite count_ge_zero; [ lia | ].
    eapply Forall_impl; [ | exact Ha ].
    intros z Hz. cbn in Hz.
    apply Qle_lt_trans with a; [ exact Hz | ].
    apply Qnot_le_lt. intros Hle. apply Qle_bool_iff in Hle. congruence.
Qed.

Lemma le_list_firstn (n : nat) (l l' : list Q) :
  le_list l l' -> le_list (firstn n l) (firstn n l').
Proof.
  intros H. revert n. induction H as [ l' | x y l l' Hxy H IH ]; intros n.
  - rewrite firstn_nil. constructor.
  - destruct n; cbn; [ constructor | ]. constructor; [ exact Hxy | apply IH ].
Qed.

Lemma decay_nonneg (i : nat) : 0 <= 0.7 ^ Z.of_nat i.
Proof. apply Qpower_0_le. discriminate. Qed.

Lemma decay_loop_grows (ws : list Q) :
  forall (i : nat) (total : Q),
    Forall (fun y => 0 <= y) ws -> total <= decay_loop i ws total.
Proof.
  induction ws as [ | w r IH ]; intros i total H; cbn.
  - apply Qle_refl.
  - inversion H as [ | w' r' Hw Hr ]; subst.
    eapply Qle_trans; [ | apply IH; exact Hr ].
    rewrite <- (Qplus_0_r total) at 1.
    apply Qplus_le_compat; [ apply Qle_refl | ].
    apply Qmult_le_0_compat; [ exact Hw | apply decay_nonneg ].
Qed.

Lemma decay_loop_le (ws ws' : list Q) :
  le_list ws ws' ->
  forall (i : nat) (total total' : Q),
    Forall (fun y => 0 <= y) ws' -> total <= total' ->
    decay_loop i ws total <= decay_loop i ws' total'.
Proof.
  induction 1 as [ l' | x y l l' Hxy H IH ]; intros i total total' Hpos Ht.
  - cbn. eapply Qle_trans; [ exact Ht | now apply decay_loop_grows ].
  - cbn. inversion Hpos as [ | y' r' Hy Hr ]; subst.
    apply IH; [ exact Hr | ].
    apply Qplus_le_compat; [ exact Ht | ].
    apply Qmult_le_compat_r; [ exact Hxy | apply decay_nonneg ].
Qed.

End SortedWeights.

Section Deduplication.

Import Analyzer Spec.
Local Open Scope Q_scope.

Lemma signal_type_eqb_eq (a b : SignalType) :
  signal_type_eqb a b = true <-> a = b.
Proof. destruct a, b; cbn; split; congruence. Qed.

Lemma key_eqb_eq (a b : Key) : key_eqb a b = true <-> a = b.
Proof.
  destruct a as [ta va], b as [tb vb]. unfold key_eqb. cbn.
  rewrite andb_true_iff, signal_type_eqb_eq, String.eqb_eq.
  split; [ intros [-> ->]; reflexivity | intros [= -> ->]; auto ].
Qed.

Lemma key_eqb_neq (a b : Key) : key_eqb a b = false <-> a <> b.
Proof.
  rewrite <- key_eqb_eq. destruct (key_eqb a b); split; congruence.
Qed.

(** An entry of the updated dictionary is an old one or the new signal. *)
Lemma seen_update_in (seen : list (Key * DetectedSignal)) (key : Key)
  (signal : DetectedSignal) (e : Key * DetectedSignal) :
  In e (seen_update seen key signal) -> In e seen \/ e = (key, signal).
Proof.
  induction seen as [ | [k old] r IH ]; cbn.
  - intros [<- | []]. now right.
  - destruct (key_eqb k key) eqn:E.
    + apply key_eqb_eq in E. subst k.
      destruct (PyNum.ltb (weight old) (weight signal)); cbn; intuition.
    + cbn. intros [<- | H]; [ now left; left | ].
      destruct (IH H); [ left; now right | now right ].
Qed.

(** The keys stay as they are, or the new key is added at the end. *)
Lemma seen_update_keys (seen : list (Key * DetectedSignal)) (key : Key)
  (signal : DetectedSignal) :
  (In key (map fst seen)
   /\ map fst (seen_update seen key signal) = map fst seen)
  \/ (~ In key (map fst seen)
      /\ map fst (seen_update seen key signal) = map fst seen ++ [key]).
Proof.
  induction seen as [ | [k old] r IH ]; cbn.
  - right. split; [ tauto | reflexivity ].
  - destruct (key_eqb k key) eqn:E.
    + apply key_eqb_eq in E. subst k. left. split; [ now left | ].
      destruct (PyNum.ltb (weight old) (weight signal)); reflexivity.
    + apply key_eqb_neq in E. cbn.
      destruct IH as [[Hin Heq] | [Hnin Heq]]; rewrite Heq.
      * left. split; [ now right | reflexivity ].
      * right. split; [ | reflexivity ].
        intros [H | H]; [ now apply E | now apply Hnin ].
Qed.

(** After the update the key of the signal holds at least its weight. *)
Lemma seen_update_covers_new (seen : list (Key * DetectedSignal))
  (key : Key) (signal : DetectedSignal) :
  exists e, In e (seen_update seen key signal)
            /\ fst e = key /\ weight signal <= weight (snd e).
Proof.
  induction seen as [ | [k old] r IH ]; cbn.
  - exists (key, signal). cbn.
    split; [ now left | split; [ reflexivity | apply Qle_refl ] ].
  - destruct (key_eqb k key) eqn:E.
    + apply key_eqb_eq in E. subst k.
      destruct (PyNum.ltb (weight old) (weight signal)) eqn:L.
      * exists (key, signal). cbn.
        split; [ now left | split; [ reflexivity | apply Qle_refl ] ].
      * apply ltb_false in L. exists (key, old). cbn.
        split; [ now left | split; [ reflexivity | exact L ] ].
    + destruct IH as (e & He & Hk & Hw). exists e.
      split; [ now right | split; assumption ].
Qed.

(** An update lowers the weight held by no key. *)
Lemma seen_update_covers_old (seen : list (Key * DetectedSignal))
  (key : Key) (signal : DetectedSignal) (e : Key * DetectedSignal) :
  In e seen ->
  exists e', In e' (seen_update seen key signal)
             /\ fst e' = fst e /\ weight (snd e) <= weight (snd e').
Proof.
  induction seen as [ | [k old] r IH ]; cbn; [ tauto | ].
  intros [<- | H].
  - destruct (key_eqb k key) eqn:E.
    + destruct (PyNum.ltb (weight old) (weight signal)) eqn:L.
      * apply ltb_true in L. exists (k, signal). cbn.
        split; [ now left | split; [ reflexivity | now apply Qlt_le_weak ] ].
      * exists (k, old). cbn.
        split; [ now left | split; [ reflexivity | apply Qle_refl ] ].
    + exists (k, old). cbn.
      split; [ now left | split; [ reflexivity | apply Qle_refl ] ].
  - destruct (IH H) as (e' & He' & Hk & Hw).
    destruct (key_eqb k key) eqn:E.
    + exists e. split; [ | split; [ reflexivity | apply Qle_refl ] ].
      destruct (PyNum.ltb (weight old) (weight signal)); now right.
    + exists e'. split; [ now right | split; assumption ].
Qed.


Lemma seen_update_ok (seen : list (Key * DetectedSignal))
  (processed : list DetectedSignal) (signal : DetectedSignal) :
  seen_ok seen processed ->
  seen_ok (seen_update seen (key_of signal) signal) (signal :: processed).
Proof.
  intros (Hent & Hnd & Hcov). repeat split.
  - destruct (seen_update_in _ _ _ _ H) as [Hold | ->];
      [ now apply Hent | reflexivity ].
  - destruct (seen_update_in _ _ _ _ H) as [Hold | ->];
      [ right; now apply Hent | now left ].
  - destruct (seen_update_keys seen (key_of signal) signal)
      as [[_ ->] | [Hnin ->]]; [ exact Hnd | ].
    apply NoDup_app; [ exact Hnd | repeat constructor; intros [] | ].
    intros k Hk [<- | []]. now apply Hnin.
  - intros s [<- | Hs].
    + apply seen_update_covers_new.
    + destruct (Hcov s Hs) as (e & He & Hk & Hw).
      destruct (seen_update_covers_old seen (key_of signal) signal e He)
        as (e' & He' & Hk' & Hw').
      exists e'. split; [ exact He' | split; [ congruence | ] ].
      apply Qle_trans with (weight (snd e)); assumption.
Qed.

Lemma seen_fold_ok (signals : list DetectedSignal) :
  forall seen processed,
    seen_ok seen processed ->
    seen_ok
      (fold_left (fun seen signal => seen_update seen (key_of signal) signal)
                 signals seen)
      (rev signals ++ processed).
Proof.
  induction signals as [ | s r IH ]; intros seen processed H; cbn.
  - exact H.
  - rewrite <- app_assoc. cbn. apply IH. now apply seen_update_ok.
Qed.

(** What deduplication keeps: signals of the input, one for each key, and
    for every signal of the input one of its key with at least its weight. *)
Lemma deduplicate_signals_spec (signals : list DetectedSignal) :
  let kept := deduplicate_signals signals in
  (forall s, In s kept -> In s signals)
  /\ NoDup (map key_of kept)
  /\ (forall s, In s signals ->
        exists s', In s' kept /\ key_of s' = key_of s
                   /\ weight s <= weight s').
Proof.
  unfold deduplicate_signals.
  destruct (seen_fold_ok signals (seen := []) (processed := []))
    as (Hent & Hnd & Hcov).
  { repeat split;
      [ contradiction | contradiction | constructor | contradiction ]. }
  rewrite app_nil_r in *.
  set (seen := fold_left _ signals []) in *.
  assert (Hkeys : map key_of (map snd seen) = map fst seen).
  { rewrite map_map. apply map_ext_in. intros e He.
    symmetry. now apply Hent. }
  cbn zeta. repeat split.
  - intros s Hs. apply in_map_iff in Hs as (e & <- & He).
    apply in_rev. now apply Hent.
  - rewrite Hkeys. exact Hnd.
  - intros s Hs. apply in_rev in Hs.
    destruct (Hcov s Hs) as (e & He & Hk & Hw).
    exists (snd e). split; [ now apply in_map | split; [ | exact Hw ] ].
    destruct (Hent e He) as [<- _]. exact Hk.
Qed.

End Deduplication.

Section ScoreMonotone.

Import Analyzer Spec.
Local Open Scope Q_scope.

Lemma count_ge_app (x : Q) (l1 l2 : list Q) :
  count_ge x (l1 ++ l2) = (count_ge x l1 + count_ge x l2)%nat.
Proof. unfold count_ge. now rewrite filter_app, length_app. Qed.

Lemma covered_dominated (l l' : list DetectedSignal) :
  covered l l' = true -> dominated l l'.
Proof.
  unfold covered, dominated. rewrite forallb_forall.
  intros H s Hs. specialize (H s Hs).
  apply existsb_exists in H as (s' & Hs' & H).
  apply andb_prop in H as [Hk Hw].
  exists s'. split; [ exact Hs' | ].
  split; [ now apply key_eqb_eq | now apply Qle_bool_iff ].
Qed.

(** With one signal for each key on the left, domination is an injection
    into the right list, so above any bound the right list has at least as
    many weights. *)
Lemma count_dominated (d : list DetectedSignal) :
  forall d', NoDup (map key_of d) -> dominated d d' ->
             forall x, (count_ge x (map weight d)
                        <= count_ge x (map weight d'))%nat.
Proof.
  induction d as [ | s r IH ]; intros d' Hnd Hdom x; [ cbn; lia | ].
  cbn [map] in Hnd. inversion Hnd as [ | k ks Hnotin Hnd' ]; subst.
  destruct (Hdom s (or_introl eq_refl)) as (s' & Hs' & Hk & Hw).
  destruct (in_split _ _ Hs') as (a & b & ->).
  assert (Hrest : dominated r (a ++ b)).
  { intros t Ht.
    destruct (Hdom t (or_intror Ht)) as (t' & Ht' & Hkt & Hwt).
    exists t'. split; [ | split; assumption ].
    apply in_app_or in Ht' as [Ht' | [<- | Ht']].
    - apply in_or_app. now left.
    - exfalso. apply Hnotin. rewrite <- Hk, Hkt. now apply in_map.
    - apply in_or_app. now right. }
  specialize (IH (a ++ b) Hnd' Hrest x).
  rewrite !map_app in *. cbn [map]. rewrite count_ge_app in *.
  rewrite !count_ge_cons.
  destruct (Qle_bool x (weight s)) eqn:E.
  - assert (E' : Qle_bool x (weight s') = true).
    { apply Qle_bool_iff. apply Qle_bool_iff in E.
      apply Qle_trans with (weight s); assumption. }
    rewrite E'. lia.
  - destruct (Qle_bool x (weight s')); lia.
Qed.

Lemma firstn_forall (P : Q -> Prop) (n : nat) (l : list Q) :
  Forall P l -> Forall P (firstn n l).
Proof.
  intros H. revert n. induction H; intros [ | n ]; cbn; constructor; auto.
Qed.


Lemma min_one_nonneg (x : Q) : 0 <= x -> 0 <= PyNum.min 1.0 x.
Proof.
  intros H. unfold PyNum.min. destruct (PyNum.ltb x 1.0); [ exact H | ].
  discriminate.
Qed.

Lemma aggregate_signals_nonneg (d : list DetectedSignal) :
  Forall (fun s => 0 <= weight s) d -> 0 <= aggregate_signals d.
Proof.
  intros H. unfold aggregate_signals.
  destruct d as [ | s r ]; [ discriminate | ].
  apply min_one_nonneg.
  eapply Qle_trans; [ | apply decay_loop_grows ]; [ discriminate | ].
  apply firstn_forall, sorted_desc_forall.
  now apply Forall_map.
Qed.

Lemma aggregate_signals_le (d d' : list DetectedSignal) :
  NoDup (map key_of d) -> dominated d d' ->
  Forall (fun s => 0 <= weight s) d' ->
  aggregate_signals d <= aggregate_signals d'.
Proof.
  intros Hnd Hdom Hpos.
  destruct d as [ | s r ].
  - apply Qle_trans with 0; [ cbn; discriminate | ].
    now apply aggregate_signals_nonneg.
  - destruct d' as [ | s' r' ].
    { destruct (Hdom s (or_introl eq_refl)) as (t & [] & _). }
    unfold aggregate_signals. apply min_le_compat.
    apply decay_loop_le; [ | | apply Qle_refl ].
    + apply le_list_firstn. apply descending_le_list.
      * apply sorted_desc_descending.
      * apply sorted_desc_descending.
      * intros x. rewrite !count_ge_sorted. now apply count_dominated.
    + apply firstn_forall, sorted_desc_forall. now apply Forall_map.
Qed.



Lemma calculate_score_le (self : PromptAnalyzer)
  (k c m p k' c' m' p' : list DetectedSignal) (l l' : DetectedSignal) :
  nonneg_weights (weights self) ->
  aggregate_signals k <= aggregate_signals k' ->
  aggregate_signals c <= aggregate_signals c' ->
  aggregate_signals m <= aggregate_signals m' ->
  aggregate_signals p <= aggregate_signals p' ->
  weight l <= weight l' ->
  (_calculate_score self k c m p l <= _calculate_score self k' c' m' p' l')%Z.
Proof.
  intros (Wk & Wc & Wm & Wp & Wl) Hk Hc Hm Hp Hl.
  unfold _calculate_score. apply int_le, min_le_compat.
  apply Qmult_le_compat_r; [ | discriminate ].
  repeat apply Qplus_le_compat; now apply Qmult_le_compat_r.
Qed.

Lemma calculate_score_nonneg (self : PromptAnalyzer)
  (k c m p : list DetectedSignal) (l : DetectedSignal) :
  nonneg_weights (weights self) ->
  0 <= aggregate_signals k -> 0 <= aggregate_signals c ->
  0 <= aggregate_signals m -> 0 <= aggregate_signals p ->
  0 <= weight l ->
  (0 <= _calculate_score self k c m p l)%Z.
Proof.
  intros (Wk & Wc & Wm & Wp & Wl) Hk Hc Hm Hp Hl.
  unfold _calculate_score. apply int_nonneg.
  unfold PyNum.min. destruct (PyNum.ltb _ 100); [ | discriminate ].
  apply Qmult_le_0_compat; [ | discriminate ].
  repeat apply plus_nonneg; now apply Qmult_le_0_compat.
Qed.

End ScoreMonotone.

Section DetectorWeights.

Import Analyzer Spec PyStr.
Local Open Scope Q_scope.

Lemma keywords_nonneg (text : string) :
  Forall (fun s => 0 <= weight s) (detect_reasoning_keywords text).
Proof.
  apply Forall_forall. intros s Hs. unfold detect_reasoning_keywords in Hs.
  apply in_flat_map in Hs as ([level keywords] & _ & Hs).
  apply in_flat_map in Hs as (keyword & _ & Hs).
  apply in_map_iff in Hs as (m & <- & _). cbn.
  destruct level; discriminate.
Qed.

Lemma code_nonneg (text : string) :
  Forall (fun s => 0 <= weight s) (detect_code_blocks text).
Proof.
  apply Forall_forall. intros s Hs. unfold detect_code_blocks in Hs.
  apply in_flat_map in Hs as (pattern & _ & Hs).
  apply in_map_iff in Hs as (m & <- & _). cbn. discriminate.
Qed.

Lemma math_nonneg (text : string) :
  Forall (fun s => 0 <= weight s) (detect_math_expressions text).
Proof.
  apply Forall_forall. intros s Hs. unfold detect_math_expressions in Hs.
  apply in_flat_map in Hs as (pattern & _ & Hs).
  apply in_map_iff in Hs as (m & <- & _). cbn. discriminate.
Qed.

Lemma multipart_nonneg (text : string) :
  Forall (fun s => 0 <= weight s) (detect_multipart_questions text).
Proof.
  apply Forall_forall. intros s Hs. unfold detect_multipart_questions in Hs.
  apply in_flat_map in Hs as (pattern & _ & Hs).
  apply in_map_iff in Hs as (m & <- & _). cbn. discriminate.
Qed.

Lemma div_le (a b c : Z) :
  (0 < c)%Z -> (a <= b)%Z -> PyNum.div a c <= PyNum.div b c.
Proof.
  intros Hc Hab. unfold PyNum.div, Qdiv.
  apply Qmult_le_compat_r; [ now rewrite <- Zle_Qle | ].
  apply Qinv_le_0_compat. change 0 with (inject_Z 0).
  rewrite <- Zle_Qle. lia.
Qed.

Lemma div_nonneg (a c : Z) : (0 < c)%Z -> (0 <= a)%Z -> 0 <= PyNum.div a c.
Proof.
  intros Hc Ha. apply Qle_trans with (PyNum.div 0 c).
  - unfold PyNum.div, Qdiv. rewrite Qmult_0_l. apply Qle_refl.
  - now apply div_le.
Qed.

(** The weight of the last branch of [calculate_length_signal]. *)
Lemma long_weight_bounds (n : Z) (c : Q) :
  (2000 <= n)%Z -> c <= 0.8 ->
  c <= PyNum.min 0.9 (0.8 + PyNum.div (n - 2000) 10000).
Proof.
  intros Hn Hc. unfold PyNum.min.
  destruct (PyNum.ltb _ 0.9).
  - rewrite <- (Qplus_0_r c). apply Qplus_le_compat; [ exact Hc | ].
    apply div_nonneg; lia.
  - apply Qle_trans with 0.8; [ exact Hc | discriminate ].
Qed.

Lemma length_weight_le (p p' : string) :
  (len p <= len p')%Z ->
  weight (calculate_length_signal p) <= weight (calculate_length_signal p').
Proof.
  intros H. unfold calculate_length_signal. cbn [weight].
  unfold very_short, short, medium_length, long, very_long.
  repeat match goal with
         | |- context [Z.ltb ?a ?b] => destruct (Z.ltb_spec a b)
         end;
    try lia; try discriminate;
    try (apply long_weight_bounds; [ lia | discriminate ]).
  apply min_le_compat. apply Qplus_le_compat; [ apply Qle_refl | ].
  apply div_le; lia.
Qed.

Lemma length_weight_nonneg (p : string) :
  0 <= weight (calculate_length_signal p).
Proof.
  unfold calculate_length_signal. cbn [weight].
  unfold very_short, short, medium_length, long, very_long.
  repeat match goal with
         | |- context [Z.ltb ?a ?b] => destruct (Z.ltb_spec a b)
         end;
    try discriminate.
  apply long_weight_bounds; [ lia | discriminate ].
Qed.

Lemma deduplicate_nonneg (l : list DetectedSignal) :
  Forall (fun s => 0 <= weight s) l ->
  Forall (fun s => 0 <= weight s) (deduplicate_signals l).
Proof.
  intros H. destruct (deduplicate_signals_spec l) as (Hin & _ & _).
  rewrite Forall_forall in *. intros s Hs. apply H, Hin, Hs.
Qed.

(** Deduplication followed by aggregation is monotone for [covered]. *)
Lemma deduplicated_aggregate_le (l l' : list DetectedSignal) :
  covered l l' = true ->
  Forall (fun s => 0 <= weight s) l' ->
  aggregate_signals (deduplicate_signals l)
  <= aggregate_signals (deduplicate_signals l').
Proof.
  intros Hcov Hpos.
  destruct (deduplicate_signals_spec l) as (Hin & Hnd & _).
  destruct (deduplicate_signals_spec l') as (_ & _ & Hkeep).
  apply aggregate_signals_le; [ exact Hnd | | now apply deduplicate_nonneg ].
  intros s Hs.
  destruct (covered_dominated l l' Hcov s (Hin s Hs)) as (s1 & H1 & Hk1 & Hw1).
  destruct (Hkeep s1 H1) as (s2 & H2 & Hk2 & Hw2).
  exists s2. split; [ exact H2 | split; [ congruence | ] ].
  apply Qle_trans with (weight s1); assumption.
Qed.

End DetectorWeights.

(** C7 (as amended). The complexity score is monotone in the detected
    signals: for prompts [p] and [p'] with [p'] not blank and at least as
    long as [p], if every signal the four pattern detectors find in [p] is
    found in [p'] too (same type and value, at least the same weight), then
    the score of [p'] is at least the score of [p].  (The category weights
    of the analyzer are not negative, as the defaults are.) *)
Theorem analyze_score_monotone_in_signals :
  forall (self : Analyzer.PromptAnalyzer) (p p' : string),
    Spec.nonneg_weights (Analyzer.weights self) ->
    Spec.blank p' = false ->
    (PyStr.len p <= PyStr.len p')%Z ->
    Spec.covered (Analyzer.detect_reasoning_keywords p)
      (Analyzer.detect_reasoning_keywords p') = true ->
    Spec.covered (Analyzer.detect_code_blocks p)
      (Analyzer.detect_code_blocks p') = true ->
    Spec.covered (Analyzer.detect_math_expressions p)
      (Analyzer.detect_math_expressions p') = true ->
    Spec.covered (Analyzer.detect_multipart_questions p)
      (Analyzer.detect_multipart_questions p') = true ->
    (Analyzer.complexity_score (Analyzer.analyze self p)
     <= Analyzer.complexity_score (Analyzer.analyze self p'))%Z.
Proof.
  intros self p p' Hw Hp' Hlen Hk Hc Hm Hq.
  unfold Analyzer.analyze, Analyzer.analyze_with.
  rewrite (not_blank_not_empty p' Hp'), (strip_not_blank p' Hp').
  cbn [orb Analyzer.signals_module Analyzer.keywords_of Analyzer.code_of
       Analyzer.math_of Analyzer.multipart_of Analyzer.length_of].
  destruct (PyStr.is_empty p || PyStr.is_empty (PyStr.strip p));
    cbn [Analyzer.complexity_score].
  - apply calculate_score_nonneg;
      [ exact Hw | | | | | apply length_weight_nonneg ];
      apply aggregate_signals_nonneg, deduplicate_nonneg.
    + apply keywords_nonneg.
    + apply code_nonneg.
    + apply math_nonneg.
    + apply multipart_nonneg.
  - apply calculate_score_le;
      [ exact Hw | | | | | now apply length_weight_le ];
      apply deduplicated_aggregate_le; try assumption.
    + apply keywords_nonneg.
    + apply code_nonneg.
    + apply math_nonneg.
    + apply multipart_nonneg.
Qed.

(** The amended C7 from [matrix] to [matrix list]: the math term is still
    found and a keyword is added. *)
Lemma analyze_score_monotone_in_signals_witness :
  (Analyzer.complexity_score
     (Analyzer.analyze Analyzer.default_analyzer "matrix")
   <= Analyzer.complexity_score
        (Analyzer.analyze Analyzer.default_analyzer "matrix list"))%Z.
Proof.
  apply (analyze_score_monotone_in_signals Analyzer.default_analyzer
           "matrix" "matrix list").
  - repeat split; discriminate.
  - reflexivity.
  - vm_compute. discriminate.
  - vm_compute. reflexivity.
  - vm_compute. reflexivity.
  - vm_compute. reflexivity.
  - vm_compute. reflexivity.
Defined.

(** C7 as stated fails: [list] is a reasoning keyword, and appended to
    [matrix] it removes the word boundary the math term needs, so the score
    falls from 17 to 11. *)
Lemma analyze_score_not_monotone_in_text :
  ~ (forall (p s : string) (i : nat),
       Spec.detector_positive s = true ->
       (Analyzer.complexity_score
          (Analyzer.analyze Analyzer.default_analyzer p)
        <= Analyzer.complexity_score
             (Analyzer.analyze Analyzer.default_analyzer
                (Spec.insert_at i s p)))%Z).
Proof.
  intros H. specialize (H "matrix"%string "list"%string 6%nat).
  vm_compute in H. apply H; reflexivity.
Qed.

(* ================================================================== *)
(** * Further properties of the quality checker *)

From Stdlib Require Import Lqa.

Section RoundingFacts.

Local Open Scope Q_scope.

Lemma min_le_l (a b : Q) : PyNum.min a b <= a.
Proof.
  unfold PyNum.min. destruct (PyNum.ltb b a) eqn:E; [ | apply Qle_refl ].
  apply ltb_true in E. now apply Qlt_le_weak.
Qed.

Lemma min_le_r (a b : Q) : PyNum.min a b <= b.
Proof.
  unfold PyNum.min. destruct (PyNum.ltb b a) eqn:E; [ apply Qle_refl | ].
  now apply ltb_false in E.
Qed.

Lemma int_inject (z : Z) : PyNum.int (inject_Z z) = z.
Proof. unfold PyNum.int. cbn. apply Z.quot_1_r. Qed.

(** Rounding to the nearest integer stays within integer bounds. *)
Lemma round_half_even_bounds (x : Q) (n : Z) :
  0 <= x -> x <= inject_Z n ->
  (0 <= PyNum.round_half_even x <= n)%Z.
Proof.
  intros H0 Hn. unfold PyNum.round_half_even.
  assert (Hf0 : (0 <= Qfloor x)%Z).
  { change 0%Z with (Qfloor 0). now apply Qfloor_resp_le. }
  assert (Hfn : (Qfloor x <= n)%Z).
  { rewrite <- (Qfloor_Z n). now apply Qfloor_resp_le. }
  destruct (PyNum.ltb (x - inject_Z (Qfloor x)) (1 # 2)) eqn:E; [ lia | ].
  assert (Hlt : (Qfloor x < n)%Z).
  { destruct (Z.eq_dec (Qfloor x) n) as [Heq | Hne]; [ | lia ].
    exfalso. apply ltb_false in E. rewrite Heq in E.
    assert (Hd : x - inject_Z n <= 0).
    { apply Qle_minus_iff in Hn. apply Qle_minus_iff.
      setoid_replace (0 + - (x - inject_Z n)) with (inject_Z n + - x)
        by ring.
      exact Hn. }
    assert (Habs : (1 # 2) <= 0) by (eapply Qle_trans; eassumption).
    apply Habs. reflexivity. }
  destruct (PyNum.ltb (1 # 2) (x - inject_Z (Qfloor x)));
    [ lia | destruct (Z.even (Qfloor x)); lia ].
Qed.

(** [round(x, 2)] of a number between 0 and 1 lies between 0 and 1. *)
Lemma round2_unit (x : Q) : 0 <= x -> x <= 1 -> 0 <= PyNum.round2 x <= 1.
Proof.
  intros H0 H1. unfold PyNum.round2.
  assert (Hb : (0 <= PyNum.round_half_even (x * 100) <= 100)%Z).
  { apply round_half_even_bounds.
    - apply Qmult_le_0_compat; [ exact H0 | discriminate ].
    - change (inject_Z 100) with (1 * 100).
      apply Qmult_le_compat_r; [ exact H1 | discriminate ]. }
  destruct Hb as [Hb0 Hb1]. split.
  - apply Qle_shift_div_l; [ reflexivity | ].
    rewrite Qmult_0_l. change 0 with (inject_Z 0). now rewrite <- Zle_Qle.
  - apply Qle_shift_div_r; [ reflexivity | ].
    change (1 * 100) with (inject_Z 100). now rewrite <- Zle_Qle.
Qed.

Lemma sum_bounded (b : Q) (l : list Q) :
  forall a, Forall (fun x => x <= b) l ->
            fold_left Qplus l a
            <= a + b * inject_Z (Z.of_nat (List.length l)).
Proof.
  induction l as [ | x r IH ]; intros a H.
  - cbn. rewrite Qmult_0_r, Qplus_0_r. apply Qle_refl.
  - inversion H as [ | x' r' Hx Hr ]; subst. cbn [fold_left List.length].
    eapply Qle_trans; [ apply IH; exact Hr | ].
    rewrite Nat2Z.inj_succ. unfold Z.succ. rewrite inject_Z_plus.
    setoid_replace (a + b * (inject_Z (Z.of_nat (List.length r)) + inject_Z 1))
      with (a + b + b * inject_Z (Z.of_nat (List.length r))) by ring.
    apply Qplus_le_compat; [ | apply Qle_refl ].
    apply Qplus_le_compat; [ apply Qle_refl | exact Hx ].
Qed.

End RoundingFacts.

Section IssueBounds.

Import Quality Props.
Local Open Scope Q_scope.

Lemma detect_uncertainty_bounded (text : string) :
  severities_bounded (detect_uncertainty text).
Proof.
  pose proof (detect_uncertainty_nonneg text) as H.
  unfold detect_uncertainty in *.
  destruct (flat_map _ UNCERTAINTY_PATTERNS) as [ | first more ];
    constructor; [ | constructor ].
  inversion H as [ | i r Hi _ ]; subst. split; [ exact Hi | ].
  cbn [severity]. eapply Qle_trans; [ apply min_le_l | discriminate ].
Qed.

Lemma incomplete_loop_bounded (patterns : list Re.regex) (text : string) :
  severities_bounded (incomplete_loop patterns text).
Proof.
  induction patterns as [ | p r IH ]; cbn; [ constructor | ].
  destruct (Re.search p text); [ | exact IH ].
  repeat constructor; discriminate.
Qed.

Lemma first_match_loop_bounded (patterns : list Re.regex) (text : string)
  (mk : string -> QualityIssue) :
  (forall ev, 0 <= severity (mk ev) <= 1) ->
  severities_bounded (first_match_loop patterns text mk).
Proof.
  intros Hmk. induction patterns as [ | p r IH ]; cbn; [ constructor | ].
  destruct (Re.search p text); [ | exact IH ].
  repeat constructor; apply Hmk.
Qed.

Lemma detect_too_short_bounded (text : string) (min_length complexity : Z) :
  severities_bounded (detect_too_short text min_length complexity).
Proof.
  pose proof (detect_too_short_nonneg text min_length complexity) as H.
  unfold detect_too_short in *.
  destruct (_ <? _)%Z; [ | constructor ].
  inversion H as [ | i r Hi _ ]; subst.
  repeat constructor; [ exact Hi | ].
  cbn [severity]. eapply Qle_trans; [ apply min_le_l | discriminate ].
Qed.

Lemma detect_repetition_bounded (text : string) :
  severities_bounded (detect_repetition text).
Proof.
  pose proof (detect_repetition_nonneg text) as H.
  unfold severities_bounded, Spec.severities_nonneg in *.
  rewrite Forall_forall in *. intros i Hi. split; [ now apply H | ].
  clear H. unfold detect_repetition in Hi.
  destruct (_ <? 3)%nat; [ contradiction | ].
  set (ratio := 1 - PyNum.div _ _) in *.
  assert (Hfirst : forall j,
             In j (if PyNum.ltb 0.3 ratio
                   then [ {| issue_type := REPETITION;
                             description :=
                               ("High repetition ratio: "
                                ++ PyStr.of_Z
                                     (PyNum.round_half_even (ratio * 100))
                                ++ "%")%string;
                             severity := PyNum.min 0.8 ratio;
                             evidence := None |} ]
                   else []) ->
             severity j <= 1).
  { intros j Hj. destruct (PyNum.ltb 0.3 ratio); [ | contradiction ].
    destruct Hj as [<- | []]. cbn [severity].
    eapply Qle_trans; [ apply min_le_l | discriminate ]. }
  destruct (10 <? _)%nat; [ | now apply Hfirst ].
  destruct (repeated_phrase _ _); [ | now apply Hfirst ].
  destruct (existsb _ _); [ now apply Hfirst | ].
  apply in_app_or in Hi as [Hi | [<- | []]]; [ now apply Hfirst | ].
  discriminate.
Qed.

Lemma run_detectors_bounded (self : QualityChecker) (text : string)
  (complexity : Z) : severities_bounded (run_detectors self text complexity).
Proof.
  unfold run_detectors, severities_bounded.
  rewrite !Forall_app. repeat split.
  - apply detect_uncertainty_bounded.
  - apply incomplete_loop_bounded.
  - apply first_match_loop_bounded. intros ev. split; discriminate.
  - apply first_match_loop_bounded. intros ev. split; discriminate.
  - apply detect_too_short_bounded.
  - apply detect_repetition_bounded.
Qed.

Lemma detect_uncertainty_one (text : string) :
  at_most_one UNCERTAINTY (detect_uncertainty text).
Proof.
  unfold detect_uncertainty.
  destruct (flat_map _ UNCERTAINTY_PATTERNS); [ now left | ].
  right. eexists. split; reflexivity.
Qed.

Lemma incomplete_loop_one (patterns : list Re.regex) (text : string) :
  at_most_one INCOMPLETE (incomplete_loop patterns text).
Proof.
  induction patterns as [ | p r IH ]; cbn; [ now left | ].
  destruct (Re.search p text); [ | exact IH ].
  right. eexists. split; reflexivity.
Qed.

Lemma first_match_loop_one (t : QualityIssueType) (patterns : list Re.regex)
  (text : string) (mk : string -> QualityIssue) :
  (forall ev, issue_type (mk ev) = t) ->
  at_most_one t (first_match_loop patterns text mk).
Proof.
  intros Hmk. induction patterns as [ | p r IH ]; cbn; [ now left | ].
  destruct (Re.search p text); [ | exact IH ].
  right. eexists. split; [ reflexivity | apply Hmk ].
Qed.

Lemma detect_too_short_one (text : string) (min_length complexity : Z) :
  at_most_one TOO_SHORT (detect_too_short text min_length complexity).
Proof.
  unfold detect_too_short. destruct (_ <? _)%Z; [ | now left ].
  right. eexists. split; reflexivity.
Qed.

Lemma detect_repetition_one (text : string) :
  at_most_one REPETITION (detect_repetition text).
Proof.
  unfold detect_repetition.
  destruct (_ <? 3)%nat; [ now left | ].
  destruct (PyNum.ltb _ _).
  - assert (H : forall i more,
               at_most_one REPETITION
                 [ {| issue_type := REPETITION; description := i;
                      severity := more; evidence := None |} ]).
    { intros. right. eexists. split; reflexivity. }
    destruct (10 <? _)%nat; [ | apply H ].
    destruct (repeated_phrase _ _); [ | apply H ].
    cbn [existsb issue_type issue_type_eqb orb]. apply H.
  - destruct (10 <? _)%nat; [ | now left ].
    destruct (repeated_phrase _ _); [ | now left ].
    cbn. right. eexists. split; reflexivity.
Qed.

Lemma detect_incomplete_one (text : string) :
  at_most_one INCOMPLETE (detect_incomplete text).
Proof. apply incomplete_loop_one. Qed.

Lemma detect_failed_reasoning_one (text : string) :
  at_most_one FAILED_REASONING (detect_failed_reasoning text).
Proof. apply first_match_loop_one. reflexivity. Qed.

Lemma detect_refusal_one (text : string) :
  at_most_one REFUSAL (detect_refusal text).
Proof. apply first_match_loop_one. reflexivity. Qed.

(** The types of a list with at most one issue of type [t]. *)
Lemma run_detectors_types (t : QualityIssueType) (l : list QualityIssue) :
  at_most_one t l -> map issue_type l = present t l.
Proof. intros [-> | (i & -> & <-)]; reflexivity. Qed.

End IssueBounds.

(** X1. The quality score of every assessment lies between 0 and 100, so
    the constraint of the schema on [quality_score] cannot fail. *)
Theorem quality_score_between_0_and_100 :
  forall (self : Quality.QualityChecker) (text : string) (complexity : Z),
    (0 <= Quality.quality_score (Quality.check self text complexity)
     <= 100)%Z.
Proof. intros. apply check_score_range. Qed.

(** X2. Every issue that [check] reports has a severity between 0 and 1,
    whatever the text: the detectors cap what they compute. *)
Theorem issue_severities_between_0_and_1 :
  forall (self : Quality.QualityChecker) (text : string) (complexity : Z),
    Forall (fun i => 0 <= Quality.severity i <= 1)
           (Quality.issues (Quality.check self text complexity)).
Proof.
  intros self text complexity. unfold Quality.check.
  destruct (PyStr.is_empty text || PyStr.is_empty (PyStr.strip text));
    cbn [Quality.issues].
  - repeat constructor; discriminate.
  - apply run_detectors_bounded.
Qed.

(** X3. [check] reports at most one issue of each type, in the order in
    which it runs the detectors; so an assessment has at most six issues. *)
Theorem issues_one_per_type :
  forall (self : Quality.QualityChecker) (text : string) (complexity : Z),
    let types :=
      map Quality.issue_type
          (Quality.issues (Quality.check self text complexity)) in
    NoDup types
    /\ (List.length types <= 6)%nat
    /\ exists keep, types = filter keep Props.detector_order.
Proof.
  intros self text complexity. unfold Quality.check.
  destruct (PyStr.is_empty text || PyStr.is_empty (PyStr.strip text));
    cbn [Quality.issues].
  - cbn. split; [ repeat constructor; intros [] | ].
    split; [ lia | ].
    exists (fun t => Quality.issue_type_eqb t Quality.TOO_SHORT).
    reflexivity.
  - unfold Quality.run_detectors. rewrite !map_app.
    rewrite (run_detectors_types (detect_uncertainty_one text)).
    rewrite (run_detectors_types (detect_incomplete_one text)).
    rewrite (run_detectors_types (detect_failed_reasoning_one text)).
    rewrite (run_detectors_types (detect_refusal_one text)).
    rewrite (run_detectors_types
               (detect_too_short_one text
                  (Quality.min_response_length self) complexity)).
    rewrite (run_detectors_types (detect_repetition_one text)).
    destruct (Quality.detect_uncertainty text),
      (Quality.detect_incomplete text),
      (Quality.detect_failed_reasoning text),
      (Quality.detect_refusal text),
      (Quality.detect_too_short text _ complexity),
      (Quality.detect_repetition text);
    cbn [app Props.present];
    (split; [ repeat constructor; cbn; intuition congruence | ]);
    (split; [ cbn; lia | ]);
    match goal with
    | |- exists keep, ?l = _ =>
        exists (fun t => existsb (Quality.issue_type_eqb t) l); reflexivity
    end.
Qed.

Section Confidence.

Import Quality Props.
Local Open Scope Q_scope.

Lemma div_unit_nonneg (a b : Z) :
  (0 <= a)%Z -> (0 < b)%Z -> 0 <= PyNum.min 1.0 (PyNum.div a b) <= 1.
Proof.
  intros Ha Hb. split.
  - apply min_one_nonneg. now apply div_nonneg.
  - eapply Qle_trans; [ apply min_le_l | discriminate ].
Qed.

(** The mean of numbers between 0 and 1 lies between 0 and 1. *)
Lemma mean_unit (l : list Q) :
  l <> [] -> Forall (fun x => 0 <= x <= 1) l ->
  0 <= PyNum.sum l / inject_Z (Z.of_nat (List.length l)) <= 1.
Proof.
  intros Hne H.
  assert (Hn : 0 < inject_Z (Z.of_nat (List.length l))).
  { change 0 with (inject_Z 0). rewrite <- Zlt_Qlt.
    destruct l; [ contradiction | cbn [List.length]; lia ]. }
  unfold PyNum.sum. split.
  - apply Qle_shift_div_l; [ exact Hn | ]. rewrite Qmult_0_l.
    apply penalty_nonneg; [ | apply Qle_refl ].
    eapply Forall_impl; [ | exact H ]. now intros x [Hx _].
  - apply Qle_shift_div_r; [ exact Hn | ].
    eapply Qle_trans; [ apply (@sum_bounded 1) | ].
    + eapply Forall_impl; [ | exact H ]. now intros x [_ Hx].
    + rewrite Qplus_0_l. apply Qle_refl.
Qed.

Lemma severities_mean (l : list QualityIssue) :
  severities_bounded l -> Forall (fun x => 0 <= x <= 1) (map severity l).
Proof.
  unfold severities_bounded. rewrite Forall_map. trivial.
Qed.

Lemma calculate_confidence_unit (issues : list QualityIssue)
  (text : string) :
  severities_bounded issues ->
  0 <= _calculate_confidence issues text <= 1.
Proof.
  intros H. unfold _calculate_confidence.
  pose proof (@div_unit_nonneg (PyStr.len text) 500) as Hl.
  assert (Hc : 0 <= match issues with
                    | [] => 0.7
                    | _ :: _ =>
                        PyNum.sum (map severity issues)
                        / inject_Z (Z.of_nat (List.length issues))
                    end <= 1).
  { destruct issues as [ | i r ]; [ split; discriminate | ].
    rewrite <- (length_map severity (i :: r)).
    apply mean_unit; [ discriminate | now apply severities_mean ]. }
  set (c := match issues with [] => 0.7 | _ => _ end) in *.
  set (f := PyNum.min 1.0 (PyNum.div (PyStr.len text) 500)) in *.
  destruct Hl as [Hl0 Hl1]; [ unfold PyStr.len; lia | lia | ].
  destruct Hc as [Hc0 Hc1].
  apply round2_unit.
  - apply min_one_nonneg. lra.
  - eapply Qle_trans; [ apply min_le_l | discriminate ].
Qed.

(** The issue that [max] selects is one of the issues, and none of them is
    more severe. *)
Lemma max_severity_spec (more : list QualityIssue) :
  forall best,
    In (max_severity best more) (best :: more)
    /\ Forall (fun j => severity j <= severity (max_severity best more))
              (best :: more).
Proof.
  induction more as [ | i r IH ]; intros best; cbn [max_severity].
  - split; [ now left | repeat constructor; apply Qle_refl ].
  - destruct (PyNum.ltb (severity best) (severity i)) eqn:E.
    + destruct (IH i) as [Hin Hall]. split.
      * right. exact Hin.
      * inversion Hall as [ | x l Hx Hl ]; subst.
        constructor; [ | constructor; assumption ].
        apply ltb_true in E. apply Qlt_le_weak in E.
        eapply Qle_trans; eassumption.
    + destruct (IH best) as [Hin Hall]. split.
      * destruct Hin as [Hin | Hin]; [ now left | right; now right ].
      * inversion Hall as [ | x l Hx Hl ]; subst.
        constructor; [ exact Hx | constructor; [ | exact Hl ] ].
        apply ltb_false in E. eapply Qle_trans; eassumption.
Qed.

(** The penalty of issues whose severities are at most 1. *)
Lemma penalty_bounded (issues : list QualityIssue) :
  severities_bounded issues ->
  PyNum.sum (map (fun i => severity i * 25) issues)
  <= 25 * inject_Z (Z.of_nat (List.length issues)).
Proof.
  intros H. unfold PyNum.sum.
  eapply Qle_trans; [ apply (@sum_bounded 25) | ].
  - rewrite Forall_map. eapply Forall_impl; [ | exact H ].
    intros i [_ Hi]. cbn beta. lra.
  - rewrite length_map, Qplus_0_l. apply Qle_refl.
Qed.

Lemma calculate_score_lower (issues : list QualityIssue) :
  severities_bounded issues ->
  (100 - 25 * Z.of_nat (List.length issues) <= _calculate_score issues)%Z.
Proof.
  intros H. unfold _calculate_score.
  destruct issues as [ | i r ]; [ cbn; lia | ].
  set (l := i :: r) in *.
  apply Z.le_trans
    with (PyNum.int (100 - PyNum.sum (map (fun i => severity i * 25) l)));
    [ | apply Z.le_max_r ].
  rewrite <- (int_inject (100 - 25 * Z.of_nat (List.length l))).
  apply int_le. unfold Z.sub. rewrite inject_Z_plus, inject_Z_opp, inject_Z_mult.
  pose proof (penalty_bounded H) as Hp.
  change (inject_Z 100) with 100. change (inject_Z 25) with 25. lra.
Qed.

End Confidence.

(** X4. With a quality threshold of 0 or less the checker asks for an
    escalation exactly when the response is empty or only whitespace: the
    shortcut for empty responses ignores the threshold, and no other
    response scores below 0. *)
Theorem nonpositive_threshold_escalates_only_blank :
  forall (self : Quality.QualityChecker) (text : string) (complexity : Z),
    (Quality.quality_threshold self <= 0)%Z ->
    Quality.should_escalate (Quality.check self text complexity)
    = Spec.blank text.
Proof.
  intros self text complexity Ht.
  pose proof (check_score_range self text complexity) as Hr.
  revert Hr. unfold Quality.check.
  destruct (Spec.blank text) eqn:B.
  - rewrite (strip_blank _ B). cbn [PyStr.is_empty].
    rewrite orb_true_r. reflexivity.
  - rewrite (strip_not_blank _ B), (not_blank_not_empty _ B).
    cbn [orb Quality.quality_score Quality.should_escalate]. intros Hr.
    apply Z.ltb_ge. lia.
Qed.

Lemma nonpositive_threshold_escalates_only_blank_witness :
  (Quality.quality_threshold (Quality.new_checker 0 50 None) <= 0)%Z
  /\ Quality.should_escalate
       (Quality.check (Quality.new_checker 0 50 None) "I don't know." 90)
     = Spec.blank "I don't know.".
Proof.
  split; [ cbn; lia | ].
  apply (nonpositive_threshold_escalates_only_blank
           (Quality.new_checker 0 50 None) "I don't know." 90).
  cbn. lia.
Defined.

(** X5. The confidence of every assessment lies between 0 and 1, so the
    constraint of the schema on [confidence] cannot fail. *)
Theorem quality_confidence_between_0_and_1 :
  forall (self : Quality.QualityChecker) (text : string) (complexity : Z),
    (0 <= Quality.confidence (Quality.check self text complexity) <= 1)%Q.
Proof.
  intros self text complexity. unfold Quality.check.
  destruct (PyStr.is_empty text || PyStr.is_empty (PyStr.strip text));
    cbn [Quality.confidence].
  - split; discriminate.
  - apply calculate_confidence_unit, run_detectors_bounded.
Qed.

(** X6. For a response that is not blank every issue costs at most 25
    points: the score is at least [100 - 25 * (number of issues)].  So with
    a threshold of 75 or less, a response with at most one issue is never
    escalated. *)
Theorem score_loses_at_most_25_per_issue :
  forall (self : Quality.QualityChecker) (text : string) (complexity : Z),
    Spec.blank text = false ->
    let a := Quality.check self text complexity in
    (100 - 25 * Z.of_nat (List.length (Quality.issues a))
     <= Quality.quality_score a)%Z
    /\ ((List.length (Quality.issues a) <= 1)%nat ->
        (Quality.quality_threshold self <= 75)%Z ->
        Quality.should_escalate a = false).
Proof.
  intros self text complexity B. unfold Quality.check.
  rewrite (strip_not_blank _ B), (not_blank_not_empty _ B).
  cbn [orb Quality.quality_score Quality.should_escalate Quality.issues].
  pose proof (calculate_score_lower
                (run_detectors_bounded self text complexity)) as H.
  split; [ exact H | ]. intros Hn Ht. apply Z.ltb_ge. lia.
Qed.

Lemma score_loses_at_most_25_per_issue_witness :
  let a := Quality.check (Quality.new_checker 60 50 None)
             "I cannot help with that. I must refuse." 0 in
  Spec.blank "I cannot help with that. I must refuse." = false
  /\ List.length (Quality.issues a) = 3%nat
  /\ (25 <= Quality.quality_score a)%Z.
Proof.
  split; [ reflexivity | ]. split; [ vm_compute; reflexivity | ].
  pose proof (score_loses_at_most_25_per_issue
                (Quality.new_checker 60 50 None)
                "I cannot help with that. I must refuse." 0 eq_refl) as H.
  cbv zeta in H. destruct H as [H _].
  replace (List.length _) with 3%nat in H by (vm_compute; reflexivity).
  exact H.
Defined.

(** X7. When [check] asks for an escalation of a response that is not
    blank, and found issues, the reason names the description of an issue
    of greatest severity. *)
Theorem escalation_reason_names_worst_issue :
  forall (self : Quality.QualityChecker) (text : string) (complexity : Z),
    Spec.blank text = false ->
    let a := Quality.check self text complexity in
    Quality.should_escalate a = true ->
    Quality.issues a <> [] ->
    exists main,
      In main (Quality.issues a)
      /\ Forall (fun j => (Quality.severity j <= Quality.severity main)%Q)
                (Quality.issues a)
      /\ Quality.escalation_reason a
         = Some ("Quality score " ++ PyStr.of_Z (Quality.quality_score a)
                 ++ " below threshold ("
                 ++ PyStr.of_Z (Quality.quality_threshold self)
                 ++ "). Main issue: " ++ Quality.description main)%string.
Proof.
  intros self text complexity B. unfold Quality.check.
  rewrite (strip_not_blank _ B), (not_blank_not_empty _ B).
  cbn [orb Quality.quality_score Quality.should_escalate Quality.issues
       Quality.escalation_reason].
  intros E Hne. rewrite E.
  destruct (Quality.run_detectors self text complexity) as [ | i r ];
    [ contradiction | ].
  destruct (max_severity_spec r i) as [Hin Hall].
  exists (Quality.max_severity i r). repeat split; assumption.
Qed.

Lemma escalation_reason_names_worst_issue_witness :
  let a := Quality.check (Quality.new_checker 60 50 None)
             "I cannot help with that. I must refuse." 0 in
  Spec.blank "I cannot help with that. I must refuse." = false
  /\ Quality.should_escalate a = true
  /\ exists main,
       In main (Quality.issues a)
       /\ Quality.escalation_reason a
          = Some ("Quality score " ++ PyStr.of_Z (Quality.quality_score a)
                  ++ " below threshold (" ++ PyStr.of_Z 60
                  ++ "). Main issue: " ++ Quality.description main)%string.
Proof.
  split; [ reflexivity | ]. split; [ vm_compute; reflexivity | ].
  destruct (escalation_reason_names_worst_issue
              (Quality.new_checker 60 50 None)
              "I cannot help with that. I must refuse." 0 eq_refl)
    as (main & Hin & _ & Hr).
  - vm_compute. reflexivity.
  - vm_compute. discriminate.
  - exists main. split; [ exact Hin | exact Hr ].
Defined.

(* ================================================================== *)
(** * Further properties of the complexity analyzer *)

From Stdlib Require Import Permutation.

Section AnalyzerRange.

Import Analyzer Spec Props PyStr.
Local Open Scope Q_scope.

Lemma length_weight_upper (p : string) :
  weight (calculate_length_signal p) <= 0.9.
Proof.
  unfold calculate_length_signal. cbn [weight].
  repeat match goal with
         | |- context [Z.ltb ?a ?b] => destruct (Z.ltb a b)
         end;
    try discriminate.
  apply min_le_l.
Qed.

Lemma length_weight_lower (p : string) :
  0.1 <= weight (calculate_length_signal p).
Proof.
  unfold calculate_length_signal. cbn [weight].
  unfold very_short, short, medium_length, long, very_long.
  repeat match goal with
         | |- context [Z.ltb ?a ?b] => destruct (Z.ltb_spec a b)
         end;
    try discriminate.
  apply long_weight_bounds; [ lia | discriminate ].
Qed.

Lemma aggregate_signals_unit (d : list DetectedSignal) :
  aggregate_signals d <= 1.
Proof.
  unfold aggregate_signals. destruct d; [ discriminate | ].
  eapply Qle_trans; [ apply min_le_l | discriminate ].
Qed.

Lemma calculate_score_upper (self : PromptAnalyzer)
  (k c m p : list DetectedSignal) (l : DetectedSignal) :
  (_calculate_score self k c m p l <= 100)%Z.
Proof.
  unfold _calculate_score.
  apply Z.le_trans with (PyNum.int (inject_Z 100));
    [ apply int_le, min_le_l | rewrite int_inject; lia ].
Qed.

(** With the weights of [constants.py] the categories add up to 99 at
    most. *)
Lemma default_score_upper (k c m p : list DetectedSignal)
  (l : DetectedSignal) :
  0 <= weight l <= 0.9 ->
  Forall (fun s => 0 <= weight s) k -> Forall (fun s => 0 <= weight s) c ->
  Forall (fun s => 0 <= weight s) m -> Forall (fun s => 0 <= weight s) p ->
  (0 <= _calculate_score default_analyzer k c m p l <= 99)%Z.
Proof.
  intros [Hl0 Hl] Hk Hc Hm Hp. split.
  - apply calculate_score_nonneg;
      [ repeat split; discriminate | | | | | exact Hl0 ];
      now apply aggregate_signals_nonneg.
  - unfold _calculate_score.
    cbn [weights default_analyzer SIGNAL_WEIGHTS w_keyword w_code w_math
         w_multipart w_length].
    pose proof (aggregate_signals_unit k).
    pose proof (aggregate_signals_unit c).
    pose proof (aggregate_signals_unit m).
    pose proof (aggregate_signals_unit p).
    apply Z.le_trans with (PyNum.int (inject_Z 99));
      [ apply int_le | rewrite int_inject; lia ].
    eapply Qle_trans; [ apply min_le_r | ].
    change (inject_Z 99) with 99. lra.
Qed.

Lemma keywords_bounded (text : string) :
  weights_bounded (detect_reasoning_keywords text).
Proof.
  apply Forall_forall. intros s Hs. unfold detect_reasoning_keywords in Hs.
  apply in_flat_map in Hs as ([level keywords] & _ & Hs).
  apply in_flat_map in Hs as (keyword & _ & Hs).
  apply in_map_iff in Hs as (m & <- & _). cbn.
  destruct level; split; discriminate.
Qed.

Lemma code_bounded (text : string) :
  weights_bounded (detect_code_blocks text).
Proof.
  apply Forall_forall. intros s Hs. unfold detect_code_blocks in Hs.
  apply in_flat_map in Hs as (pattern & _ & Hs).
  apply in_map_iff in Hs as (m & <- & _). cbn. split; discriminate.
Qed.

Lemma math_bounded (text : string) :
  weights_bounded (detect_math_expressions text).
Proof.
  apply Forall_forall. intros s Hs. unfold detect_math_expressions in Hs.
  apply in_flat_map in Hs as (pattern & _ & Hs).
  apply in_map_iff in Hs as (m & <- & _). cbn. split; discriminate.
Qed.

Lemma multipart_bounded (text : string) :
  weights_bounded (detect_multipart_questions text).
Proof.
  apply Forall_forall. intros s Hs. unfold detect_multipart_questions in Hs.
  apply in_flat_map in Hs as (pattern & _ & Hs).
  apply in_map_iff in Hs as (m & <- & _). cbn. split; discriminate.
Qed.

Lemma length_bounded (text : string) :
  0 <= weight (calculate_length_signal text) <= 1.
Proof.
  split; [ apply length_weight_nonneg | ].
  eapply Qle_trans; [ apply length_weight_upper | discriminate ].
Qed.

Lemma deduplicate_forall (P : DetectedSignal -> Prop)
  (l : list DetectedSignal) :
  Forall P l -> Forall P (deduplicate_signals l).
Proof.
  intros H. destruct (deduplicate_signals_spec l) as (Hin & _ & _).
  rewrite Forall_forall in *. intros s Hs. apply H, Hin, Hs.
Qed.

Lemma calculate_confidence_range (signals : list DetectedSignal)
  (score : Z) :
  weights_bounded signals -> (0 <= score <= 100)%Z ->
  0 <= _calculate_confidence signals score <= 1.
Proof.
  intros Hw Hs. unfold _calculate_confidence.
  destruct signals as [ | s r ]; [ split; discriminate | ].
  set (l := s :: r) in *.
  assert (Ha : 0 <= PyNum.sum (map weight l)
                    / inject_Z (Z.of_nat (List.length l)) <= 1).
  { rewrite <- (length_map weight l).
    apply mean_unit; [ discriminate | ].
    unfold weights_bounded in Hw. now rewrite Forall_map. }
  assert (Hc : 0 <= PyNum.min 1.0 (PyNum.div (Z.of_nat (List.length l)) 5)
               <= 1) by (apply div_unit_nonneg; lia).
  assert (He : 0 <= PyNum.div (Z.abs (score - 50)) 50 <= 1).
  { split; [ apply div_nonneg; lia | ].
    apply Qle_trans with (PyNum.div 50 50); [ apply div_le; lia | ].
    discriminate. }
  destruct Ha, Hc, He. apply round2_unit; lra.
Qed.

End AnalyzerRange.

Section DeduplicateTwice.

Import Analyzer Spec.

Lemma seen_update_fresh (seen : list (Key * DetectedSignal)) (key : Key)
  (signal : DetectedSignal) :
  ~ In key (map fst seen) ->
  seen_update seen key signal = seen ++ [(key, signal)].
Proof.
  induction seen as [ | [k old] r IH ]; intros H; [ reflexivity | ].
  cbn [seen_update]. cbn in H.
  destruct (key_eqb k key) eqn:E.
  - apply key_eqb_eq in E. tauto.
  - rewrite IH by tauto. reflexivity.
Qed.

Lemma seen_fold_fresh (kept : list DetectedSignal) :
  forall seen,
    NoDup (map key_of kept) ->
    (forall s, In s kept -> ~ In (key_of s) (map fst seen)) ->
    fold_left (fun seen signal => seen_update seen (key_of signal) signal)
              kept seen
    = seen ++ map (fun s => (key_of s, s)) kept.
Proof.
  induction kept as [ | s r IH ]; intros seen Hnd Hfresh.
  - cbn. now rewrite app_nil_r.
  - cbn [fold_left map]. inversion Hnd as [ | k ks Hk Hks ]; subst.
    rewrite seen_update_fresh by (apply Hfresh; now left).
    rewrite IH; [ now rewrite <- app_assoc | exact Hks | ].
    intros s' Hs'. rewrite map_app, in_app_iff. cbn.
    intros [Hin | [Heq | []]].
    + apply (Hfresh s'); [ now right | exact Hin ].
    + apply Hk. rewrite Heq. now apply in_map.
Qed.

Lemma seen_update_length (seen : list (Key * DetectedSignal)) (key : Key)
  (signal : DetectedSignal) :
  (List.length (seen_update seen key signal) <= S (List.length seen))%nat.
Proof.
  induction seen as [ | [k old] r IH ]; cbn; [ lia | ].
  destruct (key_eqb k key); [ destruct (PyNum.ltb _ _); cbn; lia | ].
  cbn. lia.
Qed.

Lemma seen_fold_length (signals : list DetectedSignal) :
  forall seen,
    (List.length
       (fold_left (fun seen signal => seen_update seen (key_of signal) signal)
                  signals seen)
     <= List.length seen + List.length signals)%nat.
Proof.
  induction signals as [ | s r IH ]; intros seen; cbn [fold_left].
  - cbn. lia.
  - eapply Nat.le_trans; [ apply IH | ].
    pose proof (seen_update_length seen (key_of s) s). cbn. lia.
Qed.

End DeduplicateTwice.

Section OrderOfSignals.

Import Analyzer Spec.
Local Open Scope Q_scope.

Lemma count_ge_perm (x : Q) (l l' : list Q) :
  Permutation l l' -> count_ge x l = count_ge x l'.
Proof.
  induction 1 as [ | y l l' _ IH | y z l | l l' l'' _ IH1 _ IH2 ].
  - reflexivity.
  - rewrite !count_ge_cons. now rewrite IH.
  - rewrite !count_ge_cons. lia.
  - congruence.
Qed.

Lemma le_list_antisym (a b : list Q) :
  le_list a b -> le_list b a -> Forall2 Qeq a b.
Proof.
  induction 1 as [ b | x y l l' Hxy _ IH ]; intros H.
  - inversion H; subst. constructor.
  - inversion H as [ | y' x' m m' Hyx Hm ]; subst.
    constructor; [ now apply Qle_antisym | now apply IH ].
Qed.

Lemma firstn_forall2 (n : nat) (a b : list Q) :
  Forall2 Qeq a b -> Forall2 Qeq (firstn n a) (firstn n b).
Proof.
  intros H. revert n. induction H as [ | x y l l' Hxy _ IH ]; intros n.
  - rewrite !firstn_nil. constructor.
  - destruct n; cbn; constructor; [ exact Hxy | apply IH ].
Qed.

Lemma decay_loop_eq (ws ws' : list Q) :
  Forall2 Qeq ws ws' ->
  forall (i : nat) (total total' : Q),
    total == total' -> decay_loop i ws total == decay_loop i ws' total'.
Proof.
  induction 1 as [ | x y l l' Hxy _ IH ]; intros i total total' Ht.
  - exact Ht.
  - cbn [decay_loop]. apply IH. now rewrite Hxy, Ht.
Qed.

Lemma min_eq (c x y : Q) : x == y -> PyNum.min c x == PyNum.min c y.
Proof.
  intros H. apply Qle_antisym; apply min_le_compat; rewrite H;
    apply Qle_refl.
Qed.

Lemma sorted_desc_perm (l l' : list Q) :
  Permutation l l' -> Forall2 Qeq (sorted_desc l) (sorted_desc l').
Proof.
  intros H. apply le_list_antisym; apply descending_le_list;
    try apply sorted_desc_descending;
    intros x; rewrite !count_ge_sorted;
    [ rewrite (count_ge_perm x H) | rewrite (count_ge_perm x H) ];
    apply Nat.le_refl.
Qed.

Lemma signal_types_app (t : SignalType) (l : list DetectedSignal) :
  Forall (fun s => signal_type s = t) l ->
  forall s, In s l -> fst (key_of s) = t.
Proof. intros H s Hs. rewrite Forall_forall in H. now apply H. Qed.

Lemma keywords_type (text : string) :
  Forall (fun s => signal_type s = REASONING_KEYWORD)
         (detect_reasoning_keywords text).
Proof.
  apply Forall_forall. intros s Hs. unfold detect_reasoning_keywords in Hs.
  apply in_flat_map in Hs as ([level keywords] & _ & Hs).
  apply in_flat_map in Hs as (keyword & _ & Hs).
  apply in_map_iff in Hs as (m & <- & _). reflexivity.
Qed.

Lemma code_type (text : string) :
  Forall (fun s => signal_type s = CODE_BLOCK) (detect_code_blocks text).
Proof.
  apply Forall_forall. intros s Hs. unfold detect_code_blocks in Hs.
  apply in_flat_map in Hs as (pattern & _ & Hs).
  apply in_map_iff in Hs as (m & <- & _). reflexivity.
Qed.

Lemma math_type (text : string) :
  Forall (fun s => signal_type s = MATH_EXPRESSION)
         (detect_math_expressions text).
Proof.
  apply Forall_forall. intros s Hs. unfold detect_math_expressions in Hs.
  apply in_flat_map in Hs as (pattern & _ & Hs).
  apply in_map_iff in Hs as (m & <- & _). reflexivity.
Qed.

Lemma multipart_type (text : string) :
  Forall (fun s => signal_type s = MULTIPART_QUESTION)
         (detect_multipart_questions text).
Proof.
  apply Forall_forall. intros s Hs. unfold detect_multipart_questions in Hs.
  apply in_flat_map in Hs as (pattern & _ & Hs).
  apply in_map_iff in Hs as (m & <- & _). reflexivity.
Qed.

(** Lists of signals of two different types have no key in common. *)
Lemma keys_apart (t t' : SignalType) (l l' : list DetectedSignal) :
  t <> t' ->
  Forall (fun s => signal_type s = t) l ->
  Forall (fun s => signal_type s = t') l' ->
  forall k, In k (map key_of l) -> ~ In k (map key_of l').
Proof.
  intros Hne Hl Hl' k Hk Hk'.
  apply in_map_iff in Hk as (s & <- & Hs).
  apply in_map_iff in Hk' as (s' & Heq & Hs').
  rewrite Forall_forall in Hl, Hl'.
  apply Hne. rewrite <- (Hl s Hs), <- (Hl' s' Hs').
  unfold key_of in Heq. congruence.
Qed.

Lemma nodup_app (A : Type) (l l' : list A) :
  NoDup l -> NoDup l' -> (forall a, In a l -> ~ In a l') ->
  NoDup (l ++ l').
Proof.
  induction l as [ | x r IH ]; intros Hl Hl' H; [ exact Hl' | ].
  inversion Hl as [ | y ys Hx Hr ]; subst. cbn. constructor.
  - rewrite in_app_iff. intros [Hin | Hin]; [ now apply Hx | ].
    apply (H x); [ now left | exact Hin ].
  - apply IH; [ exact Hr | exact Hl' | ].
    intros a Ha. apply H. now right.
Qed.

End OrderOfSignals.

(** X8. Whatever the prompt, an analyzer whose category weights are not
    negative returns a score between 0 and 100 and a confidence between 0
    and 1, so the constraints of the schema on [ComplexityAnalysis] cannot
    fail. *)
Theorem analysis_score_and_confidence_in_range :
  forall (self : Analyzer.PromptAnalyzer) (prompt : string),
    Spec.nonneg_weights (Analyzer.weights self) ->
    let a := Analyzer.analyze self prompt in
    (0 <= Analyzer.complexity_score a <= 100)%Z
    /\ (0 <= Analyzer.confidence a <= 1)%Q.
Proof.
  intros self prompt Hw.
  unfold Analyzer.analyze, Analyzer.analyze_with.
  destruct (PyStr.is_empty prompt || PyStr.is_empty (PyStr.strip prompt)).
  - cbn. split; [ lia | split; discriminate ].
  - cbn [Analyzer.signals_module Analyzer.keywords_of Analyzer.code_of
         Analyzer.math_of Analyzer.multipart_of Analyzer.length_of
         Analyzer.complexity_score Analyzer.confidence].
    assert (Hs : (0 <= Analyzer._calculate_score self
                    (Analyzer.deduplicate_signals
                       (Analyzer.detect_reasoning_keywords prompt))
                    (Analyzer.deduplicate_signals
                       (Analyzer.detect_code_blocks prompt))
                    (Analyzer.deduplicate_signals
                       (Analyzer.detect_math_expressions prompt))
                    (Analyzer.deduplicate_signals
                       (Analyzer.detect_multipart_questions prompt))
                    (Analyzer.calculate_length_signal prompt) <= 100)%Z).
    { split; [ | apply calculate_score_upper ].
      apply calculate_score_nonneg;
        [ exact Hw | | | | | apply length_weight_nonneg ];
        apply aggregate_signals_nonneg, deduplicate_nonneg.
      - apply keywords_nonneg.
      - apply code_nonneg.
      - apply math_nonneg.
      - apply multipart_nonneg. }
    split; [ exact Hs | ].
    apply calculate_confidence_range; [ | exact Hs ].
    unfold Props.weights_bounded. rewrite !Forall_app. repeat split.
    + apply deduplicate_forall, keywords_bounded.
    + apply deduplicate_forall, code_bounded.
    + apply deduplicate_forall, math_bounded.
    + apply deduplicate_forall, multipart_bounded.
    + constructor; [ apply length_bounded | constructor ].
Qed.

Lemma analysis_score_and_confidence_in_range_witness :
  let a := Analyzer.analyze Analyzer.default_analyzer
             "Prove step by step that 2 + 2 = 4" in
  Spec.nonneg_weights (Analyzer.weights Analyzer.default_analyzer)
  /\ (0 <= Analyzer.complexity_score a <= 100)%Z
  /\ (0 <= Analyzer.confidence a <= 1)%Q.
Proof.
  assert (H : Spec.nonneg_weights
                (Analyzer.weights Analyzer.default_analyzer))
    by (repeat split; discriminate).
  split; [ exact H | ].
  exact (analysis_score_and_confidence_in_range Analyzer.default_analyzer
           "Prove step by step that 2 + 2 = 4" H).
Defined.

(** X9. With the category weights of [constants.py] no prompt scores more
    than 99: the length signal weighs 0.9 at most, so the categories never
    add up to 1. *)
Theorem default_analyzer_never_scores_100 :
  forall prompt : string,
    (Analyzer.complexity_score
       (Analyzer.analyze Analyzer.default_analyzer prompt) <= 99)%Z.
Proof.
  intros prompt. unfold Analyzer.analyze, Analyzer.analyze_with.
  destruct (PyStr.is_empty prompt || PyStr.is_empty (PyStr.strip prompt)).
  - cbn. lia.
  - cbn [Analyzer.signals_module Analyzer.keywords_of Analyzer.code_of
         Analyzer.math_of Analyzer.multipart_of Analyzer.length_of
         Analyzer.complexity_score].
    apply default_score_upper.
    + split; [ apply length_weight_nonneg | apply length_weight_upper ].
    + apply deduplicate_nonneg, keywords_nonneg.
    + apply deduplicate_nonneg, code_nonneg.
    + apply deduplicate_nonneg, math_nonneg.
    + apply deduplicate_nonneg, multipart_nonneg.
Qed.

(** X10. Deduplicating a list of signals a second time changes nothing, and
    the deduplicated list is never longer than the list it comes from. *)
Theorem deduplicate_signals_idempotent :
  forall signals : list Analyzer.DetectedSignal,
    Analyzer.deduplicate_signals (Analyzer.deduplicate_signals signals)
    = Analyzer.deduplicate_signals signals
    /\ (List.length (Analyzer.deduplicate_signals signals)
        <= List.length signals)%nat.
Proof.
  intros signals. split.
  - destruct (deduplicate_signals_spec signals) as (_ & Hnd & _).
    unfold Analyzer.deduplicate_signals at 1.
    rewrite seen_fold_fresh; [ | exact Hnd | intros s _ [] ].
    cbn [app]. rewrite map_map. cbn [snd]. apply map_id.
  - unfold Analyzer.deduplicate_signals. rewrite length_map.
    apply (seen_fold_length signals []).
Qed.

(** X11. The aggregate of a list of signals does not depend on the order in
    which the signals were found. *)
Theorem aggregate_signals_order_independent :
  forall signals signals' : list Analyzer.DetectedSignal,
    Permutation signals signals' ->
    (Analyzer.aggregate_signals signals
     == Analyzer.aggregate_signals signals')%Q.
Proof.
  intros signals signals' H. unfold Analyzer.aggregate_signals.
  destruct signals as [ | s r ].
  - apply Permutation_nil in H. subst. apply Qeq_refl.
  - destruct signals' as [ | s' r' ];
      [ apply Permutation_sym, Permutation_nil in H; discriminate | ].
    apply min_eq, decay_loop_eq; [ | apply Qeq_refl ].
    apply firstn_forall2, sorted_desc_perm.
    now apply Permutation_map.
Qed.

Lemma aggregate_signals_order_independent_witness :
  let a := {| Analyzer.signal_type := Analyzer.CODE_BLOCK;
              Analyzer.value := "`x`";
              Analyzer.weight := 0.7;
              Analyzer.position := Some 0%Z |} in
  let b := {| Analyzer.signal_type := Analyzer.MATH_EXPRESSION;
              Analyzer.value := "1 + 1";
              Analyzer.weight := 0.8;
              Analyzer.position := Some 4%Z |} in
  Permutation [a; b] [b; a]
  /\ (Analyzer.aggregate_signals [a; b]
      == Analyzer.aggregate_signals [b; a])%Q.
Proof.
  intros a b. split; [ apply perm_swap | ].
  apply (aggregate_signals_order_independent (signals := [a; b])
           (signals' := [b; a])).
  apply perm_swap.
Defined.

Ltac apart Hk Hk' :=
  eapply keys_apart; [ | | | exact Hk | exact Hk' ];
  [ | eassumption | eassumption ]; discriminate.

(** X12. No two signals of an analysis have the same type and the same
    value up to case: deduplication within the categories, and the types of
    the categories, keep the keys apart. *)
Theorem analysis_signals_have_distinct_keys :
  forall (self : Analyzer.PromptAnalyzer) (prompt : string),
    NoDup (map Analyzer.key_of
             (Analyzer.detected_signals (Analyzer.analyze self prompt))).
Proof.
  intros self prompt. unfold Analyzer.analyze, Analyzer.analyze_with.
  destruct (PyStr.is_empty prompt || PyStr.is_empty (PyStr.strip prompt));
    [ constructor | ].
  cbn [Analyzer.signals_module Analyzer.keywords_of Analyzer.code_of
       Analyzer.math_of Analyzer.multipart_of Analyzer.length_of
       Analyzer.detected_signals].
  pose proof (deduplicate_forall (keywords_type prompt)) as Tk.
  pose proof (deduplicate_forall (code_type prompt)) as Tc.
  pose proof (deduplicate_forall (math_type prompt)) as Tm.
  pose proof (deduplicate_forall (multipart_type prompt)) as Tp.
  assert (Tl : Forall (fun s => Analyzer.signal_type s = Analyzer.LENGTH)
                      [Analyzer.calculate_length_signal prompt])
    by (repeat constructor).
  destruct (deduplicate_signals_spec
              (Analyzer.detect_reasoning_keywords prompt)) as (_ & Nk & _).
  destruct (deduplicate_signals_spec
              (Analyzer.detect_code_blocks prompt)) as (_ & Nc & _).
  destruct (deduplicate_signals_spec
              (Analyzer.detect_math_expressions prompt)) as (_ & Nm & _).
  destruct (deduplicate_signals_spec
              (Analyzer.detect_multipart_questions prompt)) as (_ & Np & _).
  rewrite !map_app.
  repeat (apply nodup_app; [ assumption | | ]).
  - repeat constructor. intros [].
  - intros k Hk Hk'. apart Hk Hk'.
  - intros k Hk Hk'. apply in_app_or in Hk' as [Hk' | Hk']; apart Hk Hk'.
  - intros k Hk Hk'.
    apply in_app_or in Hk' as [Hk' | Hk'];
      [ | apply in_app_or in Hk' as [Hk' | Hk'] ];
      apart Hk Hk'.
  - intros k Hk Hk'.
    apply in_app_or in Hk' as [Hk' | Hk'];
      [ | apply in_app_or in Hk' as [Hk' | Hk'];
          [ | apply in_app_or in Hk' as [Hk' | Hk'] ] ];
      apart Hk Hk'.
Qed.

(** X13. The weight of the length signal lies between 0.1 and 0.9 and never
    falls when the prompt gets longer. *)
Theorem length_weight_monotone_and_bounded :
  forall p p' : string,
    (PyStr.len p <= PyStr.len p')%Z ->
    (0.1 <= Analyzer.weight (Analyzer.calculate_length_signal p))%Q
    /\ (Analyzer.weight (Analyzer.calculate_length_signal p)
        <= Analyzer.weight (Analyzer.calculate_length_signal p'))%Q
    /\ (Analyzer.weight (Analyzer.calculate_length_signal p') <= 0.9)%Q.
Proof.
  intros p p' H. split; [ apply length_weight_lower | ].
  split; [ now apply length_weight_le | apply length_weight_upper ].
Qed.

Lemma length_weight_monotone_and_bounded_witness :
  (PyStr.len "short" <= PyStr.len "a longer prompt")%Z
  /\ (Analyzer.weight (Analyzer.calculate_length_signal "short")
      <= Analyzer.weight
           (Analyzer.calculate_length_signal "a longer prompt"))%Q.
Proof.
  split; [ vm_compute; discriminate | ].
  apply (length_weight_monotone_and_bounded "short" "a longer prompt").
  vm_compute. discriminate.
Defined.

(* ================================================================== *)
(** * Further properties of the routing strategies and the engine *)

(** X14. Whatever the strategy, a decision for the fast tier names the fast
    model and a decision for the complex tier the complex model; a quality
    check is only ever asked for the fast tier; and the decision carries the
    score and the confidence of the analysis. *)
Theorem decision_tier_matches_model :
  forall (strategy : Strategies.RoutingStrategy)
         (analysis : Analyzer.ComplexityAnalysis)
         (fast_model complex_model : string) (now : Z),
    let d := Strategies.decide strategy analysis fast_model complex_model
               now in
    (Router.tier d = Router.FAST -> Router.selected_model d = fast_model)
    /\ (Router.tier d = Router.COMPLEX ->
        Router.selected_model d = complex_model)
    /\ (Router.requires_quality_check d = true ->
        Router.tier d = Router.FAST)
    /\ Router.complexity_score d = Analyzer.complexity_score analysis
    /\ Router.confidence d = Analyzer.confidence analysis.
Proof.
  intros strategy analysis fast_model complex_model now.
  destruct strategy as [ s | s | | ]; cbn [Strategies.decide].
  - unfold Router.decide.
    destruct (_ >=? _)%Z; [ | destruct (_ <? _)%Z ]; cbn;
      repeat split; congruence.
  - unfold Strategies.decide_confidence_aware, Router.decide.
    destruct (_ && _);
      [ | destruct (_ >=? _)%Z; [ | destruct (_ <? _)%Z ] ]; cbn;
      repeat split; congruence.
  - cbn. repeat split; congruence.
  - cbn. repeat split; congruence.
Qed.

(** X15. The confidence-aware strategy differs from the threshold strategy
    with the same thresholds exactly on the borderline scores
    ([low <= score < high]) of an analysis whose confidence is below the
    confidence threshold: there it takes the complex model without quality
    check, where the threshold strategy takes the fast model with quality
    check.  Everywhere else the two decisions are the same. *)
Theorem confidence_aware_differs_on_borderline_only :
  forall (low high : Z) (confidence_threshold : Q)
         (analysis : Analyzer.ComplexityAnalysis)
         (fast_model complex_model : string) (now : Z),
    let c :=
      Strategies.decide_confidence_aware
        (Strategies.new_confidence_aware low high confidence_threshold)
        analysis fast_model complex_model now in
    let t :=
      Router.decide
        {| Router.low_threshold := low; Router.high_threshold := high |}
        analysis fast_model complex_model now in
    let borderline :=
      PyNum.ltb (Analyzer.confidence analysis) confidence_threshold
      && ((low <=? Analyzer.complexity_score analysis)%Z
          && (Analyzer.complexity_score analysis <? high)%Z) in
    (borderline = true ->
       Router.selected_model c = complex_model
       /\ Router.requires_quality_check c = false
       /\ Router.selected_model t = fast_model
       /\ Router.requires_quality_check t = true)
    /\ (borderline = false -> c = t).
Proof.
  intros low high ct analysis fast_model complex_model now.
  cbv zeta. unfold Strategies.decide_confidence_aware.
  cbn [Strategies.new_confidence_aware Strategies.low_threshold
       Strategies.high_threshold Strategies.confidence_threshold
       Strategies.fallback].
  split; intros H; rewrite H; [ | reflexivity ].
  apply andb_prop in H as [_ H]. apply andb_prop in H as [Hl Hh].
  apply Z.leb_le in Hl. apply Z.ltb_lt in Hh.
  cbn [Router.selected_model Router.requires_quality_check].
  pose proof (@decide_between
                {| Router.low_threshold := low;
                   Router.high_threshold := high |}
                analysis fast_model complex_model now Hl Hh)
    as (Hm & _ & Hq).
  auto.
Qed.

(** X16. An engine built from settings with the thresholds 30 and 70, and
    no strategy of its own, routes by the level of the analysis: the complex
    model exactly for the level high, the fast model with quality check
    exactly for the level medium, and the fast model without check for the
    level low. *)
Theorem default_engine_routes_by_level :
  forall (settings : Config.Settings)
         (analyzer : option Analyzer.PromptAnalyzer) (prompt : string)
         (now : Z),
    Config.complexity_threshold_low settings = 30%Z ->
    Config.complexity_threshold_high settings = 70%Z ->
    let engine := Engine.new_engine settings analyzer None in
    let a := fst (Engine.route_with_analysis engine prompt now) in
    let d := snd (Engine.route_with_analysis engine prompt now) in
    Engine.route engine prompt now = d
    /\ Engine.analyze engine prompt = a
    /\ match Analyzer.level a with
       | Analyzer.HIGH =>
           Router.selected_model d = Config.complex_model settings
           /\ Router.requires_quality_check d = false
       | Analyzer.MEDIUM =>
           Router.selected_model d = Config.fast_model settings
           /\ Router.requires_quality_check d = true
       | Analyzer.LOW =>
           Router.selected_model d = Config.fast_model settings
           /\ Router.requires_quality_check d = false
       end.
Proof.
  intros settings analyzer prompt now Hlow Hhigh. cbv zeta.
  unfold Engine.route_with_analysis, Engine.route, Engine.analyze.
  cbn [fst snd Engine.new_engine Engine.strategy Engine.settings
       Engine.analyzer Strategies.decide].
  rewrite Hlow, Hhigh.
  split; [ reflexivity | split; [ reflexivity | ] ].
  set (self := match analyzer with
               | Some a => a
               | None => Analyzer.default_analyzer
               end).
  assert (Hlevel : Analyzer.level (Analyzer.analyze self prompt)
                   = Analyzer._score_to_level
                       (Analyzer.complexity_score
                          (Analyzer.analyze self prompt))).
  { unfold Analyzer.analyze, Analyzer.analyze_with.
    destruct (PyStr.is_empty prompt || PyStr.is_empty (PyStr.strip prompt));
      reflexivity. }
  rewrite Hlevel. clear Hlevel.
  generalize (Analyzer.analyze self prompt). intros a.
  unfold Analyzer._score_to_level, Router.decide.
  cbn [Router.low_threshold Router.high_threshold].
  destruct (Z.ltb_spec (Analyzer.complexity_score a) 30);
    destruct (Z.ltb_spec (Analyzer.complexity_score a) 70);
    destruct (Z.geb_spec (Analyzer.complexity_score a) 70);
    try lia;
    cbn [Router.selected_model Router.requires_quality_check]; auto.
Qed.

Lemma default_engine_routes_by_level_witness :
  let engine := Engine.new_engine Config.defaults None None in
  Config.complexity_threshold_low Config.defaults = 30%Z
  /\ Config.complexity_threshold_high Config.defaults = 70%Z
  /\ Engine.route engine "What is the capital of France?" 0
     = snd (Engine.route_with_analysis engine
              "What is the capital of France?" 0).
Proof.
  intros engine. split; [ reflexivity | ]. split; [ reflexivity | ].
  pose proof (default_engine_routes_by_level Config.defaults None
                "What is the capital of France?" 0 eq_refl eq_refl) as H.
  cbv zeta in H. destruct H as [H _]. exact H.
Defined.

(* ================================================================== *)
(** * Further properties of the escalation handler *)

Section EscalationShape.

Import Escalation Spec Props.
Local Open Scope Q_scope.

Variable World : Type.
Variable LLMError : Type.
Variable generate :
  list LLM.Message -> string -> Q -> option Z -> World
  -> (LLMError + LLM.ChatResponse) * World.
Variable now : World -> Z * World.
Variable uuid4_hex : World -> string * World.

Variable self : EscalationHandler.
Variable messages : list LLM.Message.
Variable complexity_score : Z.
Variable temperature : Q.
Variable max_tokens : option Z.

Let complex := Config.complex_model (settings self).
Let check (r : LLM.ChatResponse) : Quality.QualityAssessment :=
  Quality.check (quality_checker self) (LLM.response_content r)
    complexity_score.

Lemma new_step_latency (s t : EscalationStep) :
  @new_step LLMError s = inr t -> 0 <= latency_ms s.
Proof.
  unfold new_step. destruct (negb _); [ discriminate | ].
  destruct (PyNum.ltb (latency_ms s) 0) eqn:E; [ discriminate | ].
  intros _. now apply ltb_false in E.
Qed.

Lemma new_step_raises (s : EscalationStep) (e : Raised LLMError) :
  (0 <= quality_score s <= 100)%Z ->
  @new_step LLMError s = inl e -> e = ValidationError "latency_ms".
Proof.
  intros Hs. unfold new_step.
  destruct (Z.leb_spec 0 (quality_score s)); [ | lia ].
  destruct (Z.leb_spec (quality_score s) 100); [ | lia ].
  cbn [andb negb]. destruct (PyNum.ltb _ _); congruence.
Qed.

(** One iteration of the loop that does not raise: the call of the
    back-end, the reading of the clock, and the four ways to go on. *)
Lemma attempts_loop_iteration (a : Z) (more : list Z) (l l' : Locals)
  (w w' : World) :
  attempts_loop generate now self messages complexity_score temperature
    max_tokens (a :: more) l w = (inr l', w') ->
  exists r w1 t w2,
    generate messages (l_current_model l) temperature max_tokens w
    = (inr r, w1)
    /\ now w1 = (t, w2)
    /\ 0 <= LLM.latency_ms r
    /\ let step :=
         recorded self complexity_score a (l_current_model l) r t in
       (Quality.should_escalate (check r) = false
        /\ l' = after l step r (l_loop_prevented l) (l_current_model l)
        /\ w' = w2)
       \/ (Quality.should_escalate (check r) = true
           /\ (max_depth self <= a)%Z
           /\ l' = after l step r true (l_current_model l) /\ w' = w2)
       \/ (Quality.should_escalate (check r) = true
           /\ (a < max_depth self)%Z
           /\ l_current_model l = complex
           /\ l' = after l step r (l_loop_prevented l) (l_current_model l)
           /\ w' = w2)
       \/ (Quality.should_escalate (check r) = true
           /\ (a < max_depth self)%Z
           /\ l_current_model l <> complex
           /\ attempts_loop generate now self messages complexity_score
                temperature max_tokens more
                (after l step r (l_loop_prevented l) complex) w2
              = (inr l', w')).
Proof.
  intros H. cbn [attempts_loop] in H.
  unfold bind at 1 in H. unfold call_generate in H.
  destruct (generate messages (l_current_model l) temperature max_tokens w)
    as [[e | r] w1] eqn:G; [ discriminate | ].
  unfold bind at 1 in H. unfold call_now in H.
  destruct (now w1) as [t w2] eqn:N.
  unfold bind at 1 in H. unfold checked in H.
  match type of H with
  | context [new_step ?s] =>
      destruct (@new_step LLMError s) as [e | step] eqn:S;
        [ discriminate | ];
      pose proof (new_step_latency _ S) as Hlat;
      apply new_step_inv in S; subst step
  end.
  cbn [latency_ms] in Hlat.
  exists r, w1, t, w2. repeat (split; [ assumption || reflexivity | ]).
  cbv zeta. unfold check, complex, ret, recorded, after in *.
  destruct (Quality.should_escalate _) eqn:Q; cbn [negb] in H.
  - right. destruct (Z.geb_spec a (max_depth self)) as [Hge | Hlt].
    + left. injection H as <- <-. repeat split; try reflexivity; lia.
    + right.
      destruct (String.eqb_spec (l_current_model l)
                  (Config.complex_model (settings self))) as [Heq | Hne].
      * left. injection H as <- <-.
        repeat split; first [ assumption | reflexivity ].
      * right. repeat split; first [ assumption | reflexivity ].
  - left. injection H as <- <-. repeat split.
Qed.

Lemma range_first (n : Z) :
  (1 <= n)%Z -> exists rest, range n = 0%Z :: rest.
Proof.
  intros H. unfold range.
  destruct (Z.to_nat n) as [ | k ] eqn:E; [ lia | ].
  cbn. eexists. reflexivity.
Qed.

Lemma range_second (n : Z) :
  (2 <= n)%Z -> exists rest, range n = 0%Z :: 1%Z :: rest.
Proof.
  intros H. unfold range.
  destruct (Z.to_nat n) as [ | [ | k ] ] eqn:E; [ lia | lia | ].
  cbn. eexists. reflexivity.
Qed.

(** What a returned chain looks like: one step, or the step of the initial
    model followed by the step of the complex model. *)
Lemma handle_with_escalation_shape (initial_model : string) (w w' : World)
  (response : LLM.ChatResponse) (chain : EscalationChain) :
  handle_with_escalation generate now uuid4_hex self messages initial_model
    complexity_score temperature max_tokens w = (inr (response, chain), w') ->
  exists r1 w1 t1 w2,
    generate messages initial_model temperature max_tokens
      (snd (uuid4_hex w)) = (inr r1, w1)
    /\ now w1 = (t1, w2)
    /\ 0 <= LLM.latency_ms r1
    /\ request_id chain
       = ("req-" ++ PyStr.take 8 (fst (uuid4_hex w)))%string
    /\ final_response chain = LLM.response_content response
    /\ let s1 := recorded self complexity_score 0 initial_model r1 t1 in
       (escalated s1 = false
        /\ steps chain = [s1] /\ response = r1
        /\ final_model chain = initial_model
        /\ total_latency_ms chain = 0.0 + LLM.latency_ms r1
        /\ escalation_prevented_loop chain
           = Quality.should_escalate (check r1)
             && (max_depth self <=? 0)%Z
        /\ w' = w2)
       \/ (escalated s1 = true
           /\ exists r2 w3 t2,
                generate messages complex temperature max_tokens w2
                = (inr r2, w3)
                /\ now w3 = (t2, w')
                /\ 0 <= LLM.latency_ms r2
                /\ steps chain
                   = [s1; recorded self complexity_score 1 complex r2 t2]
                /\ response = r2
                /\ final_model chain = complex
                /\ total_latency_ms chain
                   = 0.0 + LLM.latency_ms r1 + LLM.latency_ms r2
                /\ escalation_prevented_loop chain
                   = Quality.should_escalate (check r2)
                     && (max_depth self <=? 1)%Z).
Proof.
  intros Hrun. unfold handle_with_escalation in Hrun.
  unfold bind at 1 in Hrun. unfold call_uuid4_hex in Hrun.
  destruct (uuid4_hex w) as [hex w0] eqn:Hhex.
  unfold bind at 1 in Hrun.
  match type of Hrun with
  | context [attempts_loop _ _ _ _ _ _ _ ?a ?l ?w] =>
      destruct (attempts_loop generate now self messages complexity_score
                  temperature max_tokens a l w)
        as [[e | l'] wl] eqn:Hloop; [ discriminate | ]
  end.
  unfold bind at 1 in Hrun. unfold checked in Hrun.
  match type of Hrun with
  | context [new_chain ?c] =>
      destruct (@new_chain LLMError c) as [e | chain'] eqn:Hchain;
        [ discriminate | apply new_chain_inv in Hchain as [-> Hone] ]
  end.
  destruct (l_final_response l') as [final | ] eqn:Hfinal;
    [ | discriminate ].
  unfold ret in Hrun. injection Hrun as <- <- <-.
  cbn [total_attempts steps final_model total_latency_ms request_id
       final_response escalation_prevented_loop fst snd] in *.
  destruct (range (max_depth self + 1)) as [ | a more ] eqn:Hrange.
  { cbn in Hloop. unfold ret in Hloop. injection Hloop as <- _.
    cbn in Hone. lia. }
  assert (Hdepth : (0 <= max_depth self)%Z).
  { destruct (Z.leb_spec 0 (max_depth self)) as [ | Hlt ];
      [ assumption | ].
    pose proof (range_length (max_depth self + 1)) as Hlen.
    rewrite Hrange in Hlen. cbn in Hlen. lia. }
  destruct (range_first (n := max_depth self + 1)) as [rest Hr];
    [ lia | ].
  rewrite Hr in Hrange. injection Hrange as <- <-.
  apply attempts_loop_iteration in Hloop
    as (r1 & w1 & t1 & w2 & G1 & N1 & L1 & Hcases).
  cbn [l_current_model l_loop_prevented] in *.
  exists r1, w1, t1, w2.
  repeat (split; [ assumption || reflexivity | ]).
  cbv zeta. unfold recorded at 1 3. cbn [escalated].
  fold (check r1). fold complex.
  destruct Hcases as [(Q1 & -> & ->)
                     | [(Q1 & M1 & -> & ->)
                       | [(Q1 & M1 & C1 & -> & ->)
                         | (Q1 & M1 & C1 & Hloop)]]];
    cbn [after l_steps l_current_model l_total_latency_ms l_loop_prevented
         l_final_response app] in *.
  - injection Hfinal as <-. left.
    rewrite Q1. repeat split.
  - injection Hfinal as <-. left.
    rewrite Q1. destruct (Z.ltb_spec 0 (max_depth self)); [ lia | ].
    destruct (Z.leb_spec (max_depth self) 0); [ | lia ].
    cbn. repeat split.
  - injection Hfinal as <-. left.
    rewrite Q1, C1, String.eqb_refl, andb_false_r.
    destruct (Z.leb_spec (max_depth self) 0); [ lia | ].
    repeat split.
  - destruct (range_second (n := max_depth self + 1)) as [rest' Hr'];
      [ lia | ].
    rewrite Hr' in Hr. injection Hr as <-.
    apply attempts_loop_iteration in Hloop
      as (r2 & w3 & t2 & w4 & G2 & N2 & L2 & Hcases).
    cbn [after l_steps l_current_model l_total_latency_ms l_loop_prevented
         l_final_response app] in *.
    fold complex in G2.
    assert (Hl' : l_final_response l' = Some r2
                  /\ l_steps l'
                     = [recorded self complexity_score 0 initial_model r1 t1;
                        recorded self complexity_score 1 complex r2 t2]
                  /\ l_current_model l' = complex
                  /\ l_total_latency_ms l'
                     = 0.0 + LLM.latency_ms r1 + LLM.latency_ms r2
                  /\ l_loop_prevented l'
                     = Quality.should_escalate (check r2)
                       && (max_depth self <=? 1)%Z
                  /\ wl = w4).
    { fold (check r2) in Hcases.
      destruct Hcases as [(Q2 & -> & ->)
                         | [(Q2 & M2 & -> & ->)
                           | [(Q2 & M2 & C2 & -> & ->)
                             | (_ & _ & C2 & _)]]];
        [ | | | now contradiction C2 ];
        cbn [after l_steps l_current_model l_total_latency_ms
             l_loop_prevented l_final_response app];
        rewrite Q2; repeat split.
      - destruct (Z.leb_spec (max_depth self) 1); [ reflexivity | lia ].
      - destruct (Z.leb_spec (max_depth self) 1); [ lia | reflexivity ]. }
    destruct Hl' as (F & S & C & T & P & ->).
    rewrite F in Hfinal. injection Hfinal as <-. right.
    assert (Hne : (initial_model =? complex)%string = false)
      by (now apply String.eqb_neq).
    rewrite Q1, Hne. destruct (Z.ltb_spec 0 (max_depth self)); [ | lia ].
    split; [ reflexivity | ].
    exists r2, w3, t2. rewrite S, C, T, P. repeat split; assumption.
Qed.

End EscalationShape.

Section EscalationErrors.

Import Escalation Spec Props.
Local Open Scope Q_scope.

Variable World : Type.
Variable LLMError : Type.
Variable generate :
  list LLM.Message -> string -> Q -> option Z -> World
  -> (LLMError + LLM.ChatResponse) * World.
Variable now : World -> Z * World.
Variable uuid4_hex : World -> string * World.

Variable self : EscalationHandler.
Variable messages : list LLM.Message.
Variable complexity_score : Z.
Variable temperature : Q.
Variable max_tokens : option Z.

(** What the loop can raise: the error of the back-end, or the refusal of a
    step for the latency of the response. *)
Lemma attempts_loop_raises (attempts : list Z) :
  forall (l : Locals) (w w' : World) (e : Raised LLMError),
    attempts_loop generate now self messages complexity_score temperature
      max_tokens attempts l w = (inl e, w') ->
    (exists b, e = BackendError b) \/ e = ValidationError "latency_ms".
Proof.
  induction attempts as [ | a more IH ]; intros l w w' e H.
  - discriminate.
  - cbn [attempts_loop] in H.
    unfold bind at 1 in H. unfold call_generate in H.
    destruct (generate messages (l_current_model l) temperature max_tokens
                w) as [[b | r] w1];
      [ injection H as <- _; left; eauto | ].
    unfold bind at 1 in H. unfold call_now in H.
    destruct (now w1) as [t w2].
    unfold bind at 1 in H. unfold checked in H.
    match type of H with
    | context [new_step ?s] =>
        destruct (@new_step LLMError s) as [e' | step] eqn:S
    end.
    + injection H as <- _. right.
      eapply new_step_raises; [ | exact S ].
      cbn [quality_score]. apply check_score_range.
    + unfold ret in H.
      destruct (Quality.should_escalate _); cbn [negb] in H;
        [ | discriminate ].
      destruct (_ >=? _)%Z; [ discriminate | ].
      destruct (String.eqb _ _); [ discriminate | ].
      eapply IH. exact H.
Qed.

Lemma attempts_loop_latency (attempts : list Z) :
  forall (l l' : Locals) (w w' : World),
    attempts_loop generate now self messages complexity_score temperature
      max_tokens attempts l w = (inr l', w') ->
    0 <= l_total_latency_ms l -> 0 <= l_total_latency_ms l'.
Proof.
  induction attempts as [ | a more IH ]; intros l l' w w' H Hl.
  - cbn in H. unfold ret in H. now injection H as <- _.
  - apply attempts_loop_iteration in H
      as (r & w1 & t & w2 & _ & _ & Hr & Hcases).
    cbv zeta in Hcases.
    assert (Hsum : 0 <= l_total_latency_ms l + LLM.latency_ms r)
      by now apply plus_nonneg.
    destruct Hcases as [(_ & -> & _)
                       | [(_ & _ & -> & _)
                         | [(_ & _ & _ & -> & _) | (_ & _ & _ & H)]]];
      try exact Hsum.
    apply IH in H; [ exact H | exact Hsum ].
Qed.

Lemma handle_with_escalation_raises (initial_model : string) (w w' : World)
  (e : Raised LLMError) :
  handle_with_escalation generate now uuid4_hex self messages initial_model
    complexity_score temperature max_tokens w = (inl e, w') ->
  (exists b, e = BackendError b)
  \/ e = ValidationError "latency_ms"
  \/ (e = ValidationError "total_attempts" /\ (max_depth self < 0)%Z).
Proof.
  intros Hrun. unfold handle_with_escalation in Hrun.
  unfold bind at 1 in Hrun. unfold call_uuid4_hex in Hrun.
  destruct (uuid4_hex w) as [hex w0].
  unfold bind at 1 in Hrun.
  match type of Hrun with
  | context [attempts_loop _ _ _ _ _ _ _ ?a ?l ?w] =>
      destruct (attempts_loop generate now self messages complexity_score
                  temperature max_tokens a l w)
        as [[e' | l'] wl] eqn:Hloop
  end.
  { injection Hrun as <- _.
    apply attempts_loop_raises in Hloop as [Hb | Hl]; auto. }
  pose proof (attempts_loop_latency _ _ _ Hloop) as Hlat.
  cbn [l_total_latency_ms] in Hlat.
  unfold bind at 1 in Hrun. unfold checked in Hrun.
  unfold new_chain in Hrun.
  cbn [total_attempts total_latency_ms] in Hrun.
  destruct (Z.ltb_spec (Z.of_nat (List.length (l_steps l'))) 1)
    as [Hnone | Hsome].
  - injection Hrun as <- _. right. right. split; [ reflexivity | ].
    destruct (Z.ltb_spec (max_depth self) 0) as [ | Hge ];
      [ assumption | exfalso ].
    destruct (range_first (n := max_depth self + 1)) as [rest Hr];
      [ lia | ].
    rewrite Hr in Hloop.
    apply attempts_loop_spec in Hloop;
      [ | discriminate
        | rewrite <- Hr, range_last by lia; lia ].
    destruct Hloop as (new & Hs & _ & Hshape & _).
    rewrite Hs in Hnone. cbn [l_steps app] in Hnone.
    destruct Hshape; cbn in Hnone; lia.
  - destruct (PyNum.ltb (l_total_latency_ms l') 0) eqn:E.
    + apply ltb_true in E. exfalso.
      apply (Qlt_irrefl 0). eapply Qle_lt_trans; [ | exact E ].
      apply Hlat. discriminate.
    + destruct (l_final_response l') eqn:F; [ discriminate | exfalso ].
      destruct (range (max_depth self + 1)) as [ | a more ] eqn:Hrange.
      * cbn in Hloop. unfold ret in Hloop. injection Hloop as <- _.
        cbn in Hsome. lia.
      * assert (Hpos : (0 < max_depth self + 1)%Z).
        { destruct (Z.ltb_spec 0 (max_depth self + 1)) as [ | Hle ];
            [ assumption | ].
          pose proof (range_length (max_depth self + 1)) as Hlen.
          rewrite Hrange in Hlen. cbn in Hlen. lia. }
        apply attempts_loop_spec in Hloop;
          [ | discriminate
            | rewrite <- Hrange, range_last by exact Hpos; lia ].
        destruct Hloop as (_ & _ & _ & _ & _ & Hf). now apply Hf.
Qed.

End EscalationErrors.

(** X17. A returned chain has one step or two, whatever [max_depth] is: the
    first step used the initial model; a second step exists only when the
    initial model is not the complex model and [max_depth] is at least 1,
    and it used the complex model, which is then the final model. *)
Theorem chain_has_at_most_two_steps :
  forall (World LLMError : Type) (generate : Props.Backend World LLMError)
         (now : World -> Z * World) (uuid4_hex : World -> string * World)
         (self : Escalation.EscalationHandler) (messages : list LLM.Message)
         (initial_model : string) (complexity_score : Z) (temperature : Q)
         (max_tokens : option Z) (w w' : World)
         (response : LLM.ChatResponse) (chain : Escalation.EscalationChain),
    Escalation.handle_with_escalation generate now uuid4_hex self messages
      initial_model complexity_score temperature max_tokens w
    = (inr (response, chain), w') ->
    (Escalation.total_attempts chain <= 2)%Z
    /\ match Escalation.steps chain with
       | [s1] =>
           Escalation.model_used s1 = initial_model
           /\ Escalation.final_model chain = initial_model
       | [s1; s2] =>
           Escalation.model_used s1 = initial_model
           /\ Escalation.model_used s2
              = Config.complex_model (Escalation.settings self)
           /\ Escalation.final_model chain
              = Config.complex_model (Escalation.settings self)
           /\ initial_model
              <> Config.complex_model (Escalation.settings self)
           /\ (1 <= Escalation.max_depth self)%Z
       | _ => False
       end.
Proof.
  intros World LLMError generate now uuid4_hex self messages initial_model
    complexity_score temperature max_tokens w w' response chain Hrun.
  destruct (handle_with_escalation_spec _ _ _ _ _ _ _ _ _ _ Hrun)
    as (_ & _ & Htotal & _).
  apply handle_with_escalation_shape in Hrun
    as (r1 & w1 & t1 & w2 & _ & _ & _ & _ & _ & Hcases).
  cbv zeta in Hcases. rewrite Htotal.
  destruct Hcases as [(_ & -> & _ & -> & _)
                     | (E & r2 & w3 & t2 & _ & _ & _ & -> & _ & -> & _)].
  - cbn. split; [ lia | auto ].
  - cbn [Props.recorded Escalation.escalated] in E.
    apply andb_prop in E as [E Hne]. apply andb_prop in E as [_ Hd].
    apply Z.ltb_lt in Hd. apply negb_true_iff, String.eqb_neq in Hne.
    cbn. split; [ lia | ]. repeat split; [ exact Hne | lia ].
Qed.

Lemma chain_has_at_most_two_steps_witness :
  exists response chain w',
    Demo.run = (inr (response, chain), w')
    /\ (Escalation.total_attempts chain <= 2)%Z.
Proof.
  destruct Demo.run as [[e | [response chain]] w'] eqn:Hrun;
    [ vm_compute in Hrun; discriminate | ].
  exists response, chain, w'. split; [ reflexivity | ].
  exact (proj1 (chain_has_at_most_two_steps _ _ _ _ _ _ _ _ _ _ Hrun)).
Defined.

(** X18. The response that [handle_with_escalation] returns is the one its
    last step records: the step holds the preview of its content, the score
    that [check] gives it, and its latency; the chain holds its content as
    [final_response]. *)
Theorem returned_response_is_last_step :
  forall (World LLMError : Type) (generate : Props.Backend World LLMError)
         (now : World -> Z * World) (uuid4_hex : World -> string * World)
         (self : Escalation.EscalationHandler) (messages : list LLM.Message)
         (initial_model : string) (complexity_score : Z) (temperature : Q)
         (max_tokens : option Z) (w w' : World)
         (response : LLM.ChatResponse) (chain : Escalation.EscalationChain),
    Escalation.handle_with_escalation generate now uuid4_hex self messages
      initial_model complexity_score temperature max_tokens w
    = (inr (response, chain), w') ->
    Escalation.final_response chain = LLM.response_content response
    /\ exists front last_step,
         Escalation.steps chain = front ++ [last_step]
         /\ Escalation.response_preview last_step
            = Escalation.preview (LLM.response_content response)
         /\ Escalation.quality_score last_step
            = Quality.quality_score
                (Quality.check (Escalation.quality_checker self)
                   (LLM.response_content response) complexity_score)
         /\ Escalation.latency_ms last_step = LLM.latency_ms response.
Proof.
  intros World LLMError generate now uuid4_hex self messages initial_model
    complexity_score temperature max_tokens w w' response chain Hrun.
  apply handle_with_escalation_shape in Hrun
    as (r1 & w1 & t1 & w2 & _ & _ & _ & _ & Hf & Hcases).
  split; [ exact Hf | ]. cbv zeta in Hcases.
  destruct Hcases as [(_ & -> & -> & _)
                     | (_ & r2 & w3 & t2 & _ & _ & _ & -> & -> & _)].
  - exists [ ]. eexists. split; [ reflexivity | ]. cbn. auto.
  - eexists [ _ ]. eexists. split; [ reflexivity | ]. cbn. auto.
Qed.

Lemma returned_response_is_last_step_witness :
  exists response chain w',
    Demo.run = (inr (response, chain), w')
    /\ Escalation.final_response chain = LLM.response_content response.
Proof.
  destruct Demo.run as [[e | [response chain]] w'] eqn:Hrun;
    [ vm_compute in Hrun; discriminate | ].
  exists response, chain, w'. split; [ reflexivity | ].
  exact (proj1 (returned_response_is_last_step _ _ _ _ _ _ _ _ _ _ Hrun)).
Defined.

(** X19. The handler escalates exactly when the answer of the initial model
    fails the quality check, [max_depth] is positive and the initial model
    is not the complex model; the chain then has two steps, else one. *)
Theorem escalates_iff_first_answer_fails :
  forall (World LLMError : Type) (generate : Props.Backend World LLMError)
         (now : World -> Z * World) (uuid4_hex : World -> string * World)
         (self : Escalation.EscalationHandler) (messages : list LLM.Message)
         (initial_model : string) (complexity_score : Z) (temperature : Q)
         (max_tokens : option Z) (w w' : World)
         (response : LLM.ChatResponse) (chain : Escalation.EscalationChain),
    Escalation.handle_with_escalation generate now uuid4_hex self messages
      initial_model complexity_score temperature max_tokens w
    = (inr (response, chain), w') ->
    exists first w1,
      generate messages initial_model temperature max_tokens
        (snd (uuid4_hex w)) = (inr first, w1)
      /\ (List.length (Escalation.steps chain) = 2%nat <->
          Quality.should_escalate
            (Quality.check (Escalation.quality_checker self)
               (LLM.response_content first) complexity_score) = true
          /\ (0 < Escalation.max_depth self)%Z
          /\ initial_model
             <> Config.complex_model (Escalation.settings self))
      /\ (List.length (Escalation.steps chain) <> 2%nat ->
          List.length (Escalation.steps chain) = 1%nat
          /\ response = first).
Proof.
  intros World LLMError generate now uuid4_hex self messages initial_model
    complexity_score temperature max_tokens w w' response chain Hrun.
  apply handle_with_escalation_shape in Hrun
    as (r1 & w1 & t1 & w2 & G & _ & _ & _ & _ & Hcases).
  exists r1, w1. split; [ exact G | ]. cbv zeta in Hcases.
  assert (Hesc :
            Escalation.escalated
              (Props.recorded self complexity_score 0 initial_model r1 t1)
            = true
            <-> Quality.should_escalate
                  (Quality.check (Escalation.quality_checker self)
                     (LLM.response_content r1) complexity_score) = true
                /\ (0 < Escalation.max_depth self)%Z
                /\ initial_model
                   <> Config.complex_model (Escalation.settings self)).
  { cbn [Props.recorded Escalation.escalated].
    rewrite !andb_true_iff, Z.ltb_lt, negb_true_iff, String.eqb_neq.
    tauto. }
  destruct Hcases as [(E & -> & -> & _)
                     | (E & r2 & w3 & t2 & _ & _ & _ & -> & _)].
  - split.
    + split; [ discriminate | ]. intros H. apply Hesc in H. congruence.
    + auto.
  - split.
    + split; [ intros _; now apply Hesc | reflexivity ].
    + intros H. now contradiction H.
Qed.

Lemma escalates_iff_first_answer_fails_witness :
  exists response chain w',
    Demo.run = (inr (response, chain), w')
    /\ exists first w1,
         Demo.generate Demo.messages (Config.fast_model Config.defaults)
           0.7 None (snd (Demo.uuid4_hex 0%nat)) = (inr first, w1)
         /\ Quality.should_escalate
              (Quality.check (Escalation.quality_checker Demo.handler)
                 (LLM.response_content first) 55) = true.
Proof.
  destruct Demo.run as [[e | [response chain]] w'] eqn:Hrun;
    [ vm_compute in Hrun; discriminate | ].
  exists response, chain, w'. split; [ reflexivity | ].
  destruct (escalates_iff_first_answer_fails _ _ _ _ _ _ _ _ _ _ Hrun)
    as (first & w1 & G & Hiff & _).
  exists first, w1. split; [ exact G | ].
  apply Hiff. vm_compute in Hrun. injection Hrun as _ <- _. reflexivity.
Defined.

(** X20. [escalation_prevented_loop] is set exactly when the returned
    response fails the quality check and the chain has [max_depth + 1]
    steps.  As a chain has at most two steps, the flag is never set when
    [max_depth] is 2 or more. *)
Theorem loop_prevented_iff_depth_exhausted :
  forall (World LLMError : Type) (generate : Props.Backend World LLMError)
         (now : World -> Z * World) (uuid4_hex : World -> string * World)
         (self : Escalation.EscalationHandler) (messages : list LLM.Message)
         (initial_model : string) (complexity_score : Z) (temperature : Q)
         (max_tokens : option Z) (w w' : World)
         (response : LLM.ChatResponse) (chain : Escalation.EscalationChain),
    Escalation.handle_with_escalation generate now uuid4_hex self messages
      initial_model complexity_score temperature max_tokens w
    = (inr (response, chain), w') ->
    (Escalation.escalation_prevented_loop chain = true <->
     Quality.should_escalate
       (Quality.check (Escalation.quality_checker self)
          (LLM.response_content response) complexity_score) = true
     /\ Escalation.total_attempts chain = (Escalation.max_depth self + 1)%Z)
    /\ ((2 <= Escalation.max_depth self)%Z ->
        Escalation.escalation_prevented_loop chain = false).
Proof.
  intros World LLMError generate now uuid4_hex self messages initial_model
    complexity_score temperature max_tokens w w' response chain Hrun.
  destruct (handle_with_escalation_spec _ _ _ _ _ _ _ _ _ _ Hrun)
    as (Hdepth & _ & Htotal & _).
  apply handle_with_escalation_shape in Hrun
    as (r1 & w1 & t1 & w2 & _ & _ & _ & _ & _ & Hcases).
  cbv zeta in Hcases. rewrite Htotal.
  destruct Hcases
    as [(_ & -> & -> & _ & _ & -> & _)
       | (E & r2 & w3 & t2 & _ & _ & _ & -> & -> & _ & _ & ->)].
  - cbn [List.length]. rewrite andb_true_iff, Z.leb_le. split.
    + split; intros [H1 H2]; split; try assumption; lia.
    + intros H. destruct (Z.leb_spec (Escalation.max_depth self) 0);
        [ lia | apply andb_false_r ].
  - cbn [Props.recorded Escalation.escalated] in E.
    apply andb_prop in E as [E _]. apply andb_prop in E as [_ Hd].
    apply Z.ltb_lt in Hd.
    cbn [List.length]. rewrite andb_true_iff, Z.leb_le. split.
    + split; intros [H1 H2]; split; try assumption; lia.
    + intros H. destruct (Z.leb_spec (Escalation.max_depth self) 1);
        [ lia | apply andb_false_r ].
Qed.

Lemma loop_prevented_iff_depth_exhausted_witness :
  exists response chain w',
    Demo.run = (inr (response, chain), w')
    /\ Escalation.escalation_prevented_loop chain = false.
Proof.
  destruct Demo.run as [[e | [response chain]] w'] eqn:Hrun;
    [ vm_compute in Hrun; discriminate | ].
  exists response, chain, w'. split; [ reflexivity | ].
  apply (proj2 (loop_prevented_iff_depth_exhausted _ _ _ _ _ _ _ _ _ _
                  Hrun)).
  vm_compute. discriminate.
Defined.

(** X21. [handle_with_escalation] raises nothing of its own as long as
    [max_depth] is not negative and no response has a negative latency: an
    error is the error of the back-end, the refusal of a step for a
    negative latency, or, for a negative [max_depth], the refusal of the
    chain for [total_attempts].  The final [assert] never fails, and no
    quality score or total latency is ever refused. *)
Theorem handler_raises_only_backend_or_input_errors :
  forall (World LLMError : Type) (generate : Props.Backend World LLMError)
         (now : World -> Z * World) (uuid4_hex : World -> string * World)
         (self : Escalation.EscalationHandler) (messages : list LLM.Message)
         (initial_model : string) (complexity_score : Z) (temperature : Q)
         (max_tokens : option Z) (w w' : World)
         (e : Escalation.Raised LLMError),
    Escalation.handle_with_escalation generate now uuid4_hex self messages
      initial_model complexity_score temperature max_tokens w
    = (inl e, w') ->
    (exists b, e = Escalation.BackendError b)
    \/ e = Escalation.ValidationError "latency_ms"
    \/ (e = Escalation.ValidationError "total_attempts"
        /\ (Escalation.max_depth self < 0)%Z).
Proof.
  intros World LLMError generate now uuid4_hex self messages initial_model
    complexity_score temperature max_tokens w w' e Hrun.
  eapply handle_with_escalation_raises. exact Hrun.
Qed.

Lemma handler_raises_only_backend_or_input_errors_witness :
  let self :=
    {| Escalation.settings := Config.defaults;
       Escalation.quality_checker := Quality.new_checker 60 50 None;
       Escalation.max_depth := -1 |} in
  exists e w',
    Escalation.handle_with_escalation Demo.generate Demo.now Demo.uuid4_hex
      self Demo.messages "gemini-2.0-flash" 55 0.7 None 0%nat = (inl e, w')
    /\ e = Escalation.ValidationError "total_attempts".
Proof.
  intros self.
  destruct (Escalation.handle_with_escalation Demo.generate Demo.now
              Demo.uuid4_hex self Demo.messages "gemini-2.0-flash" 55 0.7
              None 0%nat) as [[e | p] w'] eqn:Hrun;
    [ | vm_compute in Hrun; discriminate ].
  exists e, w'. split; [ reflexivity | ].
  destruct (handler_raises_only_backend_or_input_errors _ _ _ _ _ _ _ _ _ _
              Hrun) as [[b Hb] | [Hl | [Ht _]]].
  - subst e. vm_compute in Hrun. discriminate.
  - subst e. vm_compute in Hrun. discriminate.
  - exact Ht.
Defined.

(* ================================================================== *)
(** * Properties of the combination strategies and of the metrics record *)

Section TakeLength.

Import PyStr.



Lemma last_item_last (A : Type) (l : list A) (d : A) :
  l <> [] -> Combination.last_item l = inr (List.last l d).
Proof.
  intros H. unfold Combination.last_item.
  destruct (exists_last H) as (front & x & ->).
  rewrite rev_app_distr, last_last. reflexivity.
Qed.

End TakeLength.

(** X22. Every combination strategy raises [IndexError] exactly when it is
    given no responses; otherwise it returns the last response as the
    primary one (the best-quality strategy too) and hands the list of models
    through unchanged. *)
Theorem combine_fails_only_without_responses :
  forall (strategy : Combination.CombinationStrategy)
         (responses models : list string),
    (Combination.combine strategy responses models
     = inl Combination.IndexError <-> responses = [])
    /\ (forall c,
          Combination.combine strategy responses models = inr c ->
          Combination.primary_response c = List.last responses EmptyString
          /\ Combination.models_used c = models).
Proof.
  intros strategy responses models.
  destruct responses as [ | r rs ].
  - split; [ split; [ reflexivity | ] | ];
      destruct strategy; cbn; try reflexivity; discriminate.
  - assert (Hl : Combination.last_item (r :: rs)
                 = inr (List.last (r :: rs) EmptyString))
      by (apply last_item_last; discriminate).
    split; [ split; [ | discriminate ] | ];
      destruct strategy;
      unfold Combination.combine, Combination.use_latest,
        Combination.use_best_quality, Combination.merge_with_context;
      rewrite ?Hl;
      try discriminate.
    + destruct (_ =? 1)%nat; discriminate.
    + intros c [= <-]. split; reflexivity.
    + destruct rs as [ | r' rs' ]; cbn [List.length Nat.eqb];
        [ cbn; intros c [= <-]; split; reflexivity | ].
      intros c [= <-]. split; reflexivity.
    + intros c [= <-]. split; reflexivity.
Qed.

(** X23. [combine_responses] never fails on a chain that
    [handle_with_escalation] returned, whatever the strategy: its primary
    response is the preview (at most 200 characters and an ellipsis) of the
    content of the returned response, and its models are the models of the
    steps. *)
Theorem combine_responses_of_returned_chain :
  forall (World LLMError : Type) (generate : Props.Backend World LLMError)
         (now : World -> Z * World) (uuid4_hex : World -> string * World)
         (self : Escalation.EscalationHandler) (messages : list LLM.Message)
         (initial_model : string) (complexity_score : Z) (temperature : Q)
         (max_tokens : option Z) (w w' : World)
         (response : LLM.ChatResponse) (chain : Escalation.EscalationChain)
         (strategy : Combination.CombinationStrategy),
    Escalation.handle_with_escalation generate now uuid4_hex self messages
      initial_model complexity_score temperature max_tokens w
    = (inr (response, chain), w') ->
    exists c,
      Combination.combine_responses strategy chain = inr c
      /\ Combination.primary_response c
         = Escalation.preview (LLM.response_content response)
      /\ Combination.models_used c
         = map Escalation.model_used (Escalation.steps chain).
Proof.
  intros World LLMError generate now uuid4_hex self messages initial_model
    complexity_score temperature max_tokens w w' response chain strategy
    Hrun.
  apply handle_with_escalation_shape in Hrun
    as (r1 & w1 & t1 & w2 & _ & _ & _ & _ & _ & Hcases).
  cbv zeta in Hcases. unfold Combination.combine_responses.
  destruct Hcases as [(_ & -> & -> & _)
                     | (_ & r2 & w3 & t2 & _ & _ & _ & -> & -> & _)];
    cbn [map Props.recorded Escalation.response_preview
         Escalation.model_used];
    destruct strategy;
    cbn -[Escalation.preview Combination.preview500 PyStr.of_Z
          Combination.nl];
    eexists; repeat split.
Qed.

Lemma combine_responses_of_returned_chain_witness :
  exists response chain w',
    Demo.run = (inr (response, chain), w')
    /\ exists c,
         Combination.combine_responses Combination.MergeWithContext chain
         = inr c
         /\ Combination.primary_response c
            = Escalation.preview (LLM.response_content response)
         /\ Combination.models_used c
            = map Escalation.model_used (Escalation.steps chain).
Proof.
  destruct Demo.run as [[e | [response chain]] w'] eqn:Hrun;
    [ vm_compute in Hrun; discriminate | ].
  exists response, chain, w'. split; [ reflexivity | ].
  exact (combine_responses_of_returned_chain _ _ _ _ _ _ _ _ _ _
           Combination.MergeWithContext Hrun).
Defined.


(* ================================================================== *)
(** * Properties of the client's request and of the chat endpoint *)

Section Requests.

Import Client Props.

Lemma find_app (A : Type) (f : A -> bool) (l l' : list A) :
  find f (l ++ l')
  = match find f l with Some x => Some x | None => find f l' end.
Proof.
  induction l as [ | x r IH ]; [ reflexivity | ].
  cbn. destruct (f x); [ reflexivity | exact IH ].
Qed.

Lemma split_system_spec (messages : list LLM.Message) :
  forall (system_msg : option string) (conversation : list LLM.Message),
    split_system messages system_msg conversation
    = (match find is_system (rev messages) with
       | Some m => Some (LLM.content m)
       | None => system_msg
       end,
       conversation ++ filter (fun m => negb (is_system m)) messages).
Proof.
  induction messages as [ | msg more IH ]; intros system_msg conversation.
  - cbn. now rewrite app_nil_r.
  - cbn [split_system rev filter]. rewrite find_app. cbn [find].
    destruct (LLM.role msg) eqn:R.
    + assert (Hs : is_system msg = true)
        by (unfold is_system; now rewrite R).
      rewrite IH, Hs. cbn [negb].
      destruct (find is_system (rev more)); reflexivity.
    + assert (Hs : is_system msg = false)
        by (unfold is_system; now rewrite R).
      rewrite IH, Hs. cbn [negb]. rewrite <- app_assoc.
      destruct (find is_system (rev more)); reflexivity.
    + assert (Hs : is_system msg = false)
        by (unfold is_system; now rewrite R).
      rewrite IH, Hs. cbn [negb]. rewrite <- app_assoc.
      destruct (find is_system (rev more)); reflexivity.
Qed.

Lemma build_contents_spec (messages : list LLM.Message) :
  _build_contents messages
  = map to_content (filter (fun m => negb (is_system m)) messages).
Proof.
  induction messages as [ | msg more IH ]; [ reflexivity | ].
  cbn [_build_contents filter].
  destruct (LLM.role msg) eqn:R.
  - assert (Hs : is_system msg = true) by (unfold is_system; now rewrite R).
    rewrite Hs. exact IH.
  - assert (Hs : is_system msg = false) by (unfold is_system; now rewrite R).
    rewrite Hs. cbn [negb map]. rewrite IH. unfold to_content at 2.
    now rewrite R.
  - assert (Hs : is_system msg = false) by (unfold is_system; now rewrite R).
    rewrite Hs. cbn [negb map]. rewrite IH. unfold to_content at 2.
    now rewrite R.
Qed.

Lemma filter_twice (A : Type) (f : A -> bool) (l : list A) :
  filter f (filter f l) = filter f l.
Proof.
  induction l as [ | x r IH ]; [ reflexivity | ].
  cbn. destruct (f x) eqn:E; cbn; rewrite ?E, IH; reflexivity.
Qed.

Lemma user_prompt_none (messages : list LLM.Message) :
  Forall (fun x => ChatApi.is_user x = false) messages ->
  find ChatApi.is_user messages = None.
Proof.
  induction 1 as [ | x l Hx _ IH ]; [ reflexivity | ].
  cbn. now rewrite Hx.
Qed.

End Requests.

(** X25. What [generate] hands to the API: the messages that are not system
    messages, in their order, each with the role [user] or [model]; the
    system instruction is the one passed in, if it is not empty, and else
    the content of the last system message. *)
Theorem prepare_separates_system_messages :
  forall (messages : list LLM.Message) (system_instruction : option string),
    fst (Client.prepare messages system_instruction)
    = map Props.to_content
        (filter (fun m => negb (Props.is_system m)) messages)
    /\ snd (Client.prepare messages system_instruction)
       = Client.final_system system_instruction
           (match find Props.is_system (rev messages) with
            | Some m => Some (LLM.content m)
            | None => None
            end)
    /\ Forall (fun c => Client.content_role c = "user"%string
                        \/ Client.content_role c = "model"%string)
              (fst (Client.prepare messages system_instruction)).
Proof.
  intros messages system_instruction. unfold Client.prepare.
  rewrite split_system_spec. cbn [app fst snd].
  rewrite build_contents_spec, filter_twice.
  split; [ reflexivity | split; [ reflexivity | ] ].
  apply Forall_forall. intros c Hc.
  apply in_map_iff in Hc as (m & <- & _). unfold Props.to_content.
  cbn [Client.content_role]. destruct (LLM.role m); auto.
Qed.

(** X26. [user_prompt] is the content of the last message of the role
    [user], whatever follows it. *)
Theorem user_prompt_is_last_user_message :
  forall (before after : list LLM.Message) (m : LLM.Message),
    ChatApi.is_user m = true ->
    Forall (fun x => ChatApi.is_user x = false) after ->
    ChatApi.user_prompt (before ++ m :: after) = LLM.content m.
Proof.
  intros before after m Hm Hafter. unfold ChatApi.user_prompt.
  rewrite rev_app_distr. cbn [rev]. rewrite <- app_assoc. cbn [app].
  rewrite find_app, user_prompt_none.
  - cbn. now rewrite Hm.
  - apply Forall_forall. intros x Hx. rewrite Forall_forall in Hafter.
    apply Hafter. now apply in_rev.
Qed.

Lemma user_prompt_is_last_user_message_witness :
  let sys := {| LLM.role := LLM.system; LLM.content := "Be brief." |} in
  let q1 := {| LLM.role := LLM.user; LLM.content := "Hello" |} in
  let a1 := {| LLM.role := LLM.assistant; LLM.content := "Hi" |} in
  let q2 := {| LLM.role := LLM.user; LLM.content := "What is Rocq?" |} in
  ChatApi.is_user q2 = true
  /\ Forall (fun x => ChatApi.is_user x = false) [a1]
  /\ ChatApi.user_prompt ([sys; q1] ++ q2 :: [a1]) = "What is Rocq?"%string.
Proof.
  intros sys q1 a1 q2.
  assert (H : Forall (fun x => ChatApi.is_user x = false) [a1])
    by (repeat constructor).
  split; [ reflexivity | ]. split; [ exact H | ].
  exact (user_prompt_is_last_user_message [sys; q1] q2 eq_refl H).
Defined.

(** X27. [create_chat_completion] answers a request without a (non-empty)
    user message with the status 500, not 400: the [HTTPException] of the
    [try] block is caught by its own [except Exception].  No call reaches
    the back-end.  And whatever goes wrong, the status is 500 or 502. *)
Theorem chat_completion_never_answers_400 :
  forall (World LLMError : Type) (generate : Props.Backend World LLMError)
         (now : World -> Z * World) (uuid4_hex : World -> string * World)
         (create_request_log : MetricsLog.RequestLog -> World -> World)
         (error_message : LLMError -> string)
         (str_exception : ChatApi.Caught LLMError -> string)
         (request : ChatApi.ChatCompletionRequest)
         (routing_engine : Engine.RoutingEngine)
         (quality_checker : Quality.QualityChecker)
         (escalation_handler : Escalation.EscalationHandler) (w : World),
    let answer :=
      ChatApi.create_chat_completion generate now uuid4_hex
        create_request_log error_message str_exception request
        routing_engine quality_checker escalation_handler w in
    (ChatApi.user_prompt
       (map (fun m => {| LLM.role := ChatApi.role m;
                         LLM.content := ChatApi.content m |})
            (ChatApi.messages request)) = EmptyString ->
     answer
     = (inl {| ChatApi.status_code := 500;
               ChatApi.detail :=
                 ("Internal error: "
                  ++ str_exception
                       (ChatApi.Http
                          {| ChatApi.status_code := 400;
                             ChatApi.detail :=
                               "No user message found in request" |}))%string
            |},
        w))
    /\ (forall ex w',
          answer = (inl ex, w') ->
          ChatApi.status_code ex = 500%Z \/ ChatApi.status_code ex = 502%Z).
Proof.
  intros. subst answer.
  unfold ChatApi.create_chat_completion. split.
  - intros H. unfold ChatApi.try_block. rewrite H. reflexivity.
  - intros ex w'.
    destruct (ChatApi.try_block generate now uuid4_hex create_request_log
                request routing_engine quality_checker escalation_handler w)
      as [[[h | [e | s | ]] | r] w1];
      intros [= <- <-]; cbn; auto.
Qed.

Lemma chat_completion_never_answers_400_witness :
  let request :=
    {| ChatApi.model := None;
       ChatApi.messages :=
         [ {| ChatApi.role := LLM.system; ChatApi.content := "Be brief." |} ];
       ChatApi.temperature := 0.7;
       ChatApi.max_tokens := None;
       ChatApi.stream := false;
       ChatApi.force_model := None;
       ChatApi.skip_quality_check := false;
       ChatApi.include_analysis := false |} in
  exists ex,
    ChatApi.create_chat_completion Demo.generate Demo.now Demo.uuid4_hex
      (fun _ w => w) (fun _ => "backend"%string)
      (fun _ => "400: No user message found in request"%string)
      request (Engine.new_engine Config.defaults None None)
      (Quality.new_checker 60 50 None) Demo.handler 0%nat
    = (inl ex, 0%nat)
    /\ ChatApi.status_code ex = 500%Z.
Proof.
  intros request. eexists. split.
  - apply (chat_completion_never_answers_400 Demo.generate Demo.now
             Demo.uuid4_hex (fun _ w => w) (fun _ => "backend"%string)
             (fun _ => "400: No user message found in request"%string)
             request (Engine.new_engine Config.defaults None None)
             (Quality.new_checker 60 50 None) Demo.handler 0%nat).
    reflexivity.
  - reflexivity.
Defined.



(** X29. A request that the endpoint answers with one direct call is logged
    as not escalated, with the score of the assessment the endpoint made;
    but the final model of the record, and the rate of its estimated cost,
    are those of the model the router selected, also when the request named
    another model, which is the one that answered. *)
Theorem direct_requests_are_logged_with_routed_model :
  forall (World LLMError : Type) (generate : Props.Backend World LLMError)
         (now : World -> Z * World) (uuid4_hex : World -> string * World)
         (request : ChatApi.ChatCompletionRequest)
         (quality_checker : Quality.QualityChecker)
         (escalation_handler : Escalation.EscalationHandler)
         (messages : list LLM.Message)
         (analysis : Analyzer.ComplexityAnalysis)
         (routing : Router.RoutingDecision) (model_to_use : string)
         (w w' : World) (o : ChatApi.Outcome)
         (uuid_hex : string) (created completed : Z) (prompt : string),
    Router.requires_quality_check routing
    && negb (ChatApi.skip_quality_check request) = false ->
    ChatApi.respond generate now uuid4_hex request quality_checker
      escalation_handler messages analysis routing model_to_use w
    = (inr o, w') ->
    let log :=
      MetricsLog.log_request uuid_hex created completed prompt analysis
        routing (ChatApi.o_response o) (ChatApi.o_quality_assessment o)
        (ChatApi.o_escalation_chain o) None in
    generate messages model_to_use (ChatApi.temperature request)
      (ChatApi.max_tokens request) w = (inr (ChatApi.o_response o), w')
    /\ ChatApi.o_final_model o = model_to_use
    /\ MetricsLog.final_model log = Router.selected_model routing
    /\ MetricsLog.estimated_cost log
       = Metrics._calculate_cost (ChatApi.o_response o)
           (Router.selected_model routing)
    /\ MetricsLog.was_escalated log = false
    /\ MetricsLog.escalation_depth log = 0%Z
    /\ MetricsLog.quality_score log = ChatApi.o_quality_score o.
Proof.
  intros World LLMError generate now uuid4_hex request quality_checker
    escalation_handler messages analysis routing model_to_use w w' o
    uuid_hex created completed prompt Hb Hrun.
  unfold ChatApi.respond in Hrun. rewrite Hb in Hrun.
  unfold Escalation.handle_direct, Escalation.call_generate in Hrun.
  destruct (generate messages model_to_use (ChatApi.temperature request)
              (ChatApi.max_tokens request) w) as [[e | response] w1];
    [ discriminate | ].
  injection Hrun as <- <-. cbv zeta. repeat split.
Qed.

Lemma direct_requests_are_logged_with_routed_model_witness :
  let request :=
    {| ChatApi.model := None;
       ChatApi.messages :=
         [ {| ChatApi.role := LLM.user;
              ChatApi.content := "What is the capital of France?" |} ];
       ChatApi.temperature := 0.7;
       ChatApi.max_tokens := None;
       ChatApi.stream := false;
       ChatApi.force_model := Some "gemini-2.0-flash-thinking-exp"%string;
       ChatApi.skip_quality_check := true;
       ChatApi.include_analysis := true |} in
  let analysis :=
    {| Analyzer.complexity_score := 10;
       Analyzer.confidence := 0.5;
       Analyzer.level := Analyzer.LOW;
       Analyzer.detected_signals := [];
       Analyzer.prompt_length := 30;
       Analyzer.reasoning := "Score 10/100. " |} in
  let routing :=
    Router.decide Router.default_threshold_strategy analysis
      "gemini-2.0-flash" "gemini-2.0-flash-thinking-exp" 0 in
  exists o w',
    ChatApi.respond Demo.generate Demo.now Demo.uuid4_hex request
      (Quality.new_checker 60 50 None) Demo.handler Demo.messages analysis
      routing "gemini-2.0-flash-thinking-exp" 0%nat = (inr o, w')
    /\ ChatApi.o_final_model o = "gemini-2.0-flash-thinking-exp"%string
    /\ MetricsLog.final_model
         (MetricsLog.log_request "0f8fad5bd9cb469fa16570867728950e" 1 2
            "What is the capital of France?" analysis routing
            (ChatApi.o_response o) (ChatApi.o_quality_assessment o)
            (ChatApi.o_escalation_chain o) None)
       = "gemini-2.0-flash"%string.
Proof.
  intros request analysis routing.
  destruct (ChatApi.respond Demo.generate Demo.now Demo.uuid4_hex request
              (Quality.new_checker 60 50 None) Demo.handler Demo.messages
              analysis routing "gemini-2.0-flash-thinking-exp" 0%nat)
    as [[e | o] w'] eqn:Hrun; [ vm_compute in Hrun; discriminate | ].
  exists o, w'. split; [ reflexivity | ].
  destruct (direct_requests_are_logged_with_routed_model
              Demo.generate Demo.now Demo.uuid4_hex request
              (Quality.new_checker 60 50 None) Demo.handler
              Demo.messages analysis routing
              "gemini-2.0-flash-thinking-exp" 0%nat
              "0f8fad5bd9cb469fa16570867728950e" 1 2
              "What is the capital of France?" eq_refl Hrun)
    as (_ & Hf & Hl & _).
  split; [ exact Hf | exact Hl ].
Defined.

(* ================================================================== *)
(** * Properties of the database URL validator *)

Section UrlPieces.

Import PyStr ConfigValidators Props.
Local Open Scope string_scope.

Lemma free_of_cons (sep c : ascii) (s : string) :
  free_of sep (String c s) <-> c <> sep /\ free_of sep s.
Proof.
  unfold free_of. cbn. split.
  - intros H. split; [ apply H; now left | intros x Hx; apply H; now right ].
  - intros [Hc Hs] x [<- | Hx]; [ exact Hc | now apply Hs ].
Qed.

Lemma free_of_empty (sep : ascii) : free_of sep EmptyString.
Proof. intros c []. Qed.

Lemma split_once_some (sep : ascii) (s a b : string) :
  split_once sep s = Some (a, b) ->
  s = a ++ String sep b /\ free_of sep a.
Proof.
  revert a b. induction s as [ | c r IH ]; intros a b H; [ discriminate | ].
  cbn in H. destruct (Ascii.eqb_spec c sep) as [-> | Hne].
  - injection H as <- <-. split; [ reflexivity | apply free_of_empty ].
  - destruct (split_once sep r) as [[a' b'] | ]; [ | discriminate ].
    injection H as <- <-. destruct (IH a' b' eq_refl) as [-> Hfree].
    split; [ reflexivity | now apply free_of_cons ].
Qed.

Lemma split_once_none (sep : ascii) (s : string) :
  split_once sep s = None -> free_of sep s.
Proof.
  induction s as [ | c r IH ]; intros H; [ apply free_of_empty | ].
  cbn in H. destruct (Ascii.eqb_spec c sep) as [-> | Hne]; [ discriminate | ].
  destruct (split_once sep r) as [[a' b'] | ]; [ discriminate | ].
  apply free_of_cons. auto.
Qed.

Lemma split_once_app (sep : ascii) (a b : string) :
  free_of sep a -> split_once sep (a ++ String sep b) = Some (a, b).
Proof.
  induction a as [ | c r IH ]; intros H; cbn.
  - now rewrite Ascii.eqb_refl.
  - apply free_of_cons in H as [Hc Hr].
    destruct (Ascii.eqb_spec c sep); [ contradiction | ].
    now rewrite IH.
Qed.

Lemma split_char_go_free (sep : ascii) (s : string) :
  free_of sep (fst (split_char_go sep s))
  /\ Forall (free_of sep) (snd (split_char_go sep s)).
Proof.
  induction s as [ | c r IH ]; cbn.
  - split; [ apply free_of_empty | constructor ].
  - destruct (split_char_go sep r) as [w ws]. cbn [fst snd] in IH.
    destruct IH as [Hw Hws].
    destruct (Ascii.eqb_spec c sep) as [-> | Hne]; cbn [fst snd].
    + split; [ apply free_of_empty | now constructor ].
    + split; [ now apply free_of_cons | exact Hws ].
Qed.

Lemma split_char_free (sep : ascii) (s : string) :
  Forall (free_of sep) (split_char sep s).
Proof.
  unfold split_char. pose proof (split_char_go_free sep s) as [Hw Hws].
  destruct (split_char_go sep s) as [w ws]. now constructor.
Qed.

Lemma split_char_go_free_piece (sep : ascii) (s : string) :
  free_of sep s -> split_char_go sep s = (s, []).
Proof.
  induction s as [ | c r IH ]; intros H; [ reflexivity | ].
  apply free_of_cons in H as [Hc Hr]. cbn. rewrite (IH Hr).
  destruct (Ascii.eqb_spec c sep); [ contradiction | reflexivity ].
Qed.

Lemma split_char_go_app (sep : ascii) (a b : string) :
  free_of sep a ->
  split_char_go sep (a ++ String sep b)
  = (a, fst (split_char_go sep b) :: snd (split_char_go sep b)).
Proof.
  induction a as [ | c r IH ]; intros H.
  - cbn. destruct (split_char_go sep b) as [w ws].
    now rewrite Ascii.eqb_refl.
  - apply free_of_cons in H as [Hc Hr]. cbn. rewrite (IH Hr).
    destruct (Ascii.eqb_spec c sep); [ contradiction | reflexivity ].
Qed.

(** Splitting what was joined gives the pieces back. *)
Lemma split_join (sep : ascii) (l : list string) :
  l <> [] -> Forall (free_of sep) l ->
  split_char sep (join (String sep EmptyString) l) = l.
Proof.
  intros Hne H. unfold split_char.
  induction H as [ | x r Hx Hr IH ]; [ contradiction | ].
  destruct r as [ | y r' ].
  - cbn [join]. now rewrite split_char_go_free_piece.
  - change (join (String sep EmptyString) (x :: y :: r'))
      with (x ++ String sep (join (String sep EmptyString) (y :: r'))).
    rewrite split_char_go_app by exact Hx.
    specialize (IH ltac:(discriminate)).
    destruct (split_char_go sep (join (String sep EmptyString) (y :: r')))
      as [w ws].
    cbn [fst snd]. now rewrite IH.
Qed.

Lemma append_assoc (a b c : string) : (a ++ b) ++ c = a ++ b ++ c.
Proof. induction a as [ | x r IH ]; cbn; [ reflexivity | now rewrite IH ]. Qed.

Lemma join_snoc (sep : string) (l : list string) (x : string) :
  l <> [] -> join sep (l ++ [x]) = join sep l ++ sep ++ x.
Proof.
  intros Hne. induction l as [ | y r IH ]; [ contradiction | ].
  destruct r as [ | z r' ]; [ reflexivity | ].
  change (join sep ((y :: z :: r') ++ [x]))
    with (y ++ sep ++ join sep ((z :: r') ++ [x])).
  rewrite IH by discriminate.
  change (join sep (y :: z :: r')) with (y ++ sep ++ join sep (z :: r')).
  now rewrite !append_assoc.
Qed.

Lemma prefix_app (p a b : string) :
  String.prefix p a = true -> String.prefix p (a ++ b) = true.
Proof.
  revert a. induction p as [ | c r IH ]; intros a H;
    [ destruct (a ++ b); reflexivity | ].
  destruct a as [ | x a' ]; [ discriminate | ]. cbn in *.
  destruct (ascii_dec c x); [ now apply IH | discriminate ].
Qed.

Lemma prefix_before (sep : ascii) (p a b : string) :
  free_of sep p -> String.prefix p (a ++ String sep b) = true ->
  String.prefix p a = true.
Proof.
  revert a. induction p as [ | c r IH ]; intros a Hp H;
    [ destruct a; reflexivity | ].
  apply free_of_cons in Hp as [Hc Hr].
  destruct a as [ | x a' ]; cbn in *.
  - destruct (ascii_dec c sep); [ contradiction | discriminate ].
  - destruct (ascii_dec c x); [ now apply (IH a') | discriminate ].
Qed.

(** Two texts that agree up to their first [sep] begin alike. *)
Lemma prefix_same_base (sep : ascii) (p a b b' : string) :
  free_of sep p ->
  String.prefix p (a ++ String sep b) = false ->
  String.prefix p (a ++ String sep b') = false.
Proof.
  intros Hp H.
  destruct (String.prefix p (a ++ String sep b')) eqn:E; [ | reflexivity ].
  apply prefix_before in E; [ | exact Hp ].
  apply prefix_app with (b := String sep b) in E. congruence.
Qed.

Lemma filter_all (A : Type) (f : A -> bool) (l : list A) :
  Forall (fun x => f x = true) l -> filter f l = l.
Proof.
  induction 1 as [ | x r Hx _ IH ]; [ reflexivity | ].
  cbn. now rewrite Hx, IH.
Qed.

Lemma filter_holds (A : Type) (f : A -> bool) (l : list A) :
  Forall (fun x => f x = true) (filter f l).
Proof.
  apply Forall_forall. intros x Hx. now apply filter_In in Hx.
Qed.

Lemma filter_forall (A : Type) (P : A -> Prop) (f : A -> bool)
  (l : list A) : Forall P l -> Forall P (filter f l).
Proof.
  intros H. apply Forall_forall. intros x Hx. apply filter_In in Hx as [Hx _].
  rewrite Forall_forall in H. now apply H.
Qed.

Lemma free_of_literal_question (s : string) :
  s = "postgresql://" \/ s = "postgres://" -> free_of question_mark s.
Proof.
  intros [-> | ->]; intros c Hc; cbn in Hc;
    repeat (destruct Hc as [<- | Hc]; [ discriminate | ]);
    contradiction.
Qed.

Lemma free_of_ssl : free_of ampersand "ssl=require".
Proof.
  intros c Hc; cbn in Hc;
    repeat (destruct Hc as [<- | Hc]; [ discriminate | ]);
    contradiction.
Qed.

(** The first step of the validator leaves no plain scheme. *)
Lemma scheme_upgraded (v : string) :
  let v' :=
    if String.prefix "postgresql://" v
    then replace_first "postgresql://" "postgresql+asyncpg://" v
    else if String.prefix "postgres://" v
    then replace_first "postgres://" "postgresql+asyncpg://" v
    else v in
  String.prefix "postgresql://" v' = false
  /\ String.prefix "postgres://" v' = false.
Proof.
  cbv zeta.
  destruct (String.prefix "postgresql://" v) eqn:E1.
  - destruct v as [ | c r ]; [ discriminate | ].
    cbn [replace_first]. rewrite E1. split; reflexivity.
  - destruct (String.prefix "postgres://" v) eqn:E2.
    + destruct v as [ | c r ]; [ discriminate | ].
      cbn [replace_first]. rewrite E2. split; reflexivity.
    + split; assumption.
Qed.

(** The shape of a validated URL. *)
Lemma ensure_async_driver_shape (v : string) :
  exists base params,
    ensure_async_driver v
    = base ++ "?" ++ join "&" (params ++ ["ssl=require"])%list
    /\ free_of question_mark base
    /\ Forall (free_of ampersand) params
    /\ Forall (fun p => negb (String.prefix "sslmode=" p)
                        && negb (String.prefix "channel_binding=" p)
                        = true) params
    /\ String.prefix "postgresql://" (ensure_async_driver v) = false
    /\ String.prefix "postgres://" (ensure_async_driver v) = false.
Proof.
  unfold ensure_async_driver.
  pose proof (scheme_upgraded v) as Hs. cbv zeta in Hs.
  set (v' := if String.prefix "postgresql://" v then _ else _) in *.
  destruct Hs as [H1 H2].
  destruct (split_once question_mark v') as [[base params] | ] eqn:E.
  - apply split_once_some in E as [Hv Hbase].
    exists base,
      (filter (fun p => negb (String.prefix "sslmode=" p)
                        && negb (String.prefix "channel_binding=" p))
              (split_char ampersand params)).
    split; [ reflexivity | ]. split; [ exact Hbase | ].
    split; [ apply filter_forall, split_char_free | ].
    split; [ apply filter_holds | ].
    rewrite Hv in H1, H2.
    split; eapply prefix_same_base; try eassumption;
      apply free_of_literal_question; auto.
  - apply split_once_none in E.
    exists v', []. split; [ reflexivity | ]. split; [ exact E | ].
    split; [ constructor | ]. split; [ constructor | ].
    cbn [app join].
    split.
    + destruct (String.prefix "postgresql://" (v' ++ "?ssl=require")) eqn:P;
        [ | reflexivity ].
      apply (@prefix_before question_mark) in P;
        [ congruence | apply free_of_literal_question; auto ].
    + destruct (String.prefix "postgres://" (v' ++ "?ssl=require")) eqn:P;
        [ | reflexivity ].
      apply (@prefix_before question_mark) in P;
        [ congruence | apply free_of_literal_question; auto ].
Qed.

End UrlPieces.

(** X30. A validated database URL has the form
    [base?p1&...&pn&ssl=require], where [base] has no question mark and
    does not begin with a plain [postgresql://] or [postgres://], and no
    parameter [pi] is an [sslmode] or [channel_binding] parameter.  The
    validator is not idempotent: validating the result again appends a
    second [ssl=require]. *)
Theorem ensure_async_driver_appends_ssl_require :
  forall v : string,
    (exists base params,
       ConfigValidators.ensure_async_driver v
       = (base ++ "?"
          ++ PyStr.join "&" (params ++ ["ssl=require"%string]))%string
       /\ Props.free_of ConfigValidators.question_mark base
       /\ Forall (fun p => String.prefix "sslmode=" p = false
                           /\ String.prefix "channel_binding=" p = false)
                 params)
    /\ String.prefix "postgresql://" (ConfigValidators.ensure_async_driver v)
       = false
    /\ String.prefix "postgres://" (ConfigValidators.ensure_async_driver v)
       = false
    /\ ConfigValidators.ensure_async_driver
         (ConfigValidators.ensure_async_driver v)
       = (ConfigValidators.ensure_async_driver v ++ "&ssl=require")%string.
Proof.
  intros v.
  destruct (ensure_async_driver_shape v)
    as (base & params & Hr & Hbase & Hfree & Hkeep & H1 & H2).
  split; [ | split; [ exact H1 | split; [ exact H2 | ] ] ].
  - exists base, params. split; [ exact Hr | split; [ exact Hbase | ] ].
    eapply Forall_impl; [ | exact Hkeep ]. intros p Hp.
    apply andb_prop in Hp as [Ha Hb].
    now rewrite negb_true_iff in Ha, Hb.
  - unfold ConfigValidators.ensure_async_driver at 1.
    rewrite H1, H2. rewrite Hr at 1.
    change ("?" ++ PyStr.join "&" (params ++ ["ssl=require"%string]))%string
      with (String ConfigValidators.question_mark
              (PyStr.join "&" (params ++ ["ssl=require"%string]))).
    rewrite split_once_app by exact Hbase.
    change "&"%string with (String ConfigValidators.ampersand EmptyString).
    rewrite split_join.
    + rewrite filter_all.
      * rewrite join_snoc by (destruct params; discriminate).
        rewrite Hr.
        change ("?" ++ PyStr.join "&"
                         (params ++ ["ssl=require"%string]))%string
          with (String ConfigValidators.question_mark
                  (PyStr.join
                     (String ConfigValidators.ampersand EmptyString)
                     (params ++ ["ssl=require"%string]))).
        rewrite append_assoc. cbn [String.append]. reflexivity.
      * apply Forall_app. split; [ exact Hkeep | ].
        repeat constructor.
    + destruct params; discriminate.
    + apply Forall_app. split; [ exact Hfree | ].
      constructor; [ apply free_of_ssl | constructor ].
Qed.
